(** * wlauto.utils.trace_cmd: the trace-cmd text report parser

    A shallow embedding of [src/wlauto/utils/trace_cmd.py] (Python 2) and the
    properties of its event model, its body parsers and its line reader.

    Python [str] values are byte strings and are modelled by [string]; the
    dictionaries [event.fields] and [match.groupdict()] are [gmap]s keyed by
    strings; exceptions are explicit results. *)

From Stdlib Require Import ZArith Lia Bool Ascii String.
From stdpp Require Import base option list gmap strings fin_maps.

Local Open Scope Z_scope.
Local Open Scope nat_scope.

(** ** Python string primitives *)

Module Py.

(** [c.isspace()] for a byte in the C locale, also the class [\s] of [re]. *)
Definition isspace (c : ascii) : bool := Ascii.is_space c.

(** [c.isdigit()], also the class [\d] of [re]. *)
Definition isdigit (c : ascii) : bool :=
  match Ascii.is_nat c with Some _ => true | None => false end.

Definition is_empty (s : string) : bool :=
  match s with EmptyString => true | String _ _ => false end.

Definition is_empty_list {A} (l : list A) : bool :=
  match l with [] => true | _ :: _ => false end.

Fixpoint all_chars (p : ascii -> bool) (s : string) : bool :=
  match s with
  | EmptyString => true
  | String c s' => p c && all_chars p s'
  end.

(** [s.lstrip()] *)
Fixpoint lstrip (s : string) : string :=
  match s with
  | EmptyString => EmptyString
  | String c s' => if isspace c then lstrip s' else s
  end.

(** [s.rstrip()] *)
Fixpoint rstrip (s : string) : string :=
  match s with
  | EmptyString => EmptyString
  | String c s' =>
      let r := rstrip s' in
      if is_empty r && isspace c then EmptyString else String c r
  end.

(** [s.strip()] *)
Definition strip (s : string) : string := rstrip (lstrip s).

(** [s.split(sep)] for a one-character separator: never empty, one more
    fragment than there are separators. *)
Fixpoint split (sep : ascii) (s : string) : list string :=
  match s with
  | EmptyString => [EmptyString]
  | String c s' =>
      if Ascii.eqb c sep then EmptyString :: split sep s'
      else match split sep s' with
           | [] => [String c EmptyString]
           | w :: ws => String c w :: ws
           end
  end.

(** The cut of [s] at its last [sep], when there is one. *)
Fixpoint rcut (sep : ascii) (s : string) : option (string * string) :=
  match s with
  | EmptyString => None
  | String c s' =>
      match rcut sep s' with
      | Some (a, b) => Some (String c a, b)
      | None => if Ascii.eqb c sep then Some (EmptyString, s') else None
      end
  end.

(** [s.rsplit(sep, 1)] for a one-character separator. *)
Definition rsplit1 (sep : ascii) (s : string) : list string :=
  match rcut sep s with
  | Some (a, b) => [a; b]
  | None => [s]
  end.

(** [s.count(c)] for a one-character argument. *)
Fixpoint count (c : ascii) (s : string) : nat :=
  match s with
  | EmptyString => 0
  | String d s' => (if Ascii.eqb d c then 1 else 0) + count c s'
  end.

(** [s.startswith(p)] *)
Fixpoint startswith (p s : string) : bool :=
  match p, s with
  | EmptyString, _ => true
  | String a p', String b s' => Ascii.eqb a b && startswith p' s'
  | String _ _, EmptyString => false
  end.

(** [needle in s] *)
Fixpoint contains (needle s : string) : bool :=
  startswith needle s ||
  match s with
  | EmptyString => false
  | String _ s' => contains needle s'
  end.

(** [s.replace(old, new)] for a non-empty [old]: occurrences are replaced
    from the left and do not overlap.  [skip] counts the characters of an
    occurrence that are still to be dropped. *)
Fixpoint replace_from (old new : string) (skip : nat) (s : string) : string :=
  match s with
  | EmptyString => EmptyString
  | String c s' =>
      match skip with
      | S k => replace_from old new k s'
      | O =>
          if startswith old s
          then new +:+ replace_from old new (String.length old - 1) s'
          else String c (replace_from old new 0 s')
      end
  end.

Definition replace (old new s : string) : string := replace_from old new 0 s.

(** The value of a string of decimal digits, most significant first. *)
Fixpoint digits_value (acc : Z) (s : string) : Z :=
  match s with
  | EmptyString => acc
  | String c s' =>
      digits_value (10 * acc + Z.of_nat (default 0%nat (Ascii.is_nat c)))%Z s'
  end.

(** [int(s)] on a byte string, base 10: surrounding whitespace is ignored,
    one sign is allowed, then one digit at least and digits only.  [None]
    stands for the [ValueError] that [int] raises. *)
Definition int (s : string) : option Z :=
  let t := strip s in
  let '(neg, d) :=
    match t with
    | String "-" d => (true, d)
    | String "+" d => (false, d)
    | _ => (false, t)
    end in
  if is_empty d then None
  else if all_chars isdigit d
       then Some (if neg then (- digits_value 0 d)%Z else digits_value 0 d)
       else None.

(** [for line in fh]: the content of a file cut after each newline, the
    newline kept with its line. *)
Fixpoint readlines (content : string) : list string :=
  match content with
  | EmptyString => []
  | String c s' =>
      if Ascii.eqb c "010" then String c EmptyString :: readlines s'
      else match readlines s' with
           | [] => [String c EmptyString]
           | l :: ls => String c l :: ls
           end
  end.

End Py.

(** ** Python values, exceptions and results *)

(** The values the module stores in event attributes and fields. *)
Inductive pyval :=
| VNone
| VInt (n : Z)
| VFloat (repr : string)
| VStr (s : string).

(** Exceptions.  [Exception_ c] is any other class derived from [Exception];
    [BaseOnly c] is an exception that is no instance of [Exception], such
    as [KeyboardInterrupt], which [except Exception] lets through. *)
Inductive pyexn :=
| ValueError
| TypeError
| KeyError (key : string)
| AttributeError (name : string)
| ReError
| Exception_ (cls : string)
| BaseOnly (cls : string).

(** [isinstance(e, Exception)] *)
Definition is_Exception (e : pyexn) : bool :=
  match e with BaseOnly _ => false | _ => true end.

Inductive result (A : Type) :=
| Ok (a : A)
| Raise (e : pyexn).
Arguments Ok {A} a.
Arguments Raise {A} e.

#[global] Instance pyval_eq_dec : EqDecision pyval.
Proof. solve_decision. Defined.

(** ** Regular expressions: the fragment of [re] the module uses *)

Module Re.

(** Members of a bracketed class. *)
Inductive cset :=
| CChar (c : ascii)
| CRange (lo hi : ascii)
| CDigit | CNotDigit
| CSpace | CNotSpace
| CWord | CNotWord.

(** Compiled patterns. *)
Inductive re :=
| Empty
| Chr (c : ascii)
| Any
| Cls (neg : bool) (items : list cset)
| Bol
| Eol
| Cat (r1 r2 : re)
| Alt (r1 r2 : re)
| Star (greedy : bool) (r : re)
| Plus (greedy : bool) (r : re)
| Opt (greedy : bool) (r : re)
| Group (name : option string) (r : re).

Definition newline : ascii := "010".

Definition isword (c : ascii) : bool :=
  let n := nat_of_ascii c in
  Py.isdigit c || ((65 <=? n) && (n <=? 90)) || ((97 <=? n) && (n <=? 122)) || (n =? 95).

Definition in_cset (c : ascii) (i : cset) : bool :=
  match i with
  | CChar a => Ascii.eqb a c
  | CRange lo hi => (nat_of_ascii lo <=? nat_of_ascii c) && (nat_of_ascii c <=? nat_of_ascii hi)
  | CDigit => Py.isdigit c
  | CNotDigit => negb (Py.isdigit c)
  | CSpace => Py.isspace c
  | CNotSpace => negb (Py.isspace c)
  | CWord => isword c
  | CNotWord => negb (isword c)
  end.

Definition in_cls (neg : bool) (items : list cset) (c : ascii) : bool :=
  xorb neg (existsb (in_cset c) items).

(** *** [re.compile]: from the pattern source to the compiled pattern *)

(** A backslash escape that stands for a class. *)
Definition esc_class (e : ascii) : option cset :=
  match e with
  | "d" => Some CDigit | "D" => Some CNotDigit
  | "s" => Some CSpace | "S" => Some CNotSpace
  | "w" => Some CWord | "W" => Some CNotWord
  | _ => None
  end%char.

(** A backslash escape that stands for one character: the control escapes
    and any escaped punctuation.  Other escapes are outside the fragment. *)
Definition esc_char (e : ascii) : option ascii :=
  match e with
  | "n" => Some "010" | "t" => Some "009" | "r" => Some "013"
  | "f" => Some "012" | "v" => Some "011"
  | _ => if isword e then None else Some e
  end%char.

Definition cat (r1 r2 : re) : re :=
  match r2 with Empty => r1 | _ => Cat r1 r2 end.

(** The members of a class up to its closing bracket.  A range runs from a
    character to one that is not below it; a class escape is no end of a
    range, and a range that starts at an escape is outside the fragment. *)
Fixpoint parse_items (s : string) : option (list cset * string) :=
  match s with
  | EmptyString => None
  | String "]" s' => Some ([], s')
  | String "\" (String e (String "-" (String "]" s'))) =>
      let item :=
        match esc_class e with
        | Some i => Some i
        | None => option_map CChar (esc_char e)
        end in
      match item with
      | Some i => Some ([i; CChar "-"], s')
      | None => None
      end
  | String "\" (String _ (String "-" _)) => None
  | String "\" (String e s') =>
      let item :=
        match esc_class e with
        | Some i => Some i
        | None => option_map CChar (esc_char e)
        end in
      match item, parse_items s' with
      | Some i, Some (rest, s'') => Some (i :: rest, s'')
      | _, _ => None
      end
  | String "\" EmptyString => None
  | String lo (String "-" (String "]" s')) => Some ([CChar lo; CChar "-"], s')
  | String _ (String "-" (String "\" _)) => None
  | String lo (String "-" (String hi s')) =>
      if nat_of_ascii lo <=? nat_of_ascii hi
      then match parse_items s' with
           | Some (rest, s'') => Some (CRange lo hi :: rest, s'')
           | None => None
           end
      else None
  | String c s' =>
      match parse_items s' with
      | Some (rest, s'') => Some (CChar c :: rest, s'')
      | None => None
      end
  end.

(** The characters of a group name up to [>]. *)
Fixpoint parse_name_chars (s : string) : option (string * string) :=
  match s with
  | EmptyString => None
  | String ">" s' => Some (EmptyString, s')
  | String c s' =>
      if isword c
      then match parse_name_chars s' with
           | Some (n, s'') => Some (String c n, s'')
           | None => None
           end
      else None
  end.

(** The name of a group: an identifier, so not empty and with no digit
    first. *)
Definition parse_name (s : string) : option (string * string) :=
  match parse_name_chars s with
  | Some (String c n, s') => if Py.isdigit c then None else Some (String c n, s')
  | _ => None
  end.

(** A pattern that can match the empty text: an anchor, or a pattern made
    of such parts. *)
Fixpoint nullable (r : re) : bool :=
  match r with
  | Empty | Bol | Eol => true
  | Chr _ | Any | Cls _ _ => false
  | Cat r1 r2 => nullable r1 && nullable r2
  | Alt r1 r2 => nullable r1 || nullable r2
  | Star _ _ | Opt _ _ => true
  | Plus _ r1 | Group _ r1 => nullable r1
  end.

(** A quantifier after an atom, with its lazy form.  [re] has nothing to
    repeat in an anchor, and Python 2 refuses to repeat what can match both
    the empty text and texts without a bound; the other repetitions of what
    can match the empty text are outside the fragment. *)
Definition parse_quant (a : re) (s : string) : option (re * string) :=
  let ok (q : re) (s' : string) := if nullable a then None else Some (q, s') in
  match s with
  | String "*" (String "?" s') => ok (Star false a) s'
  | String "*" s' => ok (Star true a) s'
  | String "+" (String "?" s') => ok (Plus false a) s'
  | String "+" s' => ok (Plus true a) s'
  | String "?" (String "?" s') => ok (Opt false a) s'
  | String "?" s' => ok (Opt true a) s'
  | _ => Some (a, s)
  end.

Definition expect_close (p : option (re * string)) (wrap : re -> re) : option (re * string) :=
  match p with
  | Some (r, String ")" s') => Some (wrap r, s')
  | _ => None
  end.

Fixpoint parse_alt (fuel : nat) (s : string) : option (re * string) :=
  match fuel with
  | O => None
  | S f =>
      match parse_seq f s with
      | Some (r1, String "|" s') =>
          match parse_alt f s' with
          | Some (r2, s'') => Some (Alt r1 r2, s'')
          | None => None
          end
      | other => other
      end
  end
with parse_seq (fuel : nat) (s : string) : option (re * string) :=
  match fuel with
  | O => None
  | S f =>
      match s with
      | EmptyString | String "|" _ | String ")" _ => Some (Empty, s)
      | _ =>
          match parse_atom f s with
          | Some (a, s1) =>
              match parse_quant a s1 with
              | Some (q, s2) =>
                  match parse_seq f s2 with
                  | Some (r, s3) => Some (cat q r, s3)
                  | None => None
                  end
              | None => None
              end
          | None => None
          end
      end
  end
with parse_atom (fuel : nat) (s : string) : option (re * string) :=
  match fuel with
  | O => None
  | S f =>
      match s with
      | EmptyString => None
      | String "(" (String "?" (String ":" s')) =>
          expect_close (parse_alt f s') (fun r => r)
      | String "(" (String "?" (String "P" (String "<" s'))) =>
          match parse_name s' with
          | Some (n, s'') => expect_close (parse_alt f s'') (Group (Some n))
          | None => None
          end
      | String "(" (String "?" _) => None
      | String "(" s' => expect_close (parse_alt f s') (Group None)
      | String "[" (String "^" (String "]" _)) | String "[" (String "]" _) => None
      | String "[" (String "^" s') =>
          match parse_items s' with
          | Some (rest, s'') => Some (Cls true rest, s'')
          | None => None
          end
      | String "[" s' =>
          match parse_items s' with
          | Some (rest, s'') => Some (Cls false rest, s'')
          | None => None
          end
      | String "\" (String e s') =>
          match esc_class e with
          | Some i => Some (Cls false [i], s')
          | None =>
              match esc_char e with
              | Some c => Some (Chr c, s')
              | None => None
              end
          end
      | String "\" EmptyString => None
      | String "." s' => Some (Any, s')
      | String "^" s' => Some (Bol, s')
      | String "$" s' => Some (Eol, s')
      | String "*" _ | String "+" _ | String "?" _ | String "{" _ | String "}" _ => None
      | String c s' => Some (Chr c, s')
      end
  end.

(** The names of the groups of a pattern, in the order of the source. *)
Fixpoint names (r : re) : list string :=
  match r with
  | Cat r1 r2 | Alt r1 r2 => names r1 ++ names r2
  | Star _ r1 | Plus _ r1 | Opt _ r1 => names r1
  | Group (Some n) r1 => n :: names r1
  | Group None r1 => names r1
  | _ => []
  end.

(** No group name is defined twice. *)
Fixpoint distinct (l : list string) : bool :=
  match l with
  | [] => true
  | n :: l' => negb (existsb (String.eqb n) l') && distinct l'
  end.

(** The number of groups of a pattern, named or not. *)
Fixpoint groups (r : re) : nat :=
  match r with
  | Cat r1 r2 | Alt r1 r2 => groups r1 + groups r2
  | Star _ r1 | Plus _ r1 | Opt _ r1 => groups r1
  | Group _ r1 => S (groups r1)
  | _ => 0
  end.

(** [re.compile(source)] with no flags, on the fragment of the syntax the
    patterns of the module are written in: [Some r] when the source is in
    the fragment and [re] compiles it, to a pattern that matches as [r]
    does.  [None] says nothing: the source is one [re] refuses (a group
    name defined twice, a hundred groups, nothing to repeat, an unbalanced
    parenthesis) or one outside the fragment (counted repetition,
    look-around, back-references and more). *)
Definition compile (source : string) : option re :=
  match parse_alt (4 * String.length source + 4) source with
  | Some (r, EmptyString) =>
      if distinct (names r) && (groups r <? 100) then Some r else None
  | _ => None
  end.

(** *** Matching: a backtracking matcher with the priorities of [re] *)

(** The text captured by each named group, the latest capture first. *)
Definition caps := list (string * string).

(** What remains to be matched: whether the position is the start of the
    subject, the rest of the subject, the captures so far. *)
Definition cont := bool -> string -> caps -> option caps.

Definition orelse (a b : option caps) : option caps :=
  match a with Some x => Some x | None => b end.

(** [$]: at the end, or just before a newline that ends the subject. *)
Definition at_end (s : string) : bool :=
  match s with
  | EmptyString => true
  | String c EmptyString => Ascii.eqb c newline
  | _ => false
  end.

Fixpoint take (n : nat) (s : string) : string :=
  match n, s with
  | S n', String c s' => String c (take n' s')
  | _, _ => EmptyString
  end.

(** The text between the position [s] and the later position [s']. *)
Definition consumed (s s' : string) : string :=
  take (String.length s - String.length s') s.

Definition record (name : option string) (text : string) (c : caps) : caps :=
  match name with Some n => (n, text) :: c | None => c end.

(** Repetition of [body]: every round has to consume something. *)
Fixpoint star (body : bool -> string -> caps -> cont -> option caps)
    (greedy : bool) (fuel : nat) (bol : bool) (s : string) (c : caps) (k : cont)
    : option caps :=
  match fuel with
  | O => k bol s c
  | S f =>
      let more :=
        body bol s c (fun b' s' c' =>
          if String.length s' <? String.length s
          then star body greedy f b' s' c' k else None) in
      if greedy then orelse more (k bol s c) else orelse (k bol s c) more
  end.

Definition one (p : ascii -> bool) (s : string) (c : caps) (k : cont) : option caps :=
  match s with
  | String a s' => if p a then k false s' c else None
  | EmptyString => None
  end.

Fixpoint m (r : re) (bol : bool) (s : string) (c : caps) (k : cont) : option caps :=
  match r with
  | Empty => k bol s c
  | Chr a => one (Ascii.eqb a) s c k
  | Any => one (fun b => negb (Ascii.eqb b newline)) s c k
  | Cls neg items => one (in_cls neg items) s c k
  | Bol => if bol then k bol s c else None
  | Eol => if at_end s then k bol s c else None
  | Cat r1 r2 => m r1 bol s c (fun b' s' c' => m r2 b' s' c' k)
  | Alt r1 r2 => orelse (m r1 bol s c k) (m r2 bol s c k)
  | Star g r1 => star (m r1) g (S (String.length s)) bol s c k
  | Plus g r1 =>
      m r1 bol s c (fun b' s' c' => star (m r1) g (S (String.length s')) b' s' c' k)
  | Opt g r1 =>
      if g then orelse (m r1 bol s c k) (k bol s c)
      else orelse (k bol s c) (m r1 bol s c k)
  | Group n r1 => m r1 bol s c (fun b' s' c' => k b' s' (record n (consumed s s') c'))
  end.

(** [pattern.search(s)]: the first position, from the left, where the
    pattern matches; the result stands for the match object. *)
Fixpoint search_from (r : re) (bol : bool) (s : string) : option caps :=
  match m r bol s [] (fun _ _ c => Some c) with
  | Some c => Some c
  | None =>
      match s with
      | EmptyString => None
      | String _ s' => search_from r false s'
      end
  end.

Definition search (r : re) (s : string) : option caps := search_from r true s.

(** [match.group(name)]: [None] when the group took no part in the match. *)
Fixpoint group (name : string) (c : caps) : option string :=
  match c with
  | [] => None
  | (n, t) :: c' => if String.eqb n name then Some t else group name c'
  end.

(** [match.groupdict()]: every named group of the pattern, [None] for those
    that took no part in the match. *)
Definition groupdict (r : re) (c : caps) : gmap string (option string) :=
  list_to_map (map (fun n => (n, group n c)) (names r)).

(** *** What a match is: the denotation of a pattern *)

(** Zero or more rounds of a pattern of denotation [D], each round
    consuming something. *)
Inductive star_den (D : bool -> string -> string -> caps -> caps -> Prop)
    : bool -> string -> string -> caps -> caps -> Prop :=
| star_done bol rest c : star_den D bol EmptyString rest c c
| star_round bol p1 p2 rest c c1 c2 :
    p1 <> EmptyString ->
    D bol p1 (p2 +:+ rest) c c1 ->
    star_den D false p2 rest c1 c2 ->
    star_den D bol (p1 +:+ p2) rest c c2.

(** [den r bol p rest c c']: at a position that is the start of the subject
    iff [bol], the pattern [r] can match the text [p] when [rest] follows,
    and the captures [c] become [c']. *)
Fixpoint den (r : re) (bol : bool) (p rest : string) (c c' : caps) : Prop :=
  match r with
  | Empty => p = EmptyString /\ c' = c
  | Chr a => p = String a EmptyString /\ c' = c
  | Any => exists b, p = String b EmptyString /\ b <> newline /\ c' = c
  | Cls neg items =>
      exists b, p = String b EmptyString /\ in_cls neg items b = true /\ c' = c
  | Bol => p = EmptyString /\ bol = true /\ c' = c
  | Eol => p = EmptyString /\ at_end rest = true /\ c' = c
  | Cat r1 r2 =>
      exists p1 p2 c1, p = p1 +:+ p2 /\ den r1 bol p1 (p2 +:+ rest) c c1 /\
        den r2 (bol && Py.is_empty p1) p2 rest c1 c'
  | Alt r1 r2 => den r1 bol p rest c c' \/ den r2 bol p rest c c'
  | Star _ r1 => star_den (den r1) bol p rest c c'
  | Plus _ r1 =>
      exists p1 p2 c1, p = p1 +:+ p2 /\ den r1 bol p1 (p2 +:+ rest) c c1 /\
        star_den (den r1) (bol && Py.is_empty p1) p2 rest c1 c'
  | Opt _ r1 => den r1 bol p rest c c' \/ (p = EmptyString /\ c' = c)
  | Group n r1 => exists c1, den r1 bol p rest c c1 /\ c' = record n p c1
  end.

End Re.

(** A matching function is sound for a denotation when each of its
    successes goes through a text of the denotation. *)
Definition sound_at (f : bool -> string -> Re.caps -> Re.cont -> option Re.caps)
    (D : bool -> string -> string -> Re.caps -> Re.caps -> Prop) : Prop :=
  forall bol s c k res, f bol s c k = Some res ->
    exists p rest c', s = p +:+ rest /\ D bol p rest c c' /\
      k (bol && Py.is_empty p) rest c' = Some res.

(** Patterns that match exactly one character, those of a class [q]. *)
Definition single (r : Re.re) (q : ascii -> bool) : Prop :=
  forall bol p rest c c', Re.den r bol p rest c c' ->
    exists b, p = String b "" /\ q b = true /\ c' = c.

(** ** The fuel of the repetition is never used up *)

(** A matching function that looks at its continuation through its values
    only. *)
Definition respects_cont (f : bool -> string -> Re.caps -> Re.cont -> option Re.caps)
    : Prop :=
  forall bol s c k k',
    (forall b s' c', k b s' c' = k' b s' c') -> f bol s c k = f bol s c k'.

(** ** The event model *)

Inductive event_class := TraceCmdEvent_class | DroppedEventsEvent_class.

(** An event object: its class and its six slots. *)
Record event_obj := {
  cls : event_class;
  thread : pyval;
  reporting_cpu_id : pyval;
  timestamp : pyval;
  name : pyval;
  text : pyval;
  fields : gmap string pyval
}.

(** [event.fields[k] = v] *)
Definition set_field (k : string) (v : pyval) (ev : event_obj) : event_obj :=
  {| cls := cls ev; thread := thread ev; reporting_cpu_id := reporting_cpu_id ev;
     timestamp := timestamp ev; name := name ev; text := text ev;
     fields := <[k := v]> (fields ev) |}.

(** A body parser is called as [parser(event, text)] and updates the event
    in place: it gives the event as it leaves it and the exception it
    raised, if any. *)
Definition body_parser := event_obj -> string -> event_obj * option pyexn.

(** What an attribute access evaluates to. *)
Inductive attr :=
| AVal (v : pyval)
| ADict (d : gmap string pyval)
| AClassAttr (attr_name : string).

Definition slot_names : list string :=
  ["thread"; "reporting_cpu_id"; "timestamp"; "name"; "text"; "fields"].

(** The names found on the two classes and on [object] by the normal
    attribute lookup. *)
Definition class_attrs : list string :=
  ["__init__"; "__getattr__"; "__str__"; "__repr__"; "__slots__"; "__module__";
   "__doc__"; "__class__"; "__delattr__"; "__format__"; "__getattribute__";
   "__hash__"; "__new__"; "__reduce__"; "__reduce_ex__"; "__setattr__";
   "__sizeof__"; "__subclasshook__"].

(** [TraceCmdEvent.__getattr__] and [DroppedEventsEvent.__getattr__]: the
    same body in both classes. *)
Definition __getattr__ (self : event_obj) (attr_name : string) : result attr :=
  match fields self !! attr_name with
  | Some v => Ok (AVal v)
  | None => Raise (AttributeError attr_name)
  end.

(** [event.<attr_name>]: the slots and the class attributes are found by
    the normal lookup, and [__getattr__] is called only when it fails. *)
Definition getattr (self : event_obj) (attr_name : string) : result attr :=
  if String.eqb attr_name "thread" then Ok (AVal (thread self))
  else if String.eqb attr_name "reporting_cpu_id" then Ok (AVal (reporting_cpu_id self))
  else if String.eqb attr_name "timestamp" then Ok (AVal (timestamp self))
  else if String.eqb attr_name "name" then Ok (AVal (name self))
  else if String.eqb attr_name "text" then Ok (AVal (text self))
  else if String.eqb attr_name "fields" then Ok (ADict (fields self))
  else if existsb (String.eqb attr_name) class_attrs then Ok (AClassAttr attr_name)
  else __getattr__ self attr_name.

(** [DroppedEventsEvent(cpu_id)] *)
Definition DroppedEventsEvent (cpu_id : string) : result event_obj :=
  match Py.int cpu_id with
  | None => Raise ValueError
  | Some n =>
      Ok {| cls := DroppedEventsEvent_class; thread := VNone; reporting_cpu_id := VNone;
            timestamp := VNone; name := VStr "DROPPED EVENTS DETECTED"; text := VNone;
            fields := {[ "cpu_id" := VInt n ]} |}
  end.

(** ** Body parsers *)

(** [try: v = int(v) except ValueError: pass] *)
Definition int_or_str (v : string) : pyval :=
  match Py.int v with Some n => VInt n | None => VStr v end.

(** [zip(i, i)] over one iterator [i] of [parts]. *)
Fixpoint zip_pairs (parts : list string) : list (string * string) :=
  match parts with
  | k :: v :: rest => (k, v) :: zip_pairs rest
  | _ => []
  end.

(** The two list comprehensions of [default_body_parser]. *)
Definition body_parts (text : string) : list string :=
  let parts := map (Py.rsplit1 " ") (Py.split "=" (Py.strip text)) in
  map Py.strip (concat parts).

Definition store_pairs (pairs : list (string * string)) (event : event_obj) : event_obj :=
  fold_left (fun ev kv => set_field kv.1 (int_or_str kv.2) ev) pairs event.

Definition default_body_parser : body_parser := fun event text =>
  let parts := body_parts text in
  if Nat.even (length parts)
  then (store_pairs (zip_pairs parts) event, None)
  else (event, None).

(** The argument of [regex_body_parser]: a pattern source or a compiled
    pattern. *)
Inductive regex_arg :=
| Source (pattern : string)
| Compiled (r : Re.re).

(** The loop of [regex_parser_func]: [int(None)] raises [TypeError], which
    the loop does not catch. *)
Fixpoint store_groups (items : list (string * option string)) (event : event_obj)
    : event_obj * option pyexn :=
  match items with
  | [] => (event, None)
  | (k, Some v) :: rest => store_groups rest (set_field k (int_or_str v) event)
  | (k, None) :: _ => (event, Some TypeError)
  end.

Definition TRACE_MARKER_START : string := "TRACE_MARKER_START".
Definition TRACE_MARKER_STOP : string := "TRACE_MARKER_STOP".

Definition SCHED_SWITCH_SOURCE : string :=
  "(?P<prev_comm>\S.*):(?P<prev_pid>\d+) \[(?P<prev_prio>\d+)\] (?P<status>\S+) ==> (?P<next_comm>\S.*):(?P<next_pid>\d+) \[(?P<next_prio>\d+)\]".

Definition TRACE_EVENT_SOURCE : string :=
  "^\s+(?P<thread>\S+.*?\S+)\s+\[(?P<cpu_id>\d+)\]\s+(?P<ts>[\d.]+):\s+(?P<name>[^:]+):\s+(?P<body>.*?)\s*$".

Definition HEADER_SOURCE : string := "^\s*(?:version|cpus)\s*=\s*([\d.]+)\s*$".

Definition DROPPED_EVENTS_SOURCE : string := "CPU:(?P<cpu_id>\d+) \[\d*\s*EVENTS DROPPED\]".

Definition EMPTY_CPU_SOURCE : string := "CPU \d+ is empty".

(** The module-level patterns, compiled when the module is loaded. *)
Definition compiled (source : string) : Re.re := default Re.Empty (Re.compile source).

Definition SCHED_SWITCH_REGEX : Re.re := Eval vm_compute in compiled SCHED_SWITCH_SOURCE.
Definition TRACE_EVENT_REGEX : Re.re := Eval vm_compute in compiled TRACE_EVENT_SOURCE.
Definition HEADER_REGEX : Re.re := Eval vm_compute in compiled HEADER_SOURCE.
Definition DROPPED_EVENTS_REGEX : Re.re := Eval vm_compute in compiled DROPPED_EVENTS_SOURCE.
Definition EMPTY_CPU_REGEX : Re.re := Eval vm_compute in compiled EMPTY_CPU_SOURCE.

(** ** The reader *)

Inductive level := Debug | Warning.

(** What the generator makes visible, in order: the events it yields and
    the records it logs. *)
Inductive output :=
| Yield (ev : event_obj)
| Log (lvl : level) (msg : string).

(** How the generator ends: the source is exhausted, the stop marker broke
    the loop, or an exception left it. *)
Inductive ending := Exhausted | Stopped | Raised (e : pyexn).

Record run := {
  emitted : list output;
  lines_read : nat;
  ended : ending
}.

(** What the body of the loop does with one line. *)
Inductive step :=
| Next (inside : bool) (out : list output)
| Break
| Abort (e : pyexn).

Record TraceCmdTrace := {
  filter_markers : bool;
  file_path : string;
  names : list string
}.

(** An entry of [EVENT_PARSER_MAP]: a callable, a compiled pattern or a
    pattern source. *)
Inductive parser_entry :=
| Callable (p : body_parser)
| Pattern (r : Re.re)
| PatternSource (pattern : string).

Definition quote : string := String "034" EmptyString.

Definition invalid_message (line : string) : string :=
  "Invalid trace event: " +:+ quote +:+ line +:+ quote.

Definition matches (rx : Re.re) (s : string) : bool :=
  match Re.search rx s with Some _ => true | None => false end.

(** The keyword arguments [**match.groupdict()] of the event pattern. *)
Definition kwargs (gd : gmap string (option string))
    : option (string * string * string * string * string) :=
  match gd !! "thread", gd !! "cpu_id", gd !! "ts", gd !! "name", gd !! "body" with
  | Some (Some thread), Some (Some cpu_id), Some (Some ts), Some (Some name), Some (Some body) =>
      Some (thread, cpu_id, ts, name, body)
  | _, _, _, _, _ => None
  end.

(** Modelled from the spec: [wlauto.utils.misc.memoized] is imported by the
    module and its source is not part of it.  Section 6 says of
    [has_start_marker]: "memoized per reader instance (computed at most
    once)", and section 9: "an explicit cached value computed on first call
    and reused thereafter".  The cache keeps, for the identity of a reader,
    the answer of the first call; a later call for that identity returns
    the answer kept and computes nothing. *)
Definition memo_cache := gmap N bool.

Definition memoized {A} (f : A -> bool) (cache : memo_cache) (reader : N) (x : A)
    : bool * memo_cache :=
  match cache !! reader with
  | Some answer => (answer, cache)
  | None => (f x, <[reader := f x]> cache)
  end.

(** The body of [has_start_marker]: the scan of the file, line by line. *)
Definition find_start_marker (content : string) : bool :=
  existsb (Py.contains TRACE_MARKER_START) (Py.readlines content).

(** [self.has_start_marker], a memoized property: [reader] is the identity
    of [self], [content] what the file holds when the property is read; the
    cache is given and returned. *)
Definition has_start_marker (cache : memo_cache) (reader : N) (content : string)
    : bool * memo_cache :=
  memoized find_start_marker cache reader content.

(** The header of an event: its class and the five slots beside
    [fields]. *)
Definition header (ev : event_obj)
    : event_class * pyval * pyval * pyval * pyval * pyval :=
  (cls ev, thread ev, reporting_cpu_id ev, timestamp ev, name ev, text ev).

(** A body parser that writes to [event.fields] only. *)
Definition keeps_header (p : body_parser) : Prop :=
  forall ev text, header (p ev text).1 = header ev.

(** The value the latest pair of key [k] gives, if there is one. *)
Fixpoint last_value (k : string) (pairs : list (string * string)) : option string :=
  match pairs with
  | [] => None
  | (k', v) :: rest =>
      match last_value k rest with
      | Some w => Some w
      | None => if String.eqb k' k then Some v else None
      end
  end.

(** The tokenisation in the words of section 4.2 of the specification:
    "first split on [=], then for every interior fragment (not first/last)
    split off the trailing whitespace-delimited token as the next key". *)
Fixpoint spec_cut_interior (first : bool) (frags : list string) : list (list string) :=
  match frags with
  | [] => []
  | [f] => [[f]]
  | f :: rest =>
      (if first then [f] else Py.rsplit1 " " f) :: spec_cut_interior false rest
  end.

Definition spec_body_parts (text : string) : list string :=
  map Py.strip (concat (spec_cut_interior true (Py.split "=" (Py.strip text)))).

(** The default parser over the tokenisation of the specification. *)
Definition spec_default_body_parser : body_parser := fun event text =>
  let parts := spec_body_parts text in
  if Nat.even (length parts)
  then (store_pairs (zip_pairs parts) event, None)
  else (event, None).

(** A run seen from [n] lines earlier. *)
Definition after_lines (n : nat) (r : run) : run :=
  {| emitted := emitted r; lines_read := n + lines_read r; ended := ended r |}.

(** The events among the outputs. *)
Definition events (out : list output) : list event_obj :=
  omap (fun o => match o with Yield ev => Some ev | Log _ _ => None end) out.

(** The events a step of the loop yields. *)
Definition step_events (st : step) : list event_obj :=
  match st with
  | Next _ out => events out
  | Break | Abort _ => []
  end.

(** An event straight out of the header assignments of
    [TraceCmdEvent.__init__]. *)
Definition fresh_event (thread : string) (n : Z) (t : pyval) (name body : string)
    : event_obj :=
  {| cls := TraceCmdEvent_class; thread := VStr thread; reporting_cpu_id := VInt n;
     timestamp := t; name := VStr name; text := VStr body; fields := ∅ |}.

(** The shape of a line the event pattern matches, with the texts of its
    five groups: leading whitespace, a thread made of a run of
    non-whitespace, any text and a second run of non-whitespace, whitespace,
    the CPU id in brackets, and further on the name before a colon. *)
Definition event_line (line thread cpu_id ts name body : string) : Prop :=
  exists ws1 t1 t2 t3 ws2 tail1 head2 tail2,
    thread = t1 +:+ t2 +:+ t3 /\
    t1 <> "" /\ Py.all_chars (fun b => negb (Py.isspace b)) t1 = true /\
    t3 <> "" /\ Py.all_chars (fun b => negb (Py.isspace b)) t3 = true /\
    ws1 <> "" /\ Py.all_chars Py.isspace ws1 = true /\
    ws2 <> "" /\ Py.all_chars Py.isspace ws2 = true /\
    line = ws1 +:+ thread +:+ ws2 +:+ String "[" tail1 /\
    line = head2 +:+ name +:+ String ":" tail2 /\
    name <> "" /\
    cpu_id <> "" /\ Py.all_chars Py.isdigit cpu_id = true.

(** A line with a newline at its end at most, as the lines of a file
    are. *)
Fixpoint one_line (line : string) : bool :=
  match line with
  | EmptyString => true
  | String c s' => if Ascii.eqb c "010" then Py.is_empty s' else one_line s'
  end.

(** The same reader with the marker filtering off. *)
Definition without_markers (self : TraceCmdTrace) : TraceCmdTrace :=
  {| filter_markers := false; file_path := file_path self; names := names self |}.

(** The warning of the [else] of the loop. *)
Definition no_stop_warning : list output :=
  [Log Warning "Did not encounter a stop marker in trace"].

(** The event [DroppedEventsEvent] makes of a CPU id that reads as [n]. *)
Definition dropped_event (n : Z) : event_obj :=
  {| cls := DroppedEventsEvent_class; thread := VNone; reporting_cpu_id := VNone;
     timestamp := VNone; name := VStr "DROPPED EVENTS DETECTED"; text := VNone;
     fields := {[ "cpu_id" := VInt n ]} |}.

(** The characters of the class [[\d.]] of the timestamp group. *)
Definition is_ts_char (b : ascii) : bool := Py.isdigit b || Ascii.eqb b ".".

(** A key or a value of a body: a text without whitespace and without
    [=]. *)
Definition is_token (s : string) : bool :=
  Py.all_chars (fun b => negb (Py.isspace b) && negb (Ascii.eqb b "=")) s.

(** What is between two pairs of a body: whitespace with a space character
    in it. *)
Definition is_sep (s : string) : bool :=
  Py.all_chars Py.isspace s && negb (Py.count " " s =? 0).

(** The body text of a list of pairs, [key=value] with [sep] between two
    pairs. *)
Fixpoint format_pairs (sep : string) (pairs : list (string * string)) : string :=
  match pairs with
  | [] => ""
  | (k, v) :: rest =>
      k +:+ "=" +:+ v +:+
      match rest with
      | [] => ""
      | _ :: _ => sep +:+ format_pairs sep rest
      end
  end.

(** A text that does not start with [=]. *)
Definition no_eq_first (s : string) : Prop :=
  match s with String c _ => c <> "="%char | EmptyString => True end.

(** The keys and values of a list of pairs, in order. *)
Definition flatten_pairs (pairs : list (string * string)) : list string :=
  concat (map (fun kv => [kv.1; kv.2]) pairs).

(** The pattern of the characters of [n], each one for itself, before
    [tail]. *)
Fixpoint literal (n : string) (tail : Re.re) : Re.re :=
  match n with
  | EmptyString => tail
  | String c n' => Re.Cat (Re.Chr c) (literal n' tail)
  end.

(** A name made of letters, digits and underscores: a pattern source that
    stands for itself. *)
Definition is_plain_name (n : string) : bool := Py.all_chars Re.isword n.

(** Whitespace, one character at least. *)
Definition is_blank (s : string) : bool :=
  negb (Py.is_empty s) && Py.all_chars Py.isspace s.

(** A line of the report in the format the docstring of [TraceCmdEvent]
    draws: the thread, the CPU id in brackets, the timestamp, the name and
    the body, with whitespace before the thread, the bracket and the
    timestamp, one space before the name and the body, and [eol] at its
    end. *)
Definition event_text (ws1 th ws2 cpu ws3 ts nm bd eol : string) : string :=
  ws1 +:+ th +:+ ws2 +:+ "[" +:+ cpu +:+ "]" +:+ ws3 +:+ ts +:+ ": " +:+ nm +:+ ": " +:+
  bd +:+ eol.

(** No bracket of a body opens a second header: the text after a [[] holds
    fewer than two colons. *)
Fixpoint body_brackets_ok (s : string) : bool :=
  match s with
  | EmptyString => true
  | String c s' =>
      (if Ascii.eqb c "[" then Py.count ":" s' <? 2 else true) && body_brackets_ok s'
  end.

(** The parts of a line of the documented format: the thread is a stripped
    text of two characters at least, without a bracket; the CPU id is made
    of digits and the timestamp of digits and points; the name is made of
    letters, digits and underscores; the body is a stripped text; the line
    ends with the file or with a newline. *)
Definition is_event_text (ws1 th ws2 cpu ws3 ts nm bd eol : string) : bool :=
  is_blank ws1 && is_blank ws2 && is_blank ws3 &&
  String.eqb (Py.strip th) th && (2 <=? String.length th) &&
  (Py.count "010" th =? 0) && (Py.count "[" th =? 0) &&
  negb (Py.is_empty cpu) && Py.all_chars Py.isdigit cpu &&
  negb (Py.is_empty ts) && Py.all_chars is_ts_char ts &&
  negb (Py.is_empty nm) && is_plain_name nm &&
  String.eqb (Py.strip bd) bd && (Py.count "010" bd =? 0) && body_brackets_ok bd &&
  Re.at_end eol.

(** The body text of a [sched_switch] event in the older format of the
    report, the one [SCHED_SWITCH_REGEX] is written for. *)
Definition legacy_text (pc pp pr st nc np npr : string) : string :=
  pc +:+ ":" +:+ pp +:+ " [" +:+ pr +:+ "] " +:+ st +:+ " ==> " +:+
  nc +:+ ":" +:+ np +:+ " [" +:+ npr +:+ "]".

(** A command name of such a text: it starts with no whitespace and holds
    neither a line feed nor [=]. *)
Definition is_comm (s : string) : bool :=
  match s with
  | EmptyString => false
  | String a _ => negb (Py.isspace a)
  end && (Py.count "010" s =? 0) && (Py.count "=" s =? 0).

(** Digits, one at least. *)
Definition is_number (d : string) : bool :=
  negb (Py.is_empty d) && Py.all_chars Py.isdigit d.

(** The parts of a body text of the older format: the state is a token, and
    the name of the next command holds no [[]. *)
Definition is_legacy_text (pc pp pr st nc np npr : string) : bool :=
  is_comm pc && is_number pp && is_number pr &&
  negb (Py.is_empty st) && is_token st &&
  is_comm nc && (Py.count "[" nc =? 0) && is_number np && is_number npr.

(** Modelled from the spec: [wlauto.utils.types.numeric] is imported by the
    module and its source is not part of it.  Section 4.1 calls it "a
    permissive numeric-or-string coercion that returns a string unchanged
    if it is not purely numeric": digits are the integer, digits around one
    point a float, kept as its literal, and any other text is returned as
    it is. *)
Definition numeric_model (ts : string) : result pyval :=
  match Py.int ts with
  | Some n => Ok (VInt n)
  | None =>
      match Py.split "." ts with
      | [a; b] =>
          if Py.all_chars Py.isdigit (a +:+ b) && negb (Py.is_empty (a +:+ b))
          then Ok (VFloat ts) else Ok (VStr ts)
      | _ => Ok (VStr ts)
      end
  end.

(** ** Sample inputs *)

Definition nl : string := String "010" EmptyString.

Definition sample_reader (markers : bool) (event_names : list string) : TraceCmdTrace :=
  {| filter_markers := markers; file_path := "trace.txt"; names := event_names |}.

Definition sample_event : event_obj :=
  fresh_event "<idle>-0" 0 (VFloat "3284.126993") "sched_rq_runnable_load" "cpu=0 load=54".

(** A [re.compile] that refuses whatever is outside the fragment. *)
Definition refuse_other (source : string) (flags : Z) : result Re.re := Raise ReError.

(** A parser that sets one field and then fails. *)
Definition failing_parser : body_parser := fun event _ =>
  (set_field "seen" (VInt 1) event, Some (Exception_ "RuntimeError")).

(** A parser that assigns the CPU slot of the event. *)
Definition overwriting_parser : body_parser := fun event _ =>
  ({| cls := cls event; thread := thread event; reporting_cpu_id := VInt 7;
      timestamp := timestamp event; name := name event; text := text event;
      fields := fields event |}, None).

(** A pattern with a group that an optional part holds. *)
Definition OPTIONAL_GROUP_REGEX : Re.re := Eval vm_compute in compiled "(?P<a>x)?(?P<b>y)".


(** Lines of a report. *)
Definition dropped_line : string := "CPU:3 [42 EVENTS DROPPED]" +:+ nl.
Definition event_line_a : string := " th-1 [001] 1.5: foo: a=1" +:+ nl.
Definition start_line : string := "TRACE_MARKER_START" +:+ nl.
Definition stop_line : string := "TRACE_MARKER_STOP" +:+ nl.

(** The event of [event_line_a]. *)
Definition event_a : event_obj :=
  set_field "a" (VInt 1) (fresh_event "th-1" 1 (VFloat "1.5") "foo" "a=1").

Section TraceCmd.

(** [wlauto.utils.types.numeric], which the module imports: any function
    from the timestamp text to a value or an exception. *)
Variable numeric : string -> result pyval.

(** [dict.iteritems()]: a Python 2 dictionary is iterated in an order of
    its own, here any order of the entries. *)
Variable iteritems : gmap string (option string) -> list (string * option string).
Hypothesis iteritems_perm : forall d, iteritems d ≡ₚ map_to_list d.

(** [re.compile(source, flags)] where [Re.compile] says nothing: with
    flags, on a source outside the fragment, on a source [re] refuses.  Any
    function to a compiled pattern or to an exception. *)
Variable compile_other : string -> Z -> result Re.re.

(** [re.compile(source, flags)] *)
Definition re_compile (source : string) (flags : Z) : result Re.re :=
  if (flags =? 0)%Z
  then match Re.compile source with
       | Some r => Ok r
       | None => compile_other source flags
       end
  else compile_other source flags.

(** [TraceCmdEvent(thread, cpu_id, ts, name, body, parser)] *)
Definition TraceCmdEvent (thread cpu_id ts name body : string)
    (parser : option body_parser) : result event_obj :=
  match Py.int cpu_id with
  | None => Raise ValueError
  | Some n =>
      match numeric ts with
      | Raise e => Raise e
      | Ok t =>
          let self := fresh_event thread n t name body in
          match parser with
          | None => Ok self
          | Some p =>
              match p self body with
              | (self', None) => Ok self'
              | (self', Some e) => if is_Exception e then Ok self' else Raise e
              end
          end
      end
  end.

Definition regex_parser_func (regex : Re.re) : body_parser := fun event text =>
  match Re.search regex text with
  | Some mt => store_groups (iteritems (Re.groupdict regex mt)) event
  | None => (event, None)
  end.

(** [regex_body_parser(regex, flags)]: the flags are for a pattern source
    and are ignored with a compiled pattern; they are 0 by default. *)
Definition regex_body_parser (regex : regex_arg) (flags : Z) : result body_parser :=
  match regex with
  | Source pattern =>
      match re_compile pattern flags with
      | Ok r => Ok (regex_parser_func r)
      | Raise e => Raise e
      end
  | Compiled r => Ok (regex_parser_func r)
  end.

Definition sched_switch_parser : body_parser := fun event text =>
  if Py.count "=" text =? 2
  then
    match re_compile SCHED_SWITCH_SOURCE 0 with
    | Ok regex =>
        match regex_body_parser (Compiled regex) 0 with
        | Ok parser_func => parser_func event text
        | Raise e => (event, Some e)
        end
    | Raise e => (event, Some e)
    end
  else default_body_parser event (Py.replace "==>" "" text).

Definition EVENT_PARSER_MAP : gmap string parser_entry :=
  {[ "sched_switch" := Callable sched_switch_parser ]}.

(** The lines 282 to 284 of [parse]: the parser of an event name, a pattern
    or a pattern source being wrapped by [regex_body_parser].  The registry
    is a dictionary of the module that its users may add entries to before
    they parse: [parser_map] is what it holds when the line is read. *)
Definition lookup_parser_in (parser_map : gmap string parser_entry) (event_name : string)
    : result body_parser :=
  match default (Callable default_body_parser) (parser_map !! event_name) with
  | Callable p => Ok p
  | Pattern r => regex_body_parser (Compiled r) 0
  | PatternSource pattern => regex_body_parser (Source pattern) 0
  end.

(** The same with the registry as the module defines it. *)
Definition lookup_parser : string -> result body_parser :=
  lookup_parser_in EVENT_PARSER_MAP.

(** [re.compile('^{}$'.format(n)) for n in self.names or []]: the names are
    compiled in order, and the first one [re] refuses raises. *)
Fixpoint make_filters (names : list string) : result (list Re.re) :=
  match names with
  | [] => Ok []
  | n :: rest =>
      match re_compile ("^" +:+ n +:+ "$") 0 with
      | Raise e => Raise e
      | Ok f =>
          match make_filters rest with
          | Raise e => Raise e
          | Ok filters => Ok (f :: filters)
          end
      end
  end.

(** The body of the loop from the dropped-events test on, with [parser_map]
    for what the registry holds. *)
Definition classify_in (parser_map : gmap string parser_entry) (filters : list Re.re)
    (inside : bool) (line : string) : step :=
  match Re.search DROPPED_EVENTS_REGEX line with
  | Some mt =>
      match Re.group "cpu_id" mt with
      | Some cpu_id =>
          match DroppedEventsEvent cpu_id with
          | Ok ev => Next inside [Yield ev]
          | Raise e => Abort e
          end
      | None => Abort TypeError
      end
  | None =>
      if existsb (fun rx => matches rx line) [HEADER_REGEX; EMPTY_CPU_REGEX]
      then Next inside [Log Debug (Py.strip line)]
      else
        match Re.search TRACE_EVENT_REGEX line with
        | None => Next inside [Log Warning (invalid_message line)]
        | Some mt =>
            match kwargs (Re.groupdict TRACE_EVENT_REGEX mt) with
            | None => Abort TypeError
            | Some (thread, cpu_id, ts, event_name, body) =>
                if negb (Py.is_empty_list filters) &&
                   negb (existsb (fun f => matches f event_name) filters)
                then Next inside []
                else
                  match lookup_parser_in parser_map event_name with
                  | Raise e => Abort e
                  | Ok body_parser =>
                      match TraceCmdEvent thread cpu_id ts event_name body (Some body_parser) with
                      | Ok ev => Next inside [Yield ev]
                      | Raise e => Abort e
                      end
                  end
            end
        end
  end.

(** The same with the registry as the module defines it. *)
Definition classify : list Re.re -> bool -> string -> step :=
  classify_in EVENT_PARSER_MAP.

(** The body of the loop of [parse] on one line, with [parser_map] for what
    the registry holds. *)
Definition process_line_in (parser_map : gmap string parser_entry) (self : TraceCmdTrace)
    (filters : list Re.re) (inside_marked_region : bool) (line : string) : step :=
  if filter_markers self
  then
    if negb inside_marked_region
    then
      if Py.contains TRACE_MARKER_START line then Next true [] else Next inside_marked_region []
    else
      if Py.contains TRACE_MARKER_STOP line then Break
      else classify_in parser_map filters inside_marked_region line
  else classify_in parser_map filters inside_marked_region line.

(** The same with the registry as the module defines it. *)
Definition process_line : TraceCmdTrace -> list Re.re -> bool -> string -> step :=
  process_line_in EVENT_PARSER_MAP.

(** The loop of [parse] over the lines that are left, with its [else], and
    with [parser_map] for what the registry holds. *)
Fixpoint parse_loop_in (parser_map : gmap string parser_entry) (self : TraceCmdTrace)
    (filters : list Re.re) (inside_marked_region : bool) (lines : list string) : run :=
  match lines with
  | [] =>
      {| emitted :=
           if filter_markers self && inside_marked_region
           then [Log Warning "Did not encounter a stop marker in trace"] else [];
         lines_read := 0; ended := Exhausted |}
  | line :: rest =>
      match process_line_in parser_map self filters inside_marked_region line with
      | Next inside out =>
          let r := parse_loop_in parser_map self filters inside rest in
          {| emitted := out ++ emitted r; lines_read := S (lines_read r);
             ended := ended r |}
      | Break => {| emitted := []; lines_read := 1; ended := Stopped |}
      | Abort e => {| emitted := []; lines_read := 1; ended := Raised e |}
      end
  end.

(** The same with the registry as the module defines it. *)
Definition parse_loop : TraceCmdTrace -> list Re.re -> bool -> list string -> run :=
  parse_loop_in EVENT_PARSER_MAP.

(** [TraceCmdTrace.parse], run to its end on the file of content [content],
    with [parser_map] for what the registry holds. *)
Definition parse_in (parser_map : gmap string parser_entry) (self : TraceCmdTrace)
    (content : string) : run :=
  match make_filters (names self) with
  | Raise e => {| emitted := []; lines_read := 0; ended := Raised e |}
  | Ok filters => parse_loop_in parser_map self filters false (Py.readlines content)
  end.

(** The same with the registry as the module defines it. *)
Definition parse : TraceCmdTrace -> string -> run := parse_in EVENT_PARSER_MAP.

(** The parser [parse] picks for an event name: the entry of
    [EVENT_PARSER_MAP], which holds [sched_switch] only, or the default. *)
Definition parser_of (event_name : string) : body_parser :=
  if String.eqb event_name "sched_switch" then sched_switch_parser
  else default_body_parser.

(** What can be said of an event of the stream: it is the event of a
    dropped-events notice, or a trace event whose slots hold the texts of
    the groups of the event pattern, with the shapes the pattern gives
    them. *)
Definition stream_event (ev : event_obj) : Prop :=
  (exists n, (0 <= n)%Z /\ ev = dropped_event n) \/
  (cls ev = TraceCmdEvent_class /\
   exists th cpu ts nm bd,
     thread ev = VStr th /\ Py.strip th = th /\ 2 <= String.length th /\
     reporting_cpu_id ev = VInt (Py.digits_value 0 cpu) /\
     cpu <> "" /\ Py.all_chars Py.isdigit cpu = true /\
     numeric ts = Ok (timestamp ev) /\
     ts <> "" /\ Py.all_chars is_ts_char ts = true /\
     name ev = VStr nm /\ nm <> "" /\ Py.count ":" nm = 0 /\
     text ev = VStr bd /\ Py.count "010" bd = 0).

(** * Properties *)

Set Default Proof Using "Type".

(** ** The string primitives on examples *)

Example strip_ex : Py.strip "  cpu=0 load=54 " = "cpu=0 load=54".
Proof. reflexivity. Qed.

Example split_ex : Py.split "=" "cpu=0 load=54" = ["cpu"; "0 load"; "54"].
Proof. reflexivity. Qed.

Example split_empty_ex : Py.split "=" "" = [""].
Proof. reflexivity. Qed.

Example rsplit1_ex :
  Py.rsplit1 " " "foo bar pid" = ["foo bar"; "pid"] /\ Py.rsplit1 " " "cpu" = ["cpu"].
Proof. split; reflexivity. Qed.

Example replace_ex : Py.replace "==>" "" "a=1 ==> b=2 ===>" = "a=1  b=2 =".
Proof. reflexivity. Qed.

Example int_ex :
  Py.int "054" = Some 54%Z /\ Py.int " -7 " = Some (-7)%Z /\ Py.int "+3" = Some 3%Z /\
  Py.int "" = None /\ Py.int "1.5" = None /\ Py.int "- 1" = None /\ Py.int "0x1" = None.
Proof. repeat split; reflexivity. Qed.

Example readlines_ex :
  Py.readlines ("ab" +:+ String "010" ("c" +:+ String "010" "")) =
    [String "a" (String "b" (String "010" "")); String "c" (String "010" "")] /\
  Py.readlines "ab" = ["ab"].
Proof. split; reflexivity. Qed.

(** Sources that [re] refuses, which [Re.compile] gives no pattern for:
    an anchor or nothing to repeat, a repetition repeated, a range that runs
    backwards, a group name defined twice, an unbalanced parenthesis. *)
Example compile_refused_ex :
  Re.compile "^*foo$" = None /\ Re.compile "$*" = None /\ Re.compile "*foo" = None /\
  Re.compile "a**" = None /\ Re.compile "(a*)*" = None /\ Re.compile "[z-a]" = None /\
  Re.compile "[\d-a]" = None /\ Re.compile "(?P<n>a)(?P<n>b)" = None /\
  Re.compile "(a" = None /\ Re.compile "a)" = None.
Proof. repeat split; reflexivity. Qed.

(** Sources outside the fragment, which [Re.compile] gives no pattern for
    either. *)
Example compile_outside_ex :
  Re.compile "^fo{2}$" = None /\ Re.compile "a(?=b)" = None /\ Re.compile "(a)\1" = None /\
  Re.compile "\bfoo" = None.
Proof. repeat split; reflexivity. Qed.

Example compile_ex :
  Re.compile "^sched_.*$" =
    Some (Re.Cat Re.Bol (literal "sched_" (Re.Cat (Re.Star true Re.Any) Re.Eol))) /\
  Re.compile "a|b+?" = Some (Re.Alt (Re.Chr "a") (Re.Plus false (Re.Chr "b"))).
Proof. split; reflexivity. Qed.

(** ** Strings *)

Lemma append_nil_r (s : string) : s +:+ "" = s.
Proof.
  induction s as [|a s IH]; [done|].
  change (String a (s +:+ "") = String a s). by rewrite IH.
Qed.

Lemma append_cons (x : ascii) (a b : string) : String x a +:+ b = String x (a +:+ b).
Proof. done. Qed.

Lemma append_assoc (a b c : string) : (a +:+ b) +:+ c = a +:+ (b +:+ c).
Proof.
  induction a as [|x a IH]; [done|]. by rewrite !append_cons, IH.
Qed.

Lemma length_append (a b : string) :
  String.length (a +:+ b) = String.length a + String.length b.
Proof.
  induction a as [|x a IH]; [done|]. rewrite append_cons. simpl. by rewrite IH.
Qed.

Lemma is_empty_true (s : string) : Py.is_empty s = true <-> s = "".
Proof. by destruct s. Qed.

Lemma is_empty_false (s : string) : Py.is_empty s = false <-> s <> "".
Proof. by destruct s. Qed.

Lemma is_empty_append (a b : string) :
  Py.is_empty (a +:+ b) = Py.is_empty a && Py.is_empty b.
Proof. by destruct a. Qed.

Lemma all_chars_append (q : ascii -> bool) (a b : string) :
  Py.all_chars q (a +:+ b) = Py.all_chars q a && Py.all_chars q b.
Proof.
  induction a as [|x a IH]; [done|]. rewrite append_cons. simpl.
  by rewrite IH, andb_assoc.
Qed.

Lemma all_chars_ext (q q' : ascii -> bool) (s : string) :
  (forall b, q b = q' b) -> Py.all_chars q s = Py.all_chars q' s.
Proof. intros E. induction s as [|x s IH]; [done|]. simpl. by rewrite E, IH. Qed.

Lemma take_append (p s : string) : Re.take (String.length p) (p +:+ s) = p.
Proof.
  induction p as [|x p IH]; [by destruct s|]. rewrite append_cons. simpl. by rewrite IH.
Qed.

Lemma consumed_append (p s : string) : Re.consumed (p +:+ s) s = p.
Proof.
  unfold Re.consumed. rewrite length_append.
  replace (String.length p + String.length s - String.length s)
    with (String.length p) by lia.
  apply take_append.
Qed.

(** Two ways of cutting the same string meet in a common middle. *)
Lemma append_eq_append (x y u v : string) :
  x +:+ y = u +:+ v ->
  (exists w, u = x +:+ w /\ y = w +:+ v) \/ (exists w, x = u +:+ w /\ v = w +:+ y).
Proof.
  revert u. induction x as [|a x IH]; intros u H.
  - left. by exists u.
  - destruct u as [|b u].
    + right. by exists (String a x).
    + rewrite !append_cons in H. injection H as -> H.
      apply IH in H as [(w & -> & ->)|(w & -> & ->)]; [left|right]; by exists w.
Qed.

(** ** The matcher is sound for the denotation *)

Lemma orelse_Some (a b : option Re.caps) (x : Re.caps) :
  Re.orelse a b = Some x -> a = Some x \/ b = Some x.
Proof. destruct a; simpl; auto. Qed.

Lemma one_sound (q : ascii -> bool) s c k res :
  Re.one q s c k = Some res ->
  exists b rest, s = String b rest /\ q b = true /\ k false rest c = Some res.
Proof.
  destruct s as [|b s]; [done|]. simpl. destruct (q b) eqn:Hq; [|done]. eauto.
Qed.

Lemma star_sound f D g :
  sound_at f D -> forall fuel, sound_at (Re.star f g fuel) (Re.star_den D).
Proof.
  intros Hf fuel. induction fuel as [|fuel IH]; intros bol s c k res H.
  - simpl in H. exists "", s, c. rewrite andb_true_r.
    split_and!; [done|constructor|done].
  - simpl in H.
    assert (Hcases :
      (f bol s c (fun b' s' c' =>
          if String.length s' <? String.length s
          then Re.star f g fuel b' s' c' k else None) = Some res) \/
      k bol s c = Some res).
    { destruct g; apply orelse_Some in H as [H|H]; auto. }
    destruct Hcases as [Hmore|Hk].
    + apply Hf in Hmore as (p1 & s1 & c1 & -> & HD & Hk).
      destruct (String.length s1 <? String.length (p1 +:+ s1)) eqn:Hlt; [|done].
      apply Nat.ltb_lt in Hlt. rewrite length_append in Hlt.
      assert (Hne : p1 <> "") by (intros ->; simpl in Hlt; lia).
      apply IH in Hk as (p2 & rest & c2 & -> & HS & Hk).
      assert (He : Py.is_empty p1 = false) by by apply is_empty_false.
      rewrite He, andb_false_r in HS, Hk.
      exists (p1 +:+ p2), rest, c2. rewrite append_assoc, is_empty_append, He.
      rewrite andb_false_l, andb_false_r. split_and!; [done| |done].
      by econstructor.
    + exists "", s, c. rewrite andb_true_r. split_and!; [done|constructor|done].
Qed.

Theorem m_sound r : sound_at (Re.m r) (Re.den r).
Proof.
  induction r as [| a | | neg items | | | r1 IH1 r2 IH2 | r1 IH1 r2 IH2
                 | g r IH | g r IH | g r IH | n r IH];
    intros bol s c k res H; cbn [Re.m] in H.
  - exists "", s, c. by rewrite andb_true_r.
  - apply one_sound in H as (b & rest & -> & Hb & Hk). apply Ascii.eqb_eq in Hb as <-.
    exists (String a ""), rest, c. by rewrite andb_false_r.
  - apply one_sound in H as (b & rest & -> & Hb & Hk).
    exists (String b ""), rest, c. rewrite andb_false_r. split_and!; [done| |done].
    exists b. split_and!; [done| |done]. intros ->. by rewrite Ascii.eqb_refl in Hb.
  - apply one_sound in H as (b & rest & -> & Hb & Hk).
    exists (String b ""), rest, c. rewrite andb_false_r. split_and!; [done| |done].
    by exists b.
  - destruct bol; [|done]. by exists "", s, c.
  - destruct (Re.at_end s) eqn:He; [|done]. exists "", s, c. by rewrite andb_true_r.
  - apply IH1 in H as (p1 & s1 & c1 & -> & H1 & H).
    apply IH2 in H as (p2 & rest & c2 & -> & H2 & H).
    exists (p1 +:+ p2), rest, c2. rewrite append_assoc, is_empty_append, andb_assoc.
    split_and!; [done| |done]. by exists p1, p2, c1.
  - apply orelse_Some in H as [H|H]; [apply IH1 in H|apply IH2 in H];
      destruct H as (p & rest & c' & -> & HD & Hk); exists p, rest, c';
      (split_and!; [done| |done]); [by left|by right].
  - by apply (star_sound _ _ _ IH) in H.
  - apply IH in H as (p1 & s1 & c1 & -> & H1 & H).
    apply (star_sound _ _ _ IH) in H as (p2 & rest & c2 & -> & H2 & H).
    exists (p1 +:+ p2), rest, c2. rewrite append_assoc, is_empty_append, andb_assoc.
    split_and!; [done| |done]. by exists p1, p2, c1.
  - assert (Hcases : Re.m r bol s c k = Some res \/ k bol s c = Some res).
    { destruct g; apply orelse_Some in H as [H|H]; auto. }
    destruct Hcases as [H'|H'].
    + apply IH in H' as (p & rest & c' & -> & HD & Hk). exists p, rest, c'.
      split_and!; [done|by left|done].
    + exists "", s, c. rewrite andb_true_r. split_and!; [done|by right|done].
  - apply IH in H as (p & rest & c' & -> & HD & Hk).
    rewrite consumed_append in Hk. exists p, rest, (Re.record n p c').
    split_and!; [done| |done]. by exists c'.
Qed.

(** A successful search exhibits a match of the pattern inside the
    subject. *)
Lemma search_from_sound r bol s mt :
  Re.search_from r bol s = Some mt ->
  exists pre p rest,
    s = pre +:+ p +:+ rest /\ Re.den r (bol && Py.is_empty pre) p rest [] mt.
Proof.
  revert bol. induction s as [|a s IH]; intros bol H; simpl in H.
  - destruct (Re.m r bol "" [] _) eqn:Hm; [|done]. injection H as ->.
    apply m_sound in Hm as (p & rest & c' & Hs & HD & [= ->]).
    exists "", p, rest. by rewrite andb_true_r.
  - destruct (Re.m r bol (String a s) [] _) eqn:Hm.
    + injection H as ->. apply m_sound in Hm as (p & rest & c' & Hs & HD & [= ->]).
      exists "", p, rest. by rewrite andb_true_r.
    + apply IH in H as (pre & p & rest & -> & HD).
      exists (String a pre), p, rest. by rewrite andb_false_r in *.
Qed.

Lemma search_sound r s mt :
  Re.search r s = Some mt ->
  exists pre p rest, s = pre +:+ p +:+ rest /\ Re.den r (Py.is_empty pre) p rest [] mt.
Proof. intros H. by apply search_from_sound in H. Qed.

(** ** The fuel of the repetition *)

Lemma one_respects_cont q s c k k' :
  (forall b s' c', k b s' c' = k' b s' c') -> Re.one q s c k = Re.one q s c k'.
Proof. intros E. destruct s as [|a s]; [done|]. simpl. by rewrite E. Qed.

Lemma star_respects_cont f g fuel : respects_cont f -> respects_cont (Re.star f g fuel).
Proof.
  intros Hf. induction fuel as [|fuel IH]; intros bol s c k k' E; simpl; [apply E|].
  rewrite (E bol s c).
  rewrite (Hf bol s c _
             (fun b' s' c' =>
                if String.length s' <? String.length s
                then Re.star f g fuel b' s' c' k' else None)); [done|].
  intros b s' c'. destruct (_ <? _); [by apply IH|done].
Qed.

Lemma m_respects_cont r : respects_cont (Re.m r).
Proof.
  induction r as [| a | | neg items | | | r1 IH1 r2 IH2 | r1 IH1 r2 IH2
                 | g r IH | g r IH | g r IH | n r IH];
    intros bol s c k k' E; cbn [Re.m].
  - apply E.
  - by apply one_respects_cont.
  - by apply one_respects_cont.
  - by apply one_respects_cont.
  - by rewrite E.
  - by rewrite E.
  - apply IH1. intros b s' c'. by apply IH2.
  - by rewrite (IH1 _ _ _ k k' E), (IH2 _ _ _ k k' E).
  - by apply star_respects_cont.
  - apply IH. intros b s' c'. by apply star_respects_cont.
  - by rewrite (IH _ _ _ k k' E), E.
  - apply IH. intros b s' c'. apply E.
Qed.

(** Every round consumes a character, so the fuel the matcher gives a
    repetition, one more than the length of the subject, is never used up:
    more fuel changes nothing. *)
Lemma star_fuel_enough f g fuel1 fuel2 bol s c k :
  respects_cont f ->
  String.length s < fuel1 -> String.length s < fuel2 ->
  Re.star f g fuel1 bol s c k = Re.star f g fuel2 bol s c k.
Proof.
  intros Hf. revert fuel2 bol s c.
  induction fuel1 as [|fuel1 IH]; intros fuel2 bol s c H1 H2; [lia|].
  destruct fuel2 as [|fuel2]; [lia|]. simpl.
  rewrite (Hf bol s c _
             (fun b' s' c' =>
                if String.length s' <? String.length s
                then Re.star f g fuel2 b' s' c' k else None)); [done|].
  intros b s' c'. destruct (String.length s' <? String.length s) eqn:Hlt; [|done].
  apply Nat.ltb_lt in Hlt. apply IH; lia.
Qed.

Lemma m_star_fuel g r extra bol s c k :
  Re.m (Re.Star g r) bol s c k =
    Re.star (Re.m r) g (S (String.length s) + extra) bol s c k.
Proof. cbn [Re.m]. apply star_fuel_enough; [apply m_respects_cont|lia..]. Qed.

Lemma single_cls neg items : single (Re.Cls neg items) (Re.in_cls neg items).
Proof. intros bol p rest c c' (b & -> & Hb & ->). eauto. Qed.

Lemma single_any : single Re.Any (fun b => negb (Ascii.eqb b Re.newline)).
Proof.
  intros bol p rest c c' (b & -> & Hb & ->). exists b. split_and!; [done| |done].
  apply negb_true_iff. by apply Ascii.eqb_neq.
Qed.

Lemma star_single r q bol p rest c c' :
  single r q -> Re.star_den (Re.den r) bol p rest c c' ->
  c' = c /\ Py.all_chars q p = true.
Proof.
  intros Hr H. induction H as [|bol p1 p2 rest c c1 c2 Hne H1 _ IH]; [done|].
  apply Hr in H1 as (b & -> & Hb & ->). destruct IH as [-> IH].
  split; [done|]. rewrite append_cons. simpl. by rewrite Hb.
Qed.

Lemma plus_single g r q bol p rest c c' :
  single r q -> Re.den (Re.Plus g r) bol p rest c c' ->
  c' = c /\ p <> "" /\ Py.all_chars q p = true.
Proof.
  intros Hr (p1 & p2 & c1 & -> & H1 & H2).
  apply Hr in H1 as (b & -> & Hb & ->).
  apply (star_single _ _ _ _ _ _ _ Hr) in H2 as [-> H2].
  split_and!; [done|done|]. rewrite append_cons. simpl. by rewrite Hb.
Qed.

(** One step of taking the denotation of a concrete pattern apart. *)
Ltac den_step :=
  match goal with
  | H : Re.den (Re.Cat _ _) _ _ _ _ _ |- _ =>
      let p1 := fresh "p" in let p2 := fresh "p" in let c1 := fresh "c" in
      destruct H as (p1 & p2 & c1 & -> & ? & ?)
  | H : Re.den (Re.Group _ _) _ _ _ _ _ |- _ =>
      let c1 := fresh "c" in destruct H as (c1 & ? & ->)
  | H : Re.den (Re.Chr _) _ _ _ _ _ |- _ => destruct H as (-> & ->)
  | H : Re.den Re.Bol _ _ _ _ _ |- _ => destruct H as (-> & ? & ->)
  | H : Re.den Re.Eol _ _ _ _ _ |- _ => destruct H as (-> & ? & ->)
  | H : Re.den (Re.Plus _ (Re.Cls _ _)) _ _ _ _ _ |- _ =>
      apply (plus_single _ _ _ _ _ _ _ _ (single_cls _ _)) in H;
      destruct H as (-> & ? & ?)
  | H : Re.den (Re.Star _ (Re.Cls _ _)) _ _ _ _ _ |- _ =>
      apply (star_single _ _ _ _ _ _ _ (single_cls _ _)) in H; destruct H as (-> & ?)
  | H : Re.den (Re.Star _ Re.Any) _ _ _ _ _ |- _ =>
      apply (star_single _ _ _ _ _ _ _ single_any) in H; destruct H as (-> & ?)
  | H : Re.den (Re.Cls _ _) _ _ _ _ _ |- _ =>
      let b := fresh "b" in destruct H as (b & -> & ? & ->)
  end.

(** ** The event model *)

Lemma set_field_header k v ev : header (set_field k v ev) = header ev.
Proof. done. Qed.

Lemma store_pairs_header pairs ev : header (store_pairs pairs ev) = header ev.
Proof.
  unfold store_pairs. revert ev.
  induction pairs as [|kv pairs IH]; intros ev; [done|]. simpl. by rewrite IH.
Qed.

Lemma store_pairs_lookup pairs ev k :
  fields (store_pairs pairs ev) !! k =
    match last_value k pairs with
    | Some v => Some (int_or_str v)
    | None => fields ev !! k
    end.
Proof.
  unfold store_pairs. revert ev.
  induction pairs as [|[k' v] pairs IH]; intros ev; [done|].
  cbn [fold_left last_value]. rewrite IH. destruct (last_value k pairs); [done|].
  cbn [set_field fields fst snd]. destruct (String.eqb_spec k' k) as [->|Hne].
  - by rewrite lookup_insert_eq.
  - by rewrite lookup_insert_ne.
Qed.

Lemma default_body_parser_keeps_header : keeps_header default_body_parser.
Proof.
  intros ev text. unfold default_body_parser.
  destruct (Nat.even _); [apply store_pairs_header|done].
Qed.

Lemma store_groups_header items ev : header (store_groups items ev).1 = header ev.
Proof.
  revert ev. induction items as [|[k [v|]] items IH]; intros ev; [done| |done].
  simpl. by rewrite IH.
Qed.

Lemma regex_parser_func_keeps_header r : keeps_header (regex_parser_func r).
Proof.
  intros ev text. unfold regex_parser_func.
  destruct (Re.search r text); [apply store_groups_header|done].
Qed.

Lemma sched_switch_source_compiles :
  Re.compile SCHED_SWITCH_SOURCE = Some SCHED_SWITCH_REGEX.
Proof. reflexivity. Qed.

(** On a source of the fragment, [re.compile] is [Re.compile]. *)
Lemma re_compile_fragment source r :
  Re.compile source = Some r -> re_compile source 0 = Ok r.
Proof. intros H. unfold re_compile. by rewrite H. Qed.

Lemma sched_switch_re_compile : re_compile SCHED_SWITCH_SOURCE 0 = Ok SCHED_SWITCH_REGEX.
Proof. apply re_compile_fragment, sched_switch_source_compiles. Qed.

Lemma sched_switch_parser_keeps_header : keeps_header sched_switch_parser.
Proof.
  intros ev text. unfold sched_switch_parser.
  destruct (_ =? 2); [|apply default_body_parser_keeps_header].
  rewrite sched_switch_re_compile. apply regex_parser_func_keeps_header.
Qed.

(** ** The loop of the reader *)

Lemma events_app out1 out2 : events (out1 ++ out2) = events out1 ++ events out2.
Proof. apply omap_app. Qed.

Lemma process_line_awaiting self filters line :
  filter_markers self = true ->
  process_line self filters false line =
    Next (Py.contains TRACE_MARKER_START line) [].
Proof.
  intros Hf. unfold process_line, process_line_in; fold classify. rewrite Hf. simpl.
  by destruct (Py.contains TRACE_MARKER_START line).
Qed.

Lemma process_line_stop self filters line :
  filter_markers self = true -> Py.contains TRACE_MARKER_STOP line = true ->
  process_line self filters true line = Break.
Proof. intros Hf Hs. unfold process_line, process_line_in; fold classify. by rewrite Hf, Hs. Qed.

Lemma classify_inside filters inside line inside' out :
  classify filters inside line = Next inside' out -> inside' = inside.
Proof.
  unfold classify, classify_in; fold lookup_parser. intros H.
  repeat (match type of H with
          | context [match ?x with _ => _ end] => destruct x eqn:?
          end; try done); by injection H as <- _.
Qed.

Lemma process_line_inside self filters line inside' out :
  process_line self filters true line = Next inside' out -> inside' = true.
Proof.
  unfold process_line, process_line_in; fold classify. intros H.
  destruct (filter_markers self); simpl in H;
    [destruct (Py.contains TRACE_MARKER_STOP line); [done|]|];
    by apply classify_inside in H.
Qed.

Lemma parse_loop_before_start self filters pre lines :
  filter_markers self = true ->
  Forall (fun l => Py.contains TRACE_MARKER_START l = false) pre ->
  parse_loop self filters false (pre ++ lines) =
    after_lines (length pre) (parse_loop self filters false lines).
Proof.
  intros Hf Hpre. induction Hpre as [|l pre Hl _ IH].
  - simpl. by destruct (parse_loop self filters false lines).
  - cbn [app parse_loop parse_loop_in length]; fold parse_loop process_line.
    rewrite process_line_awaiting, Hl, IH by done.
    by destruct (parse_loop self filters false lines).
Qed.

Lemma parse_loop_until_stop self filters mid l post :
  filter_markers self = true ->
  Forall (fun x => Py.contains TRACE_MARKER_STOP x = false) mid ->
  Py.contains TRACE_MARKER_STOP l = true ->
  let r0 := parse_loop self filters true mid in
  let r := parse_loop self filters true (mid ++ l :: post) in
  r = parse_loop self filters true (mid ++ [l]) /\
  ended r0 <> Stopped /\
  (ended r0 = Exhausted ->
     ended r = Stopped /\ lines_read r = length mid + 1 /\
     emitted r0 = emitted r ++ no_stop_warning) /\
  (forall e, ended r0 = Raised e -> r = r0).
Proof.
  intros Hf Hmid Hl. induction Hmid as [|x mid Hx _ IH].
  - cbn [app parse_loop parse_loop_in length]; fold parse_loop process_line.
    rewrite (process_line_stop _ _ _ Hf Hl).
    rewrite Hf. simpl. split_and!; done.
  - cbn [app parse_loop parse_loop_in length]; fold parse_loop process_line.
    destruct (process_line self filters true x) as [inside out| |e] eqn:Hp.
    + apply process_line_inside in Hp as ->.
      cbn zeta in IH. destruct IH as (IH1 & IH2 & IH3 & IH4).
      cbn [emitted lines_read ended].
      split_and!; [by rewrite IH1|done| |].
      * intros He. destruct (IH3 He) as (E1 & E2 & E3).
        split_and!; [done|lia|]. by rewrite E3, app_assoc.
      * intros e He. by rewrite (IH4 e He).
    + unfold process_line, process_line_in in Hp; fold classify in Hp.
      rewrite Hf, Hx in Hp. simpl in Hp.
      unfold classify, classify_in in Hp; fold lookup_parser in Hp.
      repeat (match type of Hp with
              | context [match ?y with _ => _ end] => destruct y eqn:?
              end; try done).
    + simpl. split_and!; done.
Qed.

(** C1 (marker filtering).  With marker filtering enabled: the lines read
    before a line with the start marker are consumed and yield nothing, the
    line with the start marker is consumed the same way and opens the
    region.  Inside the region a line with the stop marker breaks the loop:
    the stream ends there as stopped, with nothing yielded for that line and
    no line after it read.  So when the lines of the region before the first
    stop marker are read to their end, the stream ends at the stop marker,
    having read the lines up to it and no other, with the outputs of the
    lines before it; an exception raised at a line before the stop marker
    ends the stream there instead.  Together: a stream with a start and a
    stop marker yields what the lines between them yield and reads no line
    after the stop marker. *)
Theorem C1_marker_region (self : TraceCmdTrace) (filters : list Re.re) :
  filter_markers self = true ->
  (forall pre lines,
     Forall (fun l => Py.contains TRACE_MARKER_START l = false) pre ->
     parse_loop self filters false (pre ++ lines) =
       after_lines (length pre) (parse_loop self filters false lines)) /\
  (forall l lines,
     Py.contains TRACE_MARKER_START l = true ->
     parse_loop self filters false (l :: lines) =
       after_lines 1 (parse_loop self filters true lines)) /\
  (forall l post,
     Py.contains TRACE_MARKER_STOP l = true ->
     process_line self filters true l = Break /\
     parse_loop self filters true (l :: post) =
       {| emitted := []; lines_read := 1; ended := Stopped |}) /\
  (forall mid l post,
     Forall (fun x => Py.contains TRACE_MARKER_STOP x = false) mid ->
     Py.contains TRACE_MARKER_STOP l = true ->
     let r0 := parse_loop self filters true mid in
     let r := parse_loop self filters true (mid ++ l :: post) in
     r = parse_loop self filters true (mid ++ [l]) /\
     (ended r0 = Exhausted ->
        ended r = Stopped /\ lines_read r = length mid + 1 /\
        emitted r0 = emitted r ++ no_stop_warning) /\
     (forall e, ended r0 = Raised e -> r = r0)) /\
  (forall pre start mid stop post,
     Forall (fun l => Py.contains TRACE_MARKER_START l = false) pre ->
     Py.contains TRACE_MARKER_START start = true ->
     Forall (fun x => Py.contains TRACE_MARKER_STOP x = false) mid ->
     Py.contains TRACE_MARKER_STOP stop = true ->
     let r0 := parse_loop self filters true mid in
     let r := parse_loop self filters false (pre ++ start :: mid ++ stop :: post) in
     r = parse_loop self filters false (pre ++ start :: mid ++ [stop]) /\
     (ended r0 = Exhausted ->
        ended r = Stopped /\ lines_read r = length pre + 1 + (length mid + 1) /\
        emitted r0 = emitted r ++ no_stop_warning /\
        events (emitted r) = events (emitted r0)) /\
     (forall e, ended r0 = Raised e -> r = after_lines (length pre + 1) r0)).
Proof.
  intros Hf.
  assert (Hstart : forall l lines,
    Py.contains TRACE_MARKER_START l = true ->
    parse_loop self filters false (l :: lines) =
      after_lines 1 (parse_loop self filters true lines)).
  { intros l lines Hl. cbn [parse_loop parse_loop_in]; fold parse_loop process_line.
    rewrite process_line_awaiting, Hl by done.
    by destruct (parse_loop self filters true lines). }
  split_and!.
  - intros pre lines. by apply parse_loop_before_start.
  - done.
  - intros l post Hl. split; [by apply process_line_stop|].
    cbn [parse_loop parse_loop_in]; fold parse_loop process_line.
    by rewrite (process_line_stop _ _ _ Hf Hl).
  - intros mid l post Hmid Hl.
    destruct (parse_loop_until_stop self filters mid l post Hf Hmid Hl)
      as (E & _ & H1 & H2). by split_and!.
  - intros pre start mid stop post Hpre Hs Hmid Hstop. cbn zeta.
    rewrite !(parse_loop_before_start _ _ pre) by done. rewrite !Hstart by done.
    destruct (parse_loop_until_stop self filters mid stop post Hf Hmid Hstop)
      as (E & _ & H1 & H2).
    cbn zeta in E, H1, H2. split_and!.
    + by rewrite E.
    + intros He. destruct (H1 He) as (E1 & E2 & E3).
      cbn [after_lines ended lines_read emitted].
      split_and!; [done|lia|done|].
      rewrite E3, events_app. simpl. by rewrite app_nil_r.
    + intros e He. rewrite (H2 e He).
      destruct (parse_loop self filters true mid). unfold after_lines. simpl.
      f_equal. lia.
Qed.

(** ** Attribute access *)

Lemma eqb_class_attrs (attr_name : string) :
  attr_name ∉ class_attrs -> existsb (String.eqb attr_name) class_attrs = false.
Proof.
  intros Hn. apply not_true_is_false. intros H.
  apply existsb_exists in H as (x & Hin & Heq). apply String.eqb_eq in Heq as <-.
  by apply Hn, list_elem_of_In.
Qed.

Lemma not_elem_of_eqb (x : string) (l : list string) :
  existsb (String.eqb x) l = false -> x ∉ l.
Proof.
  intros H Hin. apply list_elem_of_In in Hin.
  assert (existsb (String.eqb x) l = true); [|congruence].
  apply existsb_exists. exists x. split; [done|apply String.eqb_refl].
Qed.

(** C8 as amended (missing fields).  For an event of either class and a name
    that is neither one of the six slots nor an attribute of the class: the
    access raises [AttributeError] when the name is not a key of [fields],
    and gives the stored value when it is.  A name that is a slot always
    gives the slot, whatever the mapping holds: storing a field under the
    name of a slot other than [fields] changes nothing to what the access
    of that name gives. *)
Theorem C8_field_access (ev : event_obj) (attr_name : string) :
  (attr_name ∉ slot_names ->
   attr_name ∉ class_attrs ->
   (fields ev !! attr_name = None ->
      getattr ev attr_name = Raise (AttributeError attr_name)) /\
   (forall v, fields ev !! attr_name = Some v -> getattr ev attr_name = Ok (AVal v))) /\
  (getattr ev "thread" = Ok (AVal (thread ev)) /\
   getattr ev "reporting_cpu_id" = Ok (AVal (reporting_cpu_id ev)) /\
   getattr ev "timestamp" = Ok (AVal (timestamp ev)) /\
   getattr ev "name" = Ok (AVal (name ev)) /\
   getattr ev "text" = Ok (AVal (text ev)) /\
   getattr ev "fields" = Ok (ADict (fields ev))) /\
  (attr_name ∈ slot_names -> attr_name <> "fields" ->
   forall v, getattr (set_field attr_name v ev) attr_name = getattr ev attr_name).
Proof.
  split; [|split].
  - intros Hs Hc. unfold slot_names in Hs. rewrite !not_elem_of_cons in Hs.
    destruct Hs as (H1 & H2 & H3 & H4 & H5 & H6 & _).
    unfold getattr.
    repeat match goal with
           | H : attr_name <> ?s |- _ =>
               apply String.eqb_neq in H; rewrite H; clear H
           end.
    rewrite (eqb_class_attrs _ Hc). unfold __getattr__.
    split; [by intros ->|by intros v ->].
  - by split_and!.
  - intros Hs Hf v. unfold slot_names in Hs.
    repeat (apply elem_of_cons in Hs as [->|Hs]; [done|]).
    by apply elem_of_nil in Hs.
Qed.

(** ** The default body parser *)

Lemma rcut_None sep s : Py.rcut sep s = None <-> Py.count sep s = 0.
Proof.
  induction s as [|c s IH]; [done|]. simpl.
  destruct (Py.rcut sep s) as [[a b]|].
  - split; [done|]. intros H. assert (Py.count sep s = 0) as H0 by lia.
    by apply IH in H0.
  - destruct (Ascii.eqb c sep); [split; [done|lia]|]. simpl. by rewrite <-IH.
Qed.

Lemma rcut_Some sep s a b :
  Py.rcut sep s = Some (a, b) -> s = a +:+ String sep b /\ Py.count sep b = 0.
Proof.
  revert a. induction s as [|c s IH]; intros a H; [done|]. simpl in H.
  destruct (Py.rcut sep s) as [[a' b']|] eqn:Hr.
  - injection H as <- <-. destruct (IH a' eq_refl) as [-> Hb]. by rewrite append_cons.
  - destruct (Ascii.eqb_spec c sep) as [->|]; [|done]. injection H as <- <-.
    split; [done|]. by apply rcut_None.
Qed.

(** [rsplit(' ', 1)] cuts a fragment at its last space and leaves a
    fragment without a space whole. *)
Lemma rsplit1_cases sep f :
  (Py.rsplit1 sep f = [f] /\ Py.count sep f = 0) \/
  (exists a b, Py.rsplit1 sep f = [a; b] /\ f = a +:+ String sep b /\ Py.count sep b = 0).
Proof.
  unfold Py.rsplit1. destruct (Py.rcut sep f) as [[a b]|] eqn:H.
  - right. exists a, b. split; [done|]. by apply rcut_Some.
  - left. split; [done|]. by apply rcut_None.
Qed.

Lemma spec_cut_interior_agrees first frags :
  (first = true -> forall f, head frags = Some f -> Py.count " " f = 0) ->
  (forall f, last frags = Some f -> Py.count " " f = 0) ->
  spec_cut_interior first frags = map (Py.rsplit1 " ") frags.
Proof.
  revert first. induction frags as [|f frags IH]; intros first Hh Hl; [done|].
  destruct frags as [|g frags].
  - simpl. unfold Py.rsplit1.
    assert (Py.rcut " " f = None) as -> by (apply rcut_None; by apply Hl). done.
  - change (spec_cut_interior first (f :: g :: frags))
      with ((if first then [f] else Py.rsplit1 " " f) :: spec_cut_interior false (g :: frags)).
    rewrite IH; [|done|intros f' Hf'; by apply Hl].
    cbn [map]. f_equal. destruct first; [|done].
    unfold Py.rsplit1.
    assert (Py.rcut " " f = None) as -> by (apply rcut_None; by apply Hh). done.
Qed.

(** C3 as amended (the default parser).  The text is stripped and split on
    [=], then every fragment, the first and the last included, is cut at
    its last space, and the pieces are stripped.  The parser never raises
    and writes to the fields only; an odd number of pieces leaves the event
    as it was; for an even number, each key holds the value of its latest
    pair, as an integer when [int] reads it and as the string otherwise.
    When the first and the last fragment hold no space, these pieces are
    those of the tokenisation that cuts the interior fragments only.  On
    [cpu=0 load=54] the fields are [cpu], 0, and [load], 54. *)
Theorem C3_default_body_parser (event : event_obj) (text : string) :
  let frags := Py.split "=" (Py.strip text) in
  let parts := body_parts text in
  let out := default_body_parser event text in
  parts = map Py.strip (concat (map (Py.rsplit1 " ") frags)) /\
  (forall f, f ∈ frags ->
     (Py.rsplit1 " " f = [f] /\ Py.count " " f = 0) \/
     (exists a b, Py.rsplit1 " " f = [a; b] /\ f = a +:+ String " " b /\
        Py.count " " b = 0)) /\
  out.2 = None /\
  header out.1 = header event /\
  (Nat.even (length parts) = false -> out.1 = event) /\
  (Nat.even (length parts) = true ->
     forall k, fields out.1 !! k =
       match last_value k (zip_pairs parts) with
       | Some v => Some (int_or_str v)
       | None => fields event !! k
       end) /\
  ((forall f, head frags = Some f -> Py.count " " f = 0) ->
   (forall f, last frags = Some f -> Py.count " " f = 0) ->
   spec_body_parts text = parts /\
   spec_default_body_parser event text = out) /\
  fields (default_body_parser sample_event "cpu=0 load=54").1 =
    {[ "cpu" := VInt 0; "load" := VInt 54 ]}.
Proof.
  cbn zeta. split_and!; [| | | | | | |reflexivity].
  - done.
  - intros f _. apply rsplit1_cases.
  - unfold default_body_parser. by destruct (Nat.even _).
  - apply default_body_parser_keeps_header.
  - unfold default_body_parser. by intros ->.
  - unfold default_body_parser. intros -> k. apply store_pairs_lookup.
  - intros Hh Hl.
    assert (E : spec_body_parts text = body_parts text).
    { unfold spec_body_parts, body_parts. by rewrite spec_cut_interior_agrees. }
    split; [done|]. unfold spec_default_body_parser, default_body_parser. by rewrite E.
Qed.

(** ** [int] on the text of a [\d+] group *)

Lemma isdigit_facts c :
  Py.isdigit c = true -> Py.isspace c = false /\ c <> "-"%char /\ c <> "+"%char.
Proof. destruct c as [[] [] [] [] [] [] [] []]; by intros. Qed.

Lemma lstrip_digits d : Py.all_chars Py.isdigit d = true -> Py.lstrip d = d.
Proof.
  destruct d as [|c d]; [done|]. simpl. intros H.
  apply andb_true_iff in H as [H _]. by destruct (isdigit_facts c H) as (-> & _).
Qed.

Lemma rstrip_digits d : Py.all_chars Py.isdigit d = true -> Py.rstrip d = d.
Proof.
  induction d as [|c d IH]; [done|]. simpl. intros H.
  apply andb_true_iff in H as [H1 H2]. rewrite (IH H2).
  destruct (isdigit_facts c H1) as (-> & _). by rewrite andb_false_r.
Qed.

Lemma digits_value_nonneg d acc : (0 <= acc)%Z -> (0 <= Py.digits_value acc d)%Z.
Proof.
  revert acc. induction d as [|c d IH]; intros acc H; [done|]. simpl. apply IH. lia.
Qed.

Lemma int_digits d :
  d <> "" -> Py.all_chars Py.isdigit d = true ->
  Py.int d = Some (Py.digits_value 0 d) /\ (0 <= Py.digits_value 0 d)%Z.
Proof.
  intros Hne Hd. split; [|by apply digits_value_nonneg].
  unfold Py.int, Py.strip. rewrite (lstrip_digits _ Hd), (rstrip_digits _ Hd).
  destruct d as [|c d]; [done|].
  assert (Hc : Py.isdigit c = true) by (simpl in Hd; by apply andb_true_iff in Hd as [? _]).
  assert (E : (match String c d with
               | String "-" d0 => (true, d0)
               | String "+" d0 => (false, d0)
               | _ => (false, String c d)
               end) = (false, String c d)).
  { destruct c as [[] [] [] [] [] [] [] []]; done. }
  rewrite E. cbn [Py.is_empty]. by rewrite Hd.
Qed.

Lemma in_cls_digit b : Re.in_cls false [Re.CDigit] b = Py.isdigit b.
Proof. unfold Re.in_cls. simpl. by rewrite orb_false_r. Qed.

Lemma in_cls_space b : Re.in_cls false [Re.CSpace] b = Py.isspace b.
Proof. unfold Re.in_cls. simpl. by rewrite orb_false_r. Qed.

Lemma in_cls_not_space b : Re.in_cls false [Re.CNotSpace] b = negb (Py.isspace b).
Proof. unfold Re.in_cls. simpl. by rewrite orb_false_r. Qed.

Lemma digits_of_cls d :
  Py.all_chars (Re.in_cls false [Re.CDigit]) d = true -> Py.all_chars Py.isdigit d = true.
Proof. intros H. by rewrite <-(all_chars_ext _ _ d in_cls_digit). Qed.

(** ** The dropped-events pattern *)

Lemma dropped_events_match line mt :
  Re.search DROPPED_EVENTS_REGEX line = Some mt ->
  exists d, mt = [("cpu_id", d)] /\ d <> "" /\ Py.all_chars Py.isdigit d = true /\
    exists pre post, line = pre +:+ ("CPU:" +:+ d +:+ " [") +:+ post.
Proof.
  intros H. apply search_sound in H as (pre & p & rest & -> & H).
  unfold DROPPED_EVENTS_REGEX in H. repeat den_step.
  match goal with
  | Hd : Py.all_chars (Re.in_cls false [Re.CDigit]) ?d = true, Hn : ?d <> "" |- _ =>
      exists d; split_and!; [done|done|by apply digits_of_cls|]
  end.
  eexists pre, _. rewrite !append_assoc, !append_cons. reflexivity.
Qed.

(** The event a dropped-events line yields. *)
Lemma dropped_events_classify filters inside line mt :
  Re.search DROPPED_EVENTS_REGEX line = Some mt ->
  exists d n,
    Re.group "cpu_id" mt = Some d /\ d <> "" /\ Py.all_chars Py.isdigit d = true /\
    n = Py.digits_value 0 d /\ (0 <= n)%Z /\
    classify filters inside line =
      Next inside
        [Yield {| cls := DroppedEventsEvent_class; thread := VNone;
                  reporting_cpu_id := VNone; timestamp := VNone;
                  name := VStr "DROPPED EVENTS DETECTED"; text := VNone;
                  fields := {[ "cpu_id" := VInt n ]} |}].
Proof.
  intros H. destruct (dropped_events_match _ _ H) as (d & -> & Hne & Hd & _).
  destruct (int_digits d Hne Hd) as [Hi Hn].
  exists d, (Py.digits_value 0 d). split_and!; try done.
  unfold classify, classify_in; fold lookup_parser.
  rewrite H. cbn [Re.group String.eqb Ascii.eqb Bool.eqb].
  unfold DroppedEventsEvent. by rewrite Hi.
Qed.

(** The line of the specification, with the marker filtering off. *)
Example dropped_events_example :
  parse (sample_reader false []) ("CPU:3 [42 EVENTS DROPPED]" +:+ nl) =
    {| emitted :=
         [Yield {| cls := DroppedEventsEvent_class; thread := VNone;
                   reporting_cpu_id := VNone; timestamp := VNone;
                   name := VStr "DROPPED EVENTS DETECTED"; text := VNone;
                   fields := {[ "cpu_id" := VInt 3 ]} |}];
       lines_read := 1; ended := Exhausted |}.
Proof. reflexivity. Qed.

(** C6 as amended (dropped events).  A line that matches the dropped-events
    pattern and is not taken by the marker filtering, which is off or has
    the reader inside the region on a line without the stop marker, yields
    exactly one event: a [DroppedEventsEvent] whose [thread],
    [reporting_cpu_id], [timestamp] and [text] are [None], whose name is the
    fixed text, and whose fields hold the one entry [cpu_id], the
    non-negative integer of the digits after [CPU:]. *)
Theorem C6_dropped_events (self : TraceCmdTrace) (filters : list Re.re)
    (inside : bool) (line : string) (mt : Re.caps) :
  Re.search DROPPED_EVENTS_REGEX line = Some mt ->
  filter_markers self = false \/
    (inside = true /\ Py.contains TRACE_MARKER_STOP line = false) ->
  exists d n,
    Re.group "cpu_id" mt = Some d /\ d <> "" /\ Py.all_chars Py.isdigit d = true /\
    n = Py.digits_value 0 d /\ (0 <= n)%Z /\
    process_line self filters inside line =
      Next inside
        [Yield {| cls := DroppedEventsEvent_class; thread := VNone;
                  reporting_cpu_id := VNone; timestamp := VNone;
                  name := VStr "DROPPED EVENTS DETECTED"; text := VNone;
                  fields := {[ "cpu_id" := VInt n ]} |}].
Proof.
  intros H Hgate.
  destruct (dropped_events_classify filters inside _ _ H)
    as (d & n & Hg & Hne & Hd & Hn & Hpos & Hc).
  exists d, n. split_and!; try done.
  unfold process_line, process_line_in; fold classify. destruct Hgate as [->|[-> ->]]; [done|].
  by destruct (filter_markers self).
Qed.

(** ** The regex body parser *)

Lemma store_groups_all_some items ev :
  NoDup items.*1 ->
  (forall k v, (k, v) ∈ items -> is_Some v) ->
  exists left,
    store_groups items ev = (left, None) /\ header left = header ev /\
    forall k, fields left !! k =
      match (list_to_map items : gmap string (option string)) !! k with
      | Some (Some v) => Some (int_or_str v)
      | _ => fields ev !! k
      end.
Proof.
  revert ev. induction items as [|[k0 v0] items IH]; intros ev Hnd Hall.
  - exists ev. by split_and!.
  - rewrite fmap_cons in Hnd. apply NoDup_cons in Hnd as [Hk0 Hnd].
    destruct (Hall k0 v0) as [s ->]; [left|].
    destruct (IH (set_field k0 (int_or_str s) ev) Hnd) as (left & Hs & Hh & Hl).
    { intros k v Hin. apply (Hall k v). by right. }
    exists left. split_and!; [done|done|]. intros k. rewrite Hl.
    cbn [list_to_map foldr fst snd uncurry]. cbn [set_field fields].
    destruct (decide (k0 = k)) as [<-|Hne].
    + rewrite lookup_insert_eq.
      rewrite (not_elem_of_list_to_map_1 _ _ Hk0). by rewrite lookup_insert_eq.
    + by rewrite !lookup_insert_ne.
Qed.

Lemma store_groups_raises items ev k :
  (k, None) ∈ items -> (store_groups items ev).2 = Some TypeError.
Proof.
  revert ev. induction items as [|[k0 [v0|]] items IH]; intros ev Hin.
  - by apply elem_of_nil in Hin.
  - apply elem_of_cons in Hin as [[=]|Hin]. simpl. by apply IH.
  - done.
Qed.

Lemma store_groups_untouched items ev k :
  (forall v, (k, Some v) ∉ items) ->
  fields (store_groups items ev).1 !! k = fields ev !! k.
Proof.
  revert ev. induction items as [|[k0 [v0|]] items IH]; intros ev Hn; [done| |done].
  simpl. rewrite IH.
  - cbn [set_field fields]. rewrite lookup_insert_ne; [done|].
    intros ->. apply (Hn v0). by left.
  - intros v Hin. apply (Hn v). by right.
Qed.

Lemma iteritems_elem d k v : (k, v) ∈ iteritems d <-> d !! k = Some v.
Proof using iteritems_perm. by rewrite (iteritems_perm d), elem_of_map_to_list. Qed.

Lemma iteritems_NoDup d : NoDup (iteritems d).*1.
Proof using iteritems_perm. rewrite (iteritems_perm d). apply NoDup_fst_map_to_list. Qed.

Lemma iteritems_to_map d : list_to_map (iteritems d) = d.
Proof using iteritems_perm.
  rewrite <-(list_to_map_to_list d) at 2.
  apply list_to_map_proper; [apply iteritems_NoDup|apply iteritems_perm].
Qed.

(** No match: the event is left as it was and nothing is raised. *)
Lemma regex_parser_func_no_match r event text :
  Re.search r text = None -> regex_parser_func r event text = (event, None).
Proof. intros H. unfold regex_parser_func. by rewrite H. Qed.

(** A match in which every named group took part: each of them becomes a
    field, in whatever order the dictionary is iterated. *)
Lemma regex_parser_func_match r event text mt :
  Re.search r text = Some mt ->
  (forall k v, Re.groupdict r mt !! k = Some v -> is_Some v) ->
  exists left,
    regex_parser_func r event text = (left, None) /\ header left = header event /\
    forall k, fields left !! k =
      match Re.groupdict r mt !! k with
      | Some (Some v) => Some (int_or_str v)
      | _ => fields event !! k
      end.
Proof using iteritems_perm.
  intros Hs Hall. unfold regex_parser_func. rewrite Hs.
  destruct (store_groups_all_some (iteritems (Re.groupdict r mt)) event)
    as (left & H1 & H2 & H3).
  - apply iteritems_NoDup.
  - intros k v Hin. apply (Hall k v). by apply iteritems_elem.
  - exists left. split_and!; [done|done|]. intros k. by rewrite H3, iteritems_to_map.
Qed.

(** A match in which a named group took no part: [int(None)] raises
    [TypeError] out of the parser, and the group is no field. *)
Lemma regex_parser_func_unmatched_group r event text mt k :
  Re.search r text = Some mt ->
  Re.groupdict r mt !! k = Some None ->
  (regex_parser_func r event text).2 = Some TypeError /\
  fields (regex_parser_func r event text).1 !! k = fields event !! k.
Proof using iteritems_perm.
  intros Hs Hk. unfold regex_parser_func. rewrite Hs. split.
  - apply (store_groups_raises _ _ k). by apply iteritems_elem.
  - apply store_groups_untouched. intros v Hin. apply iteritems_elem in Hin. congruence.
Qed.

(** C7 (regex body parser).  The pattern [(?P<a>x)?(?P<b>y)] matches the text
    [y] with its group [a] taking no part; the parser made of it then raises
    [TypeError] and [a] is not made a field, whatever the order in which the
    dictionary of groups is iterated. *)
Theorem C7_unmatched_group_raises (event : event_obj) (r : Re.re) :
  Re.compile "(?P<a>x)?(?P<b>y)" = Some r ->
  regex_body_parser (Source "(?P<a>x)?(?P<b>y)") 0 = Ok (regex_parser_func r) /\
  Re.search r "y" = Some [("b", "y")] /\
  Re.groupdict r [("b", "y")] = {[ "a" := None; "b" := Some "y" ]} /\
  (regex_parser_func r event "y").2 = Some TypeError /\
  fields (regex_parser_func r event "y").1 !! "a" = fields event !! "a".
Proof using iteritems_perm.
  intros Hc. assert (Hs : Re.search r "y" = Some [("b", "y")]).
  { vm_compute in Hc. by injection Hc as <-. }
  assert (Hg : Re.groupdict r [("b", "y")] = {[ "a" := None; "b" := Some "y" ]}).
  { vm_compute in Hc. by injection Hc as <-. }
  split_and!;
    [by unfold regex_body_parser; rewrite (re_compile_fragment _ _ Hc)|done|done| |].
  - apply (regex_parser_func_unmatched_group r event "y" _ "a" Hs). by rewrite Hg.
  - apply (regex_parser_func_unmatched_group r event "y" _ "a" Hs). by rewrite Hg.
Qed.

(** ** The [sched_switch] parser *)

(** What a match of the legacy pattern captures. *)
Lemma sched_switch_match text mt :
  Re.search SCHED_SWITCH_REGEX text = Some mt ->
  exists prev_comm prev_pid prev_prio status next_comm next_pid next_prio,
    mt = [("next_prio", next_prio); ("next_pid", next_pid); ("next_comm", next_comm);
          ("status", status); ("prev_prio", prev_prio); ("prev_pid", prev_pid);
          ("prev_comm", prev_comm)] /\
    Forall (fun d => d <> "" /\ Py.all_chars Py.isdigit d = true)
      [prev_pid; prev_prio; next_pid; next_prio] /\
    Forall (fun s => s <> "") [prev_comm; status; next_comm].
Proof.
  intros H. apply search_sound in H as (pre & p & rest & -> & H).
  unfold SCHED_SWITCH_REGEX in H. repeat den_step.
  do 7 eexists. split; [reflexivity|].
  split; repeat constructor; auto using digits_of_cls.
Qed.

Lemma sched_switch_groupdict c1 c2 c3 c4 c5 c6 c7 :
  Re.groupdict SCHED_SWITCH_REGEX
    [("next_prio", c7); ("next_pid", c6); ("next_comm", c5); ("status", c4);
     ("prev_prio", c3); ("prev_pid", c2); ("prev_comm", c1)] =
  list_to_map
    [("prev_comm", Some c1); ("prev_pid", Some c2); ("prev_prio", Some c3);
     ("status", Some c4); ("next_comm", Some c5); ("next_pid", Some c6);
     ("next_prio", Some c7)].
Proof. reflexivity. Qed.

Lemma sched_switch_uses_regex event t :
  Py.count "=" t = 2 ->
  sched_switch_parser event t = regex_parser_func SCHED_SWITCH_REGEX event t.
Proof.
  intros Ht. unfold sched_switch_parser. by rewrite Ht, sched_switch_re_compile.
Qed.

Lemma int_or_str_digits d :
  d <> "" -> Py.all_chars Py.isdigit d = true ->
  int_or_str d = VInt (Py.digits_value 0 d).
Proof. intros Hn Hd. unfold int_or_str. by destruct (int_digits d Hn Hd) as [-> _]. Qed.

(** The fields the legacy pattern sets from its captures. *)
Lemma sched_switch_fields event t c1 c2 c3 c4 c5 c6 c7 :
  Py.count "=" t = 2 ->
  Re.search SCHED_SWITCH_REGEX t =
    Some [("next_prio", c7); ("next_pid", c6); ("next_comm", c5); ("status", c4);
          ("prev_prio", c3); ("prev_pid", c2); ("prev_comm", c1)] ->
  let out := sched_switch_parser event t in
  out.2 = None /\
  fields out.1 !! "prev_comm" = Some (int_or_str c1) /\
  fields out.1 !! "prev_pid" = Some (int_or_str c2) /\
  fields out.1 !! "prev_prio" = Some (int_or_str c3) /\
  fields out.1 !! "status" = Some (int_or_str c4) /\
  fields out.1 !! "next_comm" = Some (int_or_str c5) /\
  fields out.1 !! "next_pid" = Some (int_or_str c6) /\
  fields out.1 !! "next_prio" = Some (int_or_str c7).
Proof using iteritems_perm.
  intros Ht Hs. cbn zeta. rewrite (sched_switch_uses_regex event t Ht).
  destruct (regex_parser_func_match SCHED_SWITCH_REGEX event t _ Hs)
    as (left & -> & _ & Hl).
  - rewrite sched_switch_groupdict. intros k v Hk.
    apply elem_of_list_to_map_2 in Hk.
    repeat (apply elem_of_cons in Hk as [[= -> ->]|Hk]; [by eexists|]).
    by apply elem_of_nil in Hk.
  - split_and!; [done|rewrite Hl, sched_switch_groupdict; reflexivity..].
Qed.

(** C4 as amended (the [sched_switch] parser).  Exactly two [=] in the text
    select the parser made of the legacy pattern, whose named groups are
    [prev_comm], [prev_pid], [prev_prio], [status], [next_comm], [next_pid]
    and [next_prio]; more than two select the default parser on the text
    with every [==>] removed.  When the legacy pattern matches, nothing is
    raised, the pid and prio groups are digits and are stored as their
    integers, and the comm and status groups are non-empty texts, stored as
    integers when [int] reads them and as the strings otherwise.  On
    [a:1 [120] R ==> b:2 [100]] the fields are those of the
    specification. *)
Theorem C4_sched_switch_parser (event : event_obj) (text : string) :
  Re.compile SCHED_SWITCH_SOURCE = Some SCHED_SWITCH_REGEX /\
  Re.names SCHED_SWITCH_REGEX =
    ["prev_comm"; "prev_pid"; "prev_prio"; "status"; "next_comm"; "next_pid";
     "next_prio"] /\
  (Py.count "=" text = 2 ->
     sched_switch_parser event text = regex_parser_func SCHED_SWITCH_REGEX event text) /\
  (2 < Py.count "=" text ->
     sched_switch_parser event text =
       default_body_parser event (Py.replace "==>" "" text)) /\
  (forall mt,
     Py.count "=" text = 2 ->
     Re.search SCHED_SWITCH_REGEX text = Some mt ->
     let out := sched_switch_parser event text in
     out.2 = None /\
     (forall k, k ∈ ["prev_pid"; "prev_prio"; "next_pid"; "next_prio"] ->
        exists d, Re.group k mt = Some d /\ d <> "" /\
          Py.all_chars Py.isdigit d = true /\
          fields out.1 !! k = Some (VInt (Py.digits_value 0 d))) /\
     (forall k, k ∈ ["prev_comm"; "status"; "next_comm"] ->
        exists s, Re.group k mt = Some s /\ s <> "" /\
          fields out.1 !! k = Some (int_or_str s))) /\
  (let out := sched_switch_parser event "a:1 [120] R ==> b:2 [100]" in
   Py.count "=" "a:1 [120] R ==> b:2 [100]" = 2 /\
   out.2 = None /\
   fields out.1 !! "prev_comm" = Some (VStr "a") /\
   fields out.1 !! "prev_pid" = Some (VInt 1) /\
   fields out.1 !! "prev_prio" = Some (VInt 120) /\
   fields out.1 !! "status" = Some (VStr "R") /\
   fields out.1 !! "next_comm" = Some (VStr "b") /\
   fields out.1 !! "next_pid" = Some (VInt 2) /\
   fields out.1 !! "next_prio" = Some (VInt 100)).
Proof using iteritems_perm.
  split_and!; [reflexivity|reflexivity|apply sched_switch_uses_regex| | |].
  - intros Hc. unfold sched_switch_parser.
    destruct (Nat.eqb_spec (Py.count "=" text) 2); [lia|done].
  - intros mt Ht Hs. cbn zeta.
    destruct (sched_switch_match _ _ Hs)
      as (c1 & c2 & c3 & c4 & c5 & c6 & c7 & -> & Hd & Hn).
    destruct (sched_switch_fields event text _ _ _ _ _ _ _ Ht Hs)
      as (Hr & F1 & F2 & F3 & F4 & F5 & F6 & F7).
    apply Forall_cons in Hd as [[? ?] Hd]. apply Forall_cons in Hd as [[? ?] Hd].
    apply Forall_cons in Hd as [[? ?] Hd]. apply Forall_cons in Hd as [[? ?] _].
    apply Forall_cons in Hn as [? Hn]. apply Forall_cons in Hn as [? Hn].
    apply Forall_cons in Hn as [? _].
    rewrite int_or_str_digits in F2, F3, F6, F7 by done.
    split_and!; [done| |].
    + intros k Hk.
      repeat (apply elem_of_cons in Hk as [->|Hk];
              [eexists; split; [reflexivity|]; by split_and!|]).
      by apply elem_of_nil in Hk.
    + intros k Hk.
      repeat (apply elem_of_cons in Hk as [->|Hk];
              [eexists; split; [reflexivity|]; by split_and!|]).
      by apply elem_of_nil in Hk.
  - cbn zeta. split; [reflexivity|].
    apply (sched_switch_fields event "a:1 [120] R ==> b:2 [100]"
             "a" "1" "120" "R" "b" "2" "100"); reflexivity.
Qed.

(** ** The event pattern *)

Tactic Notation "den_cat" hyp(H) ident(x) ident(Hx) :=
  let q := fresh "q" in
  let c := fresh "c" in
  destruct H as (x & q & c & -> & Hx & H).

Lemma spaces_of_cls s :
  Py.all_chars (Re.in_cls false [Re.CSpace]) s = true -> Py.all_chars Py.isspace s = true.
Proof. intros H. by rewrite <-(all_chars_ext _ _ s in_cls_space). Qed.

Lemma nonspaces_of_cls s :
  Py.all_chars (Re.in_cls false [Re.CNotSpace]) s = true ->
  Py.all_chars (fun b => negb (Py.isspace b)) s = true.
Proof. intros H. by rewrite <-(all_chars_ext _ _ s in_cls_not_space). Qed.

(** What a match of the event pattern captures, and the shape of the
    line. *)
Lemma trace_event_match line mt :
  Re.search TRACE_EVENT_REGEX line = Some mt ->
  exists thread cpu_id ts name body,
    mt = [("body", body); ("name", name); ("ts", ts); ("cpu_id", cpu_id);
          ("thread", thread)] /\
    event_line line thread cpu_id ts name body.
Proof.
  intros H. apply search_sound in H as (pre & p & rest & -> & H).
  unfold TRACE_EVENT_REGEX in H.
  den_cat H p0 Hbol. destruct Hbol as (-> & Hpre & ->).
  apply is_empty_true in Hpre as ->.
  den_cat H ws1 Hws1. apply (plus_single _ _ _ _ _ _ _ _ (single_cls _ _)) in Hws1
    as (-> & Hws1n & Hws1).
  den_cat H th Hth. destruct Hth as (c1 & Hth & ->).
  destruct Hth as (t1 & q1 & c2 & -> & Ht1 & Hth).
  apply (plus_single _ _ _ _ _ _ _ _ (single_cls _ _)) in Ht1 as (-> & Ht1n & Ht1).
  destruct Hth as (t2 & t3 & c3 & -> & Ht2 & Ht3).
  apply (star_single _ _ _ _ _ _ _ single_any) in Ht2 as (-> & Ht2).
  apply (plus_single _ _ _ _ _ _ _ _ (single_cls _ _)) in Ht3 as (-> & Ht3n & Ht3).
  den_cat H ws2 Hws2. apply (plus_single _ _ _ _ _ _ _ _ (single_cls _ _)) in Hws2
    as (-> & Hws2n & Hws2).
  den_cat H lb Hlb. destruct Hlb as (-> & ->).
  den_cat H cpu Hcpu. destruct Hcpu as (c4 & Hcpu & ->).
  apply (plus_single _ _ _ _ _ _ _ _ (single_cls _ _)) in Hcpu as (-> & Hcpun & Hcpu).
  den_cat H rb Hrb. destruct Hrb as (-> & ->).
  den_cat H ws3 Hws3. apply (plus_single _ _ _ _ _ _ _ _ (single_cls _ _)) in Hws3
    as (-> & Hws3n & Hws3).
  den_cat H ts Hts. destruct Hts as (c5 & Hts & ->).
  apply (plus_single _ _ _ _ _ _ _ _ (single_cls _ _)) in Hts as (-> & Htsn & Hts).
  den_cat H co1 Hco1. destruct Hco1 as (-> & ->).
  den_cat H ws4 Hws4. apply (plus_single _ _ _ _ _ _ _ _ (single_cls _ _)) in Hws4
    as (-> & Hws4n & Hws4).
  den_cat H nm Hname. destruct Hname as (c6 & Hname & ->).
  apply (plus_single _ _ _ _ _ _ _ _ (single_cls _ _)) in Hname as (-> & Hnamen & Hname).
  den_cat H co2 Hco2. destruct Hco2 as (-> & ->).
  den_cat H ws5 Hws5. apply (plus_single _ _ _ _ _ _ _ _ (single_cls _ _)) in Hws5
    as (-> & Hws5n & Hws5).
  destruct H as (bd & q & c7 & -> & Hbody & H). destruct Hbody as (c8 & Hbody & ->).
  apply (star_single _ _ _ _ _ _ _ single_any) in Hbody as (-> & Hbody).
  destruct H as (ws6 & q' & c9 & -> & Hws6 & Heol).
  apply (star_single _ _ _ _ _ _ _ (single_cls _ _)) in Hws6 as (-> & Hws6).
  destruct Heol as (-> & Heol & ->).
  exists (t1 +:+ t2 +:+ t3), cpu, ts, nm, bd. split; [done|].
  exists ws1, t1, t2, t3, ws2,
    (cpu +:+ "]" +:+ ws3 +:+ ts +:+ ":" +:+ ws4 +:+ nm +:+ ":" +:+ ws5 +:+ bd +:+
       ws6 +:+ "" +:+ rest),
    (ws1 +:+ (t1 +:+ t2 +:+ t3) +:+ ws2 +:+ "[" +:+ cpu +:+ "]" +:+ ws3 +:+ ts +:+ ":" +:+
       ws4),
    (ws5 +:+ bd +:+ ws6 +:+ "" +:+ rest).
  split_and!; try done.
  - by apply nonspaces_of_cls.
  - by apply nonspaces_of_cls.
  - by apply spaces_of_cls.
  - by apply spaces_of_cls.
  - rewrite !append_assoc. reflexivity.
  - rewrite !append_assoc. reflexivity.
  - by apply digits_of_cls.
Qed.

Lemma trace_event_kwargs thread cpu_id ts name body :
  kwargs (Re.groupdict TRACE_EVENT_REGEX
            [("body", body); ("name", name); ("ts", ts); ("cpu_id", cpu_id);
             ("thread", thread)]) =
    Some (thread, cpu_id, ts, name, body).
Proof. reflexivity. Qed.

(** The thread group takes two characters at least. *)
Lemma event_line_thread line thread cpu_id ts name body :
  event_line line thread cpu_id ts name body -> 2 <= String.length thread.
Proof.
  intros (ws1 & t1 & t2 & t3 & ws2 & tail1 & head2 & tail2 & -> & Ht1 & _ & Ht3 & _).
  rewrite !length_append. destruct t1; [done|]. destruct t3; [done|]. simpl. lia.
Qed.

Lemma count_append c (a b : string) : Py.count c (a +:+ b) = Py.count c a + Py.count c b.
Proof.
  induction a as [|x a IH]; [done|]. rewrite append_cons. simpl. rewrite IH. lia.
Qed.

(** A run of characters of a class before a character outside it is cut
    in one way only. *)
Lemma leading_run (q : ascii -> bool) a x s b y t :
  Py.all_chars q a = true -> q x = false ->
  Py.all_chars q b = true -> q y = false ->
  a +:+ String x s = b +:+ String y t -> a = b /\ x = y /\ s = t.
Proof.
  revert b. induction a as [|a0 a IH]; intros b Ha Hx Hb Hy H.
  - destruct b as [|b0 b]; [by injection H as -> ->|].
    rewrite append_cons in H. injection H as -> _.
    simpl in Hb. apply andb_true_iff in Hb as [Hb _]. congruence.
  - destruct b as [|b0 b].
    + rewrite append_cons in H. injection H as -> _.
      simpl in Ha. apply andb_true_iff in Ha as [Ha _]. congruence.
    + rewrite !append_cons in H. injection H as -> H.
      simpl in Ha, Hb. apply andb_true_iff in Ha as [_ Ha].
      apply andb_true_iff in Hb as [_ Hb].
      destruct (IH b Ha Hx Hb Hy H) as (-> & -> & ->). done.
Qed.

Lemma all_space_not_nonspace t :
  t <> "" -> Py.all_chars (fun b => negb (Py.isspace b)) t = true ->
  Py.all_chars Py.isspace t = false.
Proof.
  destruct t as [|x t]; [done|]. simpl. intros _ H.
  apply andb_true_iff in H as [H _]. apply negb_true_iff in H. by rewrite H.
Qed.

Lemma spaces_before a x s :
  Py.all_chars Py.isspace (a +:+ String x s) = true -> Py.isspace x = true.
Proof.
  rewrite all_chars_append. simpl. intros H.
  apply andb_true_iff in H as [_ H]. by apply andb_true_iff in H as [H _].
Qed.

(** A line whose thread is one character is no header line. *)
Lemma single_char_thread_not_header ws c ws' rest :
  Py.all_chars Py.isspace ws = true ->
  Py.isspace c = false ->
  Py.all_chars Py.isspace ws' = true ->
  Re.search HEADER_REGEX (ws +:+ String c (ws' +:+ String "[" rest)) = None.
Proof.
  intros Hws Hc Hws'.
  destruct (Re.search HEADER_REGEX _) as [mt|] eqn:Hs; [exfalso|done].
  apply search_sound in Hs as (pre & p & post & Hline & H).
  unfold HEADER_REGEX in H.
  den_cat H p0 Hbol. destruct Hbol as (-> & Hpre & ->).
  apply is_empty_true in Hpre as ->.
  den_cat H ws0 Hws0.
  apply (star_single _ _ _ _ _ _ _ (single_cls _ _)) in Hws0 as (-> & Hws0).
  apply spaces_of_cls in Hws0.
  den_cat H word Hword.
  assert (Hw : exists a b x, word = String a (String b x) /\
                 Py.isspace a = false /\ Py.isspace b = false /\ b <> "["%char).
  { destruct Hword as [Hword|Hword]; repeat den_step; by do 3 eexists. }
  destruct Hw as (a & b & x & -> & Ha & Hb & Hb').
  rewrite !append_assoc, !append_cons in Hline. cbn [String.append] in Hline.
  symmetry in Hline.
  apply (leading_run Py.isspace) in Hline as (_ & _ & Hline); [|done..].
  destruct ws' as [|y ws'].
  - by injection Hline as E _.
  - rewrite append_cons in Hline. injection Hline as <- _.
    simpl in Hws'. by rewrite Hb in Hws'.
Qed.

(** ** The name filter *)

Lemma lookup_parser_keeps_header event_name p :
  lookup_parser event_name = Ok p -> keeps_header p.
Proof.
  unfold lookup_parser, lookup_parser_in, EVENT_PARSER_MAP.
  destruct (decide (event_name = "sched_switch")) as [->|Hne].
  - rewrite lookup_singleton_eq. simpl. intros [= <-].
    apply sched_switch_parser_keeps_header.
  - rewrite lookup_singleton_ne by done. simpl. intros [= <-].
    apply default_body_parser_keeps_header.
Qed.

(** C5 as amended (CPU id).  A CPU id text that [int] does not read makes the
    construction fail with the [ValueError] of [int]; for a text that [int]
    reads as [n], the event constructed has [n] as its [reporting_cpu_id],
    with no parser or with one that writes to the fields only; without a
    parser the construction succeeds whenever the timestamp converts, and a
    parser is handed the event with [n] already in place.  The parsers that
    [parse] looks up, the default one and the one of [sched_switch], write to
    the fields only. *)
Theorem C5_cpu_id (thread cpu_id ts name body : string) (parser : option body_parser) :
  (Py.int cpu_id = None ->
     TraceCmdEvent thread cpu_id ts name body parser = Raise ValueError) /\
  (forall n ev,
     Py.int cpu_id = Some n ->
     (forall p, parser = Some p -> keeps_header p) ->
     TraceCmdEvent thread cpu_id ts name body parser = Ok ev ->
     reporting_cpu_id ev = VInt n) /\
  (forall n t,
     Py.int cpu_id = Some n -> numeric ts = Ok t ->
     TraceCmdEvent thread cpu_id ts name body None =
       Ok (fresh_event thread n t name body)) /\
  (forall n t p,
     Py.int cpu_id = Some n -> numeric ts = Ok t ->
     reporting_cpu_id (fresh_event thread n t name body) = VInt n /\
     TraceCmdEvent thread cpu_id ts name body (Some p) =
       match p (fresh_event thread n t name body) body with
       | (after, None) => Ok after
       | (after, Some e) => if is_Exception e then Ok after else Raise e
       end) /\
  (forall event_name p, lookup_parser event_name = Ok p -> keeps_header p).
Proof.
  unfold TraceCmdEvent.
  split_and!; [| | |by intros n t p -> ->|apply lookup_parser_keeps_header].
  - by intros ->.
  - intros n ev -> Hkeep H. destruct (numeric ts) as [t|e]; [|done].
    destruct parser as [p|]; [|by injection H as <-].
    specialize (Hkeep p eq_refl (fresh_event thread n t name body) body).
    destruct (p _ body) as [left [e|]]; simpl in Hkeep.
    + destruct (is_Exception e); [|done]. injection H as <-.
      by injection Hkeep as _ _ -> _.
    + injection H as <-. by injection Hkeep as _ _ -> _.
  - by intros n t -> ->.
Qed.

Lemma TraceCmdEvent_header th cpu ts nm bd p ev :
  keeps_header p ->
  TraceCmdEvent th cpu ts nm bd (Some p) = Ok ev ->
  cls ev = TraceCmdEvent_class /\ thread ev = VStr th /\ name ev = VStr nm /\
  text ev = VStr bd /\ exists n, Py.int cpu = Some n /\ reporting_cpu_id ev = VInt n.
Proof.
  intros Hk. unfold TraceCmdEvent.
  destruct (Py.int cpu) as [n|]; [|done]. destruct (numeric ts) as [t|]; [|done].
  specialize (Hk (fresh_event th n t nm bd) bd).
  destruct (p _ bd) as [left [e|]]; simpl in Hk.
  - destruct (is_Exception e); [|done]. intros [= <-].
    injection Hk as -> -> -> _ -> ->. eauto 10.
  - intros [= <-]. injection Hk as -> -> -> _ -> ->. eauto 10.
Qed.

(** What a line can yield: a dropped-events event, or the event of a line
    of the event pattern whose name passed the filters. *)
Lemma classify_yield filters inside line inside' out ev :
  classify filters inside line = Next inside' out ->
  ev ∈ events out ->
  cls ev = DroppedEventsEvent_class \/
  exists th cpu ts nm bd,
    event_line line th cpu ts nm bd /\
    cls ev = TraceCmdEvent_class /\ name ev = VStr nm /\
    (filters = [] \/ existsb (fun f => matches f nm) filters = true).
Proof.
  unfold classify, classify_in; fold lookup_parser.
  destruct (Re.search DROPPED_EVENTS_REGEX line) as [mt|] eqn:Hd.
  - destruct (Re.group "cpu_id" mt) as [cpu|]; [|done].
    unfold DroppedEventsEvent. destruct (Py.int cpu); [|done].
    intros [= <- <-] Hin. left. simpl in Hin. apply list_elem_of_singleton in Hin.
    by subst ev.
  - destruct (existsb _ [HEADER_REGEX; EMPTY_CPU_REGEX]).
    { intros [= <- <-] Hin. by apply elem_of_nil in Hin. }
    destruct (Re.search TRACE_EVENT_REGEX line) as [mt|] eqn:Ht.
    2:{ intros [= <- <-] Hin. by apply elem_of_nil in Hin. }
    apply trace_event_match in Ht as (th & cpu & ts & nm & bd & -> & Hl).
    rewrite trace_event_kwargs.
    destruct (negb (Py.is_empty_list filters) && _) eqn:Hf.
    { intros [= <- <-] Hin. by apply elem_of_nil in Hin. }
    destruct (lookup_parser nm) as [p|] eqn:Hp; [|done].
    destruct (TraceCmdEvent th cpu ts nm bd (Some p)) as [ev'|] eqn:He; [|done].
    intros [= <- <-] Hin. simpl in Hin. apply list_elem_of_singleton in Hin. subst ev'.
    right. exists th, cpu, ts, nm, bd.
    apply TraceCmdEvent_header in He as (? & ? & ? & _);
      [|by apply (lookup_parser_keeps_header nm)].
    split_and!; [done..|].
    apply andb_false_iff in Hf as [Hf|Hf].
    + left. destruct filters; [done|]. done.
    + right. by apply negb_false_iff in Hf.
Qed.

Lemma process_line_yield self filters inside line inside' out ev :
  process_line self filters inside line = Next inside' out ->
  ev ∈ events out ->
  cls ev = DroppedEventsEvent_class \/
  exists th cpu ts nm bd,
    event_line line th cpu ts nm bd /\
    cls ev = TraceCmdEvent_class /\ name ev = VStr nm /\
    (filters = [] \/ existsb (fun f => matches f nm) filters = true).
Proof.
  unfold process_line, process_line_in; fold classify. intros H Hin.
  destruct (filter_markers self); [|by eapply classify_yield].
  destruct (negb inside).
  - destruct (Py.contains TRACE_MARKER_START line); injection H as <- <-;
      by apply elem_of_nil in Hin.
  - destruct (Py.contains TRACE_MARKER_STOP line); [done|]. by eapply classify_yield.
Qed.

(** A property of what each line yields is a property of the stream. *)
Lemma parse_loop_yields (Q : event_obj -> Prop) self filters lines :
  (forall inside line inside' out ev,
     line ∈ lines -> process_line self filters inside line = Next inside' out ->
     ev ∈ events out -> Q ev) ->
  forall inside ev, ev ∈ events (emitted (parse_loop self filters inside lines)) -> Q ev.
Proof.
  induction lines as [|line lines IH]; intros Hq inside ev Hin.
  - simpl in Hin. destruct (_ && _); simpl in Hin; by apply elem_of_nil in Hin.
  - cbn [parse_loop parse_loop_in] in Hin; fold parse_loop process_line in Hin.
    destruct (process_line self filters inside line) as [inside' out| |e] eqn:Hp;
      cbn [emitted] in Hin; [|by apply elem_of_nil in Hin..].
    rewrite events_app in Hin. apply elem_of_app in Hin as [Hin|Hin].
    + eapply (Hq inside line inside' out); [by left|done|done].
    + apply (IH (fun i l i' o e Hl => Hq i l i' o e (list_elem_of_further _ _ _ Hl)) inside' ev Hin).
Qed.

Lemma readlines_one_line content : Forall (fun l => one_line l = true) (Py.readlines content).
Proof.
  induction content as [|c s IH]; [constructor|]. simpl.
  destruct (Ascii.eqb c "010") eqn:Hc.
  - constructor; [|done]. simpl. by rewrite Hc.
  - destruct (Py.readlines s) as [|l ls]; constructor; try constructor.
    + simpl. by rewrite Hc.
    + simpl. rewrite Hc. by apply Forall_cons in IH as [? _].
    + by apply Forall_cons in IH as [_ ?].
Qed.

Lemma one_line_newline_last a b :
  one_line (a +:+ String "010" b) = true -> b = "".
Proof.
  induction a as [|x a IH]; simpl.
  - by intros ?%is_empty_true.
  - destruct (Ascii.eqb x "010"); [|done].
    rewrite is_empty_append. simpl. by rewrite andb_false_r.
Qed.

Lemma at_end_cases rest :
  Re.at_end rest = true -> rest = "" \/ rest = String "010" "".
Proof.
  destruct rest as [|c [|d rest]]; [by left| |done].
  simpl. intros ?%Ascii.eqb_eq. right. by subst c.
Qed.

(** The filter made of the entry [sched_switch] lets one name through. *)
Lemma sched_switch_filter filters line th cpu ts nm bd :
  make_filters ["sched_switch"] = Ok filters ->
  one_line line = true ->
  event_line line th cpu ts nm bd ->
  existsb (fun f => matches f nm) filters = true ->
  nm = "sched_switch".
Proof.
  intros Hf Hone Hl Hm. vm_compute in Hf. injection Hf as <-.
  cbn [existsb] in Hm. rewrite orb_false_r in Hm. unfold matches in Hm.
  destruct (Re.search _ nm) as [mt|] eqn:Hs; [|done].
  apply search_sound in Hs as (pre & p & rest & -> & H).
  den_cat H p0 Hbol. destruct Hbol as (-> & Hpre & ->).
  apply is_empty_true in Hpre as ->. repeat den_step.
  match goal with He : Re.at_end rest = true |- _ => apply at_end_cases in He as [->| ->] end;
    [done|exfalso].
  destruct Hl as (_ & _ & _ & _ & _ & _ & head2 & tail2 & _ & _ & _ & _ & _ & _ & _ & _
                  & _ & _ & Hline & _).
  subst line.
  match type of Hone with
  | one_line ?x = true =>
      assert (E : x = (head2 +:+ "sched_switch") +:+ String "010" (String ":" tail2))
        by (rewrite !append_assoc; reflexivity)
  end.
  rewrite E in Hone. by apply one_line_newline_last in Hone.
Qed.

Lemma make_filters_Forall2 event_names filters :
  make_filters event_names = Ok filters ->
  Forall2 (fun n f => re_compile ("^" +:+ n +:+ "$") 0 = Ok f) event_names filters.
Proof.
  revert filters. induction event_names as [|n event_names IH]; intros filters.
  - intros [= <-]. constructor.
  - cbn [make_filters]. destruct (re_compile _ 0) as [f|] eqn:Hc; [|done].
    destruct (make_filters event_names) as [fs|]; [|done].
    intros [= <-]. constructor; [done|by apply IH].
Qed.

(** C9 as amended (name filter).  With a non-empty list of names, each entry
    [n] is compiled as the pattern [^n$] and searched in the event name.  A
    line that is not taken by the marker filtering, that matches the event
    pattern and not the dropped-events pattern, and whose name no filter
    matches, is skipped: the loop goes on with the next line in the same
    state and nothing is yielded, the line being logged at the debug level
    when it is an empty-CPU line as well.  A line with a dropped-events
    notice yields its event whatever the filters are.  Every event of the
    stream is a dropped-events event or a trace event whose name one of the
    filters matches; with the one entry [sched_switch], every trace event
    of the stream is named [sched_switch]. *)
Theorem C9_name_filter (self : TraceCmdTrace) (filters : list Re.re) (content : string) :
  names self <> [] ->
  make_filters (names self) = Ok filters ->
  Forall2 (fun n f => re_compile ("^" +:+ n +:+ "$") 0 = Ok f) (names self) filters /\
  (forall inside line mt nm,
     filter_markers self = false \/
       (inside = true /\ Py.contains TRACE_MARKER_STOP line = false) ->
     Re.search DROPPED_EVENTS_REGEX line = None ->
     Re.search TRACE_EVENT_REGEX line = Some mt ->
     Re.group "name" mt = Some nm ->
     existsb (fun f => matches f nm) filters = false ->
     process_line self filters inside line =
       Next inside
         (if existsb (fun rx => matches rx line) [HEADER_REGEX; EMPTY_CPU_REGEX]
          then [Log Debug (Py.strip line)] else [])) /\
  (forall inside line mt,
     filter_markers self = false \/
       (inside = true /\ Py.contains TRACE_MARKER_STOP line = false) ->
     Re.search DROPPED_EVENTS_REGEX line = Some mt ->
     exists d,
       Re.group "cpu_id" mt = Some d /\
       process_line self filters inside line =
         Next inside [Yield (dropped_event (Py.digits_value 0 d))]) /\
  (forall ev, ev ∈ events (emitted (parse self content)) ->
     cls ev = DroppedEventsEvent_class \/
     (cls ev = TraceCmdEvent_class /\
      exists nm, name ev = VStr nm /\
        existsb (fun f => matches f nm) filters = true)) /\
  (names self = ["sched_switch"] ->
   forall ev, ev ∈ events (emitted (parse self content)) ->
     cls ev = DroppedEventsEvent_class \/
     (cls ev = TraceCmdEvent_class /\ name ev = VStr "sched_switch")).
Proof.
  intros Hnames Hf.
  assert (H2 := make_filters_Forall2 _ _ Hf).
  assert (Hne : filters <> []).
  { intros ->. apply Forall2_nil_inv_r in H2. done. }
  assert (Hgated : forall inside line,
    filter_markers self = false \/
      (inside = true /\ Py.contains TRACE_MARKER_STOP line = false) ->
    process_line self filters inside line = classify filters inside line).
  { intros inside line Hgate. unfold process_line, process_line_in; fold classify.
    destruct Hgate as [->|[-> ->]]; [done|]. by destruct (filter_markers self). }
  split_and!; [done| | | |].
  - intros inside line mt nm Hgate Hd Ht Hg Hm. rewrite (Hgated _ _ Hgate).
    unfold classify, classify_in; fold lookup_parser. rewrite Hd.
    destruct (existsb _ [HEADER_REGEX; EMPTY_CPU_REGEX]); [done|].
    rewrite Ht.
    apply trace_event_match in Ht as (th & cpu & ts & nm' & bd & -> & _).
    rewrite trace_event_kwargs. injection Hg as ->. rewrite Hm.
    destruct filters; [done|]. done.
  - intros inside line mt Hgate Hd. rewrite (Hgated _ _ Hgate).
    destruct (dropped_events_classify filters inside line mt Hd)
      as (d & n & Hg & _ & _ & -> & _ & Hc).
    exists d. split; [done|]. exact Hc.
  - unfold parse, parse_in; fold parse_loop. rewrite Hf.
    apply (parse_loop_yields _ self filters (Py.readlines content)).
    intros inside line inside' out ev _ Hp Hin.
    destruct (process_line_yield _ _ _ _ _ _ _ Hp Hin)
      as [?|(th & cpu & ts & nm & bd & _ & ? & ? & [?|?])]; [by left|done|].
    right. split; [done|]. by exists nm.
  - intros Hn. rewrite Hn in Hf. unfold parse, parse_in; fold parse_loop. rewrite Hn, Hf.
    apply (parse_loop_yields _ self filters (Py.readlines content)).
    intros inside line inside' out ev Hl Hp Hin.
    destruct (process_line_yield _ _ _ _ _ _ _ Hp Hin)
      as [?|(th & cpu & ts & nm & bd & Hline & ? & ? & [?|Hm])]; [by left|done|].
    right. split; [done|].
    assert (Hone : one_line line = true).
    { by apply (proj1 (Forall_forall _ _) (readlines_one_line content)). }
    by rewrite (sched_switch_filter filters line th cpu ts nm bd Hf Hone Hline Hm) in *.
Qed.

(** ** The start marker in a file *)

Lemma startswith_spec p s : Py.startswith p s = true <-> exists post, s = p +:+ post.
Proof.
  revert s. induction p as [|a p IH]; intros s.
  - split; [intros _; by exists s|done].
  - destruct s as [|b s]; simpl.
    + split; [done|]. by intros (post & H).
    + rewrite andb_true_iff, IH. split.
      * intros (->%Ascii.eqb_eq & post & ->). by exists post.
      * intros (post & H). rewrite append_cons in H. injection H as -> ->.
        split; [apply Ascii.eqb_refl|by exists post].
Qed.

Lemma contains_spec p s :
  Py.contains p s = true <-> exists pre post, s = pre +:+ p +:+ post.
Proof.
  induction s as [|b s IH].
  - simpl. rewrite orb_false_r, startswith_spec. split.
    + intros (post & H). by exists "", post.
    + intros (pre & post & H). destruct pre; [by exists post|done].
  - cbn [Py.contains]. rewrite orb_true_iff, startswith_spec, IH. split.
    + intros [(post & H)|(pre & post & ->)];
        [by exists "", post|by exists (String b pre), post].
    + intros (pre & post & H). destruct pre as [|x pre]; [left; by exists post|].
      right. rewrite append_cons in H. injection H as -> ->. by exists pre, post.
Qed.

Lemma readlines_nil s : Py.readlines s = [] -> s = "".
Proof.
  destruct s as [|c s]; [done|]. simpl.
  destruct (Ascii.eqb c "010"); [done|]. by destruct (Py.readlines s).
Qed.

(** A text without a newline starts a file when it starts its first
    line. *)
Lemma startswith_first_line q s l ls :
  Py.count "010" q = 0 -> Py.readlines s = l :: ls ->
  Py.startswith q l = Py.startswith q s.
Proof.
  revert q l ls. induction s as [|d s IH]; intros q l ls Hq H; [done|].
  simpl in H. destruct (Ascii.eqb d "010") eqn:Hd.
  - injection H as <- _. destruct q as [|a q]; [done|]. simpl in Hq |- *.
    apply Ascii.eqb_eq in Hd as ->. by destruct (Ascii.eqb a "010").
  - destruct (Py.readlines s) as [|l' ls'] eqn:Hr.
    + injection H as <- _. by apply readlines_nil in Hr as ->.
    + injection H as <- _. destruct q as [|a q]; [done|]. simpl in Hq |- *.
      rewrite (IH q l' ls'); [done|lia|done].
Qed.

(** A text without a newline is in a file when it is in one of its
    lines. *)
Lemma contains_readlines p s :
  p <> "" -> Py.count "010" p = 0 ->
  existsb (Py.contains p) (Py.readlines s) = Py.contains p s.
Proof.
  intros Hne Hp. destruct p as [|a p]; [done|]. clear Hne.
  assert (Ha : Ascii.eqb a "010" = false).
  { simpl in Hp. by destruct (Ascii.eqb a "010"). }
  induction s as [|c s IH]; [done|].
  cbn [Py.readlines]. destruct (Ascii.eqb c "010") eqn:Hc.
  - apply Ascii.eqb_eq in Hc as ->. cbn [existsb]. rewrite IH.
    simpl. by rewrite Ha.
  - destruct (Py.readlines s) as [|l ls] eqn:Hr.
    + apply readlines_nil in Hr as ->. simpl. by rewrite !orb_false_r.
    + cbn [existsb] in IH |- *. cbn [Py.contains]. rewrite <-IH.
      rewrite <-orb_assoc. f_equal.
      change (Py.startswith (String a p) (String c l)) with (Ascii.eqb a c && Py.startswith p l).
      change (Py.startswith (String a p) (String c s)) with (Ascii.eqb a c && Py.startswith p s).
      rewrite (startswith_first_line p s l ls); [done| |done].
      simpl in Hp. lia.
Qed.

(** X1 (the start marker of a file).  [has_start_marker] is computed once
    for a reader: read for the first time, it scans the file line by line,
    which, the marker holding no newline, is the same as looking for the
    marker in the whole content, and the answer is kept; read again, it is
    the answer kept, whatever the file holds by then, also when the answer
    was kept under the same identity by another reader.  The answers kept
    for other readers are not touched. *)
Theorem X1_has_start_marker (cache : memo_cache) (reader : N) (content : string) :
  let first := has_start_marker cache reader content in
  (cache !! reader = None ->
     first.1 = Py.contains TRACE_MARKER_START content /\
     (first.1 = true <-> exists pre post, content = pre +:+ TRACE_MARKER_START +:+ post) /\
     first.2 = <[reader := first.1]> cache) /\
  (forall answer, cache !! reader = Some answer -> first = (answer, cache)) /\
  (forall later, has_start_marker first.2 reader later = first) /\
  (forall other, other <> reader -> first.2 !! other = cache !! other).
Proof.
  assert (E : find_start_marker content = Py.contains TRACE_MARKER_START content).
  { unfold find_start_marker. by apply contains_readlines. }
  cbn zeta. unfold has_start_marker, memoized, memo_cache in *.
  destruct (cache !! reader) as [answer|] eqn:Hc; cbn [fst snd].
  - split_and!; [done|by intros ? [= <-]| |done].
    intros later. by rewrite Hc.
  - split_and!; [|done| |].
    + intros _. split_and!; [done| |done]. rewrite E. apply contains_spec.
    + intros later. by rewrite lookup_insert_eq.
    + intros other Hne. by rewrite lookup_insert_ne.
Qed.

Lemma existsb_false_Forall {A} (f : A -> bool) (l : list A) :
  existsb f l = false -> Forall (fun x => f x = false) l.
Proof.
  induction l as [|x l IH]; [constructor|]. simpl.
  intros [? ?]%orb_false_iff. constructor; auto.
Qed.

(** X2 (no start marker).  With the marker filtering on, as it is by default,
    a file on which [has_start_marker], read for the first time, is false
    yields nothing and logs nothing once the filters are compiled: every
    line is read and skipped, and the stream ends with the file. *)
Theorem X2_no_start_marker (self : TraceCmdTrace) (filters : list Re.re)
    (cache : memo_cache) (reader : N) (content : string) :
  filter_markers self = true ->
  make_filters (names self) = Ok filters ->
  cache !! reader = None ->
  (has_start_marker cache reader content).1 = false ->
  parse self content =
    {| emitted := []; lines_read := length (Py.readlines content); ended := Exhausted |}.
Proof.
  intros Hf Hc Hn Hm. unfold parse, parse_in; fold parse_loop. rewrite Hc.
  unfold has_start_marker, memoized in Hm. rewrite Hn in Hm. cbn [fst] in Hm.
  apply existsb_false_Forall in Hm.
  rewrite <-(app_nil_r (Py.readlines content)) at 1.
  rewrite (parse_loop_before_start self filters _ [] Hf Hm).
  unfold parse_loop. simpl. rewrite andb_false_r. unfold after_lines. simpl. by rewrite Nat.add_0_r.
Qed.

(** ** The marked region against the reader without filtering *)

(** The flag of the region passes through the body of the loop and has no
    part in what a line gives. *)
Lemma classify_flag filters i j line :
  classify filters i line =
    match classify filters j line with
    | Next _ out => Next i out
    | Break => Break
    | Abort e => Abort e
    end.
Proof. unfold classify, classify_in; fold lookup_parser. repeat case_match; congruence. Qed.

Lemma process_line_unfiltered self filters i line :
  filter_markers self = false ->
  process_line self filters i line = classify filters i line.
Proof. intros Hf. unfold process_line, process_line_in; fold classify. by rewrite Hf. Qed.

Lemma process_line_region self filters line :
  filter_markers self = true ->
  Py.contains TRACE_MARKER_STOP line = false ->
  process_line self filters true line =
    match process_line (without_markers self) filters false line with
    | Next _ out => Next true out
    | Break => Break
    | Abort e => Abort e
    end.
Proof.
  intros Hf Hs. rewrite (process_line_unfiltered (without_markers self)) by done.
  unfold process_line, process_line_in; fold classify. rewrite Hf, Hs. simpl. apply classify_flag.
Qed.

Lemma process_line_unfiltered_flag self filters i line i' out :
  filter_markers self = false ->
  process_line self filters i line = Next i' out -> i' = i.
Proof.
  intros Hf. rewrite process_line_unfiltered by done. apply classify_inside.
Qed.

(** Inside the region and before any stop marker, the reader does what the
    reader without filtering does. *)
Lemma parse_loop_region self filters mid tail :
  filter_markers self = true ->
  Forall (fun x => Py.contains TRACE_MARKER_STOP x = false) mid ->
  let r := parse_loop self filters true (mid ++ tail) in
  let u := parse_loop (without_markers self) filters false mid in
  let t := parse_loop self filters true tail in
  match ended u with
  | Exhausted =>
      emitted r = emitted u ++ emitted t /\
      lines_read r = lines_read u + lines_read t /\ ended r = ended t
  | _ => r = u
  end.
Proof.
  intros Hf Hmid. induction Hmid as [|x mid Hx _ IH].
  - cbn zeta. simpl. by destruct (parse_loop self filters true tail).
  - cbn zeta in IH |- *. cbn [app parse_loop parse_loop_in]; fold parse_loop process_line.
    rewrite (process_line_region self filters x Hf Hx).
    destruct (process_line (without_markers self) filters false x)
      as [i out| |e] eqn:Hp; [|done..].
    apply process_line_unfiltered_flag in Hp as ->; [|done].
    cbn [emitted lines_read ended].
    destruct (ended (parse_loop (without_markers self) filters false mid)) eqn:He.
    + destruct IH as (-> & -> & ->). by rewrite app_assoc.
    + by rewrite IH, He.
    + by rewrite IH, He.
Qed.

(** X3 (the marked region).  With the marker filtering on, a file made of
    lines without the start marker, a line with it, lines without the stop
    marker, a line with the stop marker and any further lines gives what
    the reader without filtering gives on the lines between the two markers
    alone: the same events and log records in the same order.  It ends at
    the stop marker when those lines are read to their end, and with the
    exception one of them raises otherwise. *)
Theorem X3_marked_region (self : TraceCmdTrace) (filters : list Re.re)
    (pre : list string) (start : string) (mid : list string) (stop : string)
    (post : list string) :
  filter_markers self = true ->
  Forall (fun l => Py.contains TRACE_MARKER_START l = false) pre ->
  Py.contains TRACE_MARKER_START start = true ->
  Forall (fun l => Py.contains TRACE_MARKER_STOP l = false) mid ->
  Py.contains TRACE_MARKER_STOP stop = true ->
  let r := parse_loop self filters false (pre ++ start :: mid ++ stop :: post) in
  let u := parse_loop (without_markers self) filters false mid in
  emitted r = emitted u /\
  ended r = match ended u with Exhausted => Stopped | e => e end /\
  lines_read r =
    length pre + 1 + lines_read u + match ended u with Exhausted => 1 | _ => 0 end.
Proof.
  intros Hf Hpre Hstart Hmid Hstop. cbn zeta.
  rewrite (parse_loop_before_start self filters pre _ Hf Hpre).
  cbn [parse_loop parse_loop_in]; fold parse_loop process_line.
  rewrite (process_line_awaiting self filters start Hf), Hstart.
  pose proof (parse_loop_region self filters mid (stop :: post) Hf Hmid) as H.
  cbn zeta in H. cbn [parse_loop parse_loop_in] in H; fold parse_loop process_line in H.
  rewrite (process_line_stop self filters stop Hf Hstop) in H.
  cbn [emitted lines_read ended] in H.
  destruct (ended (parse_loop (without_markers self) filters false mid)) eqn:He.
  - destruct H as (H1 & H2 & H3). cbn [after_lines emitted lines_read ended app].
    rewrite H1, H2, H3, app_nil_r. split_and!; [done|done|lia].
  - rewrite H. cbn [after_lines emitted lines_read ended app].
    rewrite He. split_and!; [done|done|lia].
  - rewrite H. cbn [after_lines emitted lines_read ended app].
    rewrite He. split_and!; [done|done|lia].
Qed.

(** X4 (no stop marker).  With the marker filtering on, a file whose region
    is opened and never closed gives the events of the lines after the start
    marker, as the reader without filtering gives them; when these lines are
    read to their end, the warning that no stop marker was met is logged
    last, and the stream ends with the file. *)
Theorem X4_missing_stop_marker (self : TraceCmdTrace) (filters : list Re.re)
    (pre : list string) (start : string) (mid : list string) :
  filter_markers self = true ->
  Forall (fun l => Py.contains TRACE_MARKER_START l = false) pre ->
  Py.contains TRACE_MARKER_START start = true ->
  Forall (fun l => Py.contains TRACE_MARKER_STOP l = false) mid ->
  let r := parse_loop self filters false (pre ++ start :: mid) in
  let u := parse_loop (without_markers self) filters false mid in
  emitted r =
    emitted u ++ match ended u with Exhausted => no_stop_warning | _ => [] end /\
  events (emitted r) = events (emitted u) /\
  ended r = ended u /\
  lines_read r = length pre + 1 + lines_read u.
Proof.
  intros Hf Hpre Hstart Hmid. cbn zeta.
  rewrite (parse_loop_before_start self filters pre _ Hf Hpre).
  cbn [parse_loop parse_loop_in]; fold parse_loop process_line.
  rewrite (process_line_awaiting self filters start Hf), Hstart.
  pose proof (parse_loop_region self filters mid [] Hf Hmid) as H.

   cbn zeta in H. rewrite app_nil_r in H. cbn [parse_loop parse_loop_in] in H; fold parse_loop process_line in H.
  rewrite Hf in H. cbn [andb emitted lines_read ended] in H.
  cbn [after_lines emitted lines_read ended app].
  destruct (ended (parse_loop (without_markers self) filters false mid)) eqn:He.
  - destruct H as (H1 & H2 & H3). rewrite H1, H2, H3, events_app.
    split_and!; [done|by rewrite app_nil_r|done|lia].
  - rewrite H, He, app_nil_r. split_and!; [done|done|done|lia].
  - rewrite H, He, app_nil_r. split_and!; [done|done|done|lia].
Qed.

(** ** What the loop reads and yields *)

Lemma classify_one_event filters i line i' out :
  classify filters i line = Next i' out -> length (events out) <= 1.
Proof.
  unfold classify, classify_in; fold lookup_parser. intros H.
  repeat case_match; try done; injection H as _ <-; simpl; lia.
Qed.

Lemma process_line_one_event self filters i line i' out :
  process_line self filters i line = Next i' out -> length (events out) <= 1.
Proof.
  unfold process_line, process_line_in; fold classify. intros H.
  repeat case_match; try done; try (by eapply classify_one_event);
    injection H as _ <-; simpl; lia.
Qed.

Lemma process_line_break self filters i line :
  process_line self filters i line = Break -> filter_markers self = true.
Proof.
  unfold process_line, process_line_in; fold classify. destruct (filter_markers self); [done|].
  unfold classify, classify_in; fold lookup_parser. intros H. repeat case_match; done.
Qed.

(** X5 (lines and events).  The loop reads the lines in order and each line
    gives one event at most: the events are no more than the lines read;
    a stream that ends with the file has read every line; a stream that
    ends otherwise has read one line at least and nothing after the line it
    ends on, the run being the run on the lines read; and the loop is left
    by [break] only when the marker filtering is on. *)
Theorem X5_lines_and_events (self : TraceCmdTrace) (filters : list Re.re)
    (inside : bool) (lines : list string) :
  let r := parse_loop self filters inside lines in
  lines_read r <= length lines /\
  length (events (emitted r)) <= lines_read r /\
  (ended r = Exhausted -> lines_read r = length lines) /\
  (ended r <> Exhausted ->
     1 <= lines_read r /\
     r = parse_loop self filters inside (take (lines_read r) lines)) /\
  (ended r = Stopped -> filter_markers self = true).
Proof.
  cbn zeta. revert inside. induction lines as [|line lines IH]; intros inside.
  - simpl. split_and!; [lia| |done|done|done].
    destruct (_ && _); simpl; lia.
  - cbn [parse_loop parse_loop_in length]; fold parse_loop process_line.
    destruct (process_line self filters inside line) as [i out| |e] eqn:Hp.
    + destruct (IH i) as (H1 & H2 & H3 & H4 & H5). cbn [emitted lines_read ended].
      split_and!; [lia| |intros H; rewrite H3; done| |done].
      * rewrite events_app, length_app.
        apply process_line_one_event in Hp. lia.
      * intros H. destruct (H4 H) as [H6 H7]. split; [lia|].
        cbn [take parse_loop parse_loop_in]; fold parse_loop process_line.
        rewrite Hp. by rewrite <-H7.
    + cbn [emitted lines_read ended]. cbn [take parse_loop parse_loop_in];
        fold parse_loop process_line. rewrite Hp. simpl.
      split_and!; [lia|lia|done|done|].
      intros _. by apply process_line_break in Hp.
    + cbn [emitted lines_read ended]. cbn [take parse_loop parse_loop_in];
        fold parse_loop process_line. rewrite Hp. simpl.
      split_and!; [lia|lia|done|done|done].
Qed.

(** X6 (lines are independent).  With the marker filtering off the reader
    keeps no state from one line to the next: the run on two lists of lines
    one after the other is the run on the first followed by the run on the
    second, unless a line of the first raises, which ends the stream
    there. *)
Theorem X6_lines_independent (self : TraceCmdTrace) (filters : list Re.re)
    (inside : bool) (lines1 lines2 : list string) :
  filter_markers self = false ->
  let r1 := parse_loop self filters inside lines1 in
  let r2 := parse_loop self filters inside lines2 in
  parse_loop self filters inside (lines1 ++ lines2) =
    match ended r1 with
    | Exhausted =>
        {| emitted := emitted r1 ++ emitted r2;
           lines_read := lines_read r1 + lines_read r2; ended := ended r2 |}
    | _ => r1
    end.
Proof.
  intros Hf. cbn zeta. induction lines1 as [|line lines1 IH].
  - simpl. rewrite Hf. simpl. by destruct (parse_loop self filters inside lines2).
  - cbn [app parse_loop parse_loop_in]; fold parse_loop process_line.
    destruct (process_line self filters inside line) as [i out| |e] eqn:Hp; [|done..].
    apply process_line_unfiltered_flag in Hp as ->; [|done].
    rewrite IH. cbn [emitted lines_read ended].
    destruct (ended (parse_loop self filters inside lines1)) eqn:He;
      [|by rewrite He..].
    cbn [emitted lines_read ended]. by rewrite app_assoc.
Qed.

(** ** The events of the stream *)

Lemma lstrip_first c s : Py.isspace c = false -> Py.lstrip (String c s) = String c s.
Proof. intros H. simpl. by rewrite H. Qed.

Lemma rstrip_append a b : Py.rstrip b <> "" -> Py.rstrip (a +:+ b) = a +:+ Py.rstrip b.
Proof.
  intros Hb. induction a as [|c a IH]; [done|]. rewrite !append_cons. simpl.
  rewrite IH. destruct (a +:+ Py.rstrip b) as [|x y] eqn:E; [|done].
  destruct a; [done|discriminate].
Qed.

Lemma rstrip_nonspace s :
  Py.all_chars (fun b => negb (Py.isspace b)) s = true -> Py.rstrip s = s.
Proof.
  induction s as [|c s IH]; [done|]. simpl. intros [Hc Hs]%andb_true_iff.
  rewrite (IH Hs). apply negb_true_iff in Hc. by rewrite Hc, andb_false_r.
Qed.

(** A text that starts and ends with a run of characters that are no
    whitespace is left as it is by [strip]. *)
Lemma strip_between t1 t2 t3 :
  t1 <> "" -> Py.all_chars (fun b => negb (Py.isspace b)) t1 = true ->
  t3 <> "" -> Py.all_chars (fun b => negb (Py.isspace b)) t3 = true ->
  Py.strip (t1 +:+ t2 +:+ t3) = t1 +:+ t2 +:+ t3.
Proof.
  intros H1n H1 H3n H3. unfold Py.strip.
  destruct t1 as [|x t1]; [done|]. simpl in H1.
  apply andb_true_iff in H1 as [Hx _]. apply negb_true_iff in Hx.
  rewrite append_cons, (lstrip_first _ _ Hx), <-append_cons.
  rewrite <-append_assoc, rstrip_append; rewrite (rstrip_nonspace t3 H3); done.
Qed.

Lemma count_none c s :
  Py.all_chars (fun b => negb (Ascii.eqb b c)) s = true -> Py.count c s = 0.
Proof.
  induction s as [|x s IH]; [done|]. simpl. intros [Hx Hs]%andb_true_iff.
  apply negb_true_iff in Hx. by rewrite Hx, (IH Hs).
Qed.

Lemma in_cls_ts b : Re.in_cls false [Re.CDigit; Re.CChar "."] b = is_ts_char b.
Proof.
  unfold Re.in_cls, is_ts_char. simpl. by rewrite orb_false_r, Ascii.eqb_sym.
Qed.

Lemma in_cls_not_colon b : Re.in_cls true [Re.CChar ":"] b = negb (Ascii.eqb b ":").
Proof. unfold Re.in_cls. simpl. by rewrite orb_false_r, Ascii.eqb_sym. Qed.

Lemma is_blank_intro ws :
  ws <> "" -> Py.all_chars Py.isspace ws = true -> is_blank ws = true.
Proof. intros Hn Hs. unfold is_blank. rewrite Hs. by destruct ws. Qed.

(** A line the event pattern matches, cut into the texts of the parts of
    the pattern, with the texts of the five groups. *)
Lemma trace_event_full line mt :
  Re.search TRACE_EVENT_REGEX line = Some mt ->
  exists ws1 th ws2 cpu ws3 ts ws4 nm ws5 bd ws6 rest,
    line = ws1 +:+ th +:+ ws2 +:+
           String "[" (cpu +:+ String "]" (ws3 +:+ ts +:+
             String ":" (ws4 +:+ nm +:+ String ":" (ws5 +:+ bd +:+ ws6 +:+ rest)))) /\
    mt = [("body", bd); ("name", nm); ("ts", ts); ("cpu_id", cpu); ("thread", th)] /\
    Forall (fun ws => is_blank ws = true) [ws1; ws2; ws3; ws4; ws5] /\
    Py.all_chars Py.isspace ws6 = true /\ Re.at_end rest = true /\
    Py.strip th = th /\ 2 <= String.length th /\
    cpu <> "" /\ Py.all_chars Py.isdigit cpu = true /\
    ts <> "" /\ Py.all_chars is_ts_char ts = true /\
    nm <> "" /\ Py.count ":" nm = 0 /\
    Py.count "010" bd = 0.
Proof.
  intros H. apply search_sound in H as (pre & p & rest & -> & H).
  unfold TRACE_EVENT_REGEX in H.
  den_cat H p0 Hbol. destruct Hbol as (-> & Hpre & ->).
  den_cat H ws1 Hws1. apply (plus_single _ _ _ _ _ _ _ _ (single_cls _ _)) in Hws1
    as (-> & Hws1n & Hws1).
  den_cat H th Hth. destruct Hth as (c1 & Hth & ->).
  destruct Hth as (t1 & q1 & c2 & -> & Ht1 & Hth).
  apply (plus_single _ _ _ _ _ _ _ _ (single_cls _ _)) in Ht1 as (-> & Ht1n & Ht1).
  destruct Hth as (t2 & t3 & c3 & -> & Ht2 & Ht3).
  apply (star_single _ _ _ _ _ _ _ single_any) in Ht2 as (-> & Ht2).
  apply (plus_single _ _ _ _ _ _ _ _ (single_cls _ _)) in Ht3 as (-> & Ht3n & Ht3).
  apply nonspaces_of_cls in Ht1, Ht3.
  den_cat H ws2 Hws2. apply (plus_single _ _ _ _ _ _ _ _ (single_cls _ _)) in Hws2
    as (-> & Hws2n & Hws2).
  den_cat H lb Hlb. destruct Hlb as (-> & ->).
  den_cat H cpu Hcpu. destruct Hcpu as (c4 & Hcpu & ->).
  apply (plus_single _ _ _ _ _ _ _ _ (single_cls _ _)) in Hcpu as (-> & Hcpun & Hcpu).
  den_cat H rb Hrb. destruct Hrb as (-> & ->).
  den_cat H ws3 Hws3. apply (plus_single _ _ _ _ _ _ _ _ (single_cls _ _)) in Hws3
    as (-> & Hws3n & Hws3).
  den_cat H ts Hts. destruct Hts as (c5 & Hts & ->).
  apply (plus_single _ _ _ _ _ _ _ _ (single_cls _ _)) in Hts as (-> & Htsn & Hts).
  den_cat H co1 Hco1. destruct Hco1 as (-> & ->).
  den_cat H ws4 Hws4. apply (plus_single _ _ _ _ _ _ _ _ (single_cls _ _)) in Hws4
    as (-> & Hws4n & Hws4).
  den_cat H nm Hname. destruct Hname as (c6 & Hname & ->).
  apply (plus_single _ _ _ _ _ _ _ _ (single_cls _ _)) in Hname as (-> & Hnamen & Hname).
  den_cat H co2 Hco2. destruct Hco2 as (-> & ->).
  den_cat H ws5 Hws5. apply (plus_single _ _ _ _ _ _ _ _ (single_cls _ _)) in Hws5
    as (-> & Hws5n & Hws5).
  destruct H as (bd & q & c7 & -> & Hbody & H). destruct Hbody as (c8 & Hbody & ->).
  apply (star_single _ _ _ _ _ _ _ single_any) in Hbody as (-> & Hbody).
  destruct H as (ws6 & q' & c9 & -> & Hws6 & Heol).
  apply (star_single _ _ _ _ _ _ _ (single_cls _ _)) in Hws6 as (-> & Hws6).
  destruct Heol as (-> & Heol & ->).
  apply is_empty_true in Hpre as ->. apply spaces_of_cls in Hws1, Hws2, Hws3, Hws4, Hws5, Hws6.
  exists ws1, (t1 +:+ t2 +:+ t3), ws2, cpu, ws3, ts, ws4, nm, ws5, bd, ws6, rest.
  split_and!; try done.
  - rewrite !append_assoc. reflexivity.
  - repeat constructor; by apply is_blank_intro.
  - by apply strip_between.
  - rewrite !length_append. destruct t1; [done|]. destruct t3; [done|]. simpl. lia.
  - by apply digits_of_cls.
  - by rewrite <-(all_chars_ext _ _ ts in_cls_ts).
  - apply count_none. by rewrite <-(all_chars_ext _ _ nm in_cls_not_colon).
  - by apply count_none.
Qed.

(** The texts of the five groups of a match of the event pattern. *)
Lemma trace_event_groups line mt :
  Re.search TRACE_EVENT_REGEX line = Some mt ->
  exists th cpu ts nm bd,
    mt = [("body", bd); ("name", nm); ("ts", ts); ("cpu_id", cpu); ("thread", th)] /\
    Py.strip th = th /\ 2 <= String.length th /\
    cpu <> "" /\ Py.all_chars Py.isdigit cpu = true /\
    ts <> "" /\ Py.all_chars is_ts_char ts = true /\
    nm <> "" /\ Py.count ":" nm = 0 /\
    Py.count "010" bd = 0.
Proof.
  intros (ws1 & th & ws2 & cpu & ws3 & ts & ws4 & nm & ws5 & bd & ws6 & rest & _ & H)
    %trace_event_full.
  exists th, cpu, ts, nm, bd. by destruct H as (? & _ & _ & _ & ?).
Qed.

Lemma TraceCmdEvent_ok th cpu ts nm bd p ev :
  keeps_header p ->
  TraceCmdEvent th cpu ts nm bd (Some p) = Ok ev ->
  exists n t, Py.int cpu = Some n /\ numeric ts = Ok t /\
    header ev = header (fresh_event th n t nm bd).
Proof.
  intros Hk. unfold TraceCmdEvent.
  destruct (Py.int cpu) as [n|]; [|done]. destruct (numeric ts) as [t|]; [|done].
  specialize (Hk (fresh_event th n t nm bd) bd).
  destruct (p _ bd) as [after [e|]]; simpl in Hk.
  - destruct (is_Exception e); [|done]. intros [= <-]. by exists n, t.
  - intros [= <-]. by exists n, t.
Qed.

Lemma lookup_parser_of event_name : lookup_parser event_name = Ok (parser_of event_name).
Proof.
  unfold lookup_parser, lookup_parser_in, parser_of, EVENT_PARSER_MAP.
  destruct (String.eqb_spec event_name "sched_switch") as [->|Hne].
  - by rewrite lookup_singleton_eq.
  - by rewrite lookup_singleton_ne.
Qed.

Lemma store_groups_exn items ev e :
  (store_groups items ev).2 = Some e -> e = TypeError.
Proof.
  revert ev. induction items as [|[k [v|]] items IH]; intros ev; simpl;
    [done|apply IH|by intros [= <-]].
Qed.

(** The parsers of the module raise errors only. *)
Lemma parser_of_exn event_name ev body e :
  (parser_of event_name ev body).2 = Some e -> is_Exception e = true.
Proof.
  unfold parser_of. destruct (String.eqb event_name "sched_switch").
  - unfold sched_switch_parser. destruct (_ =? 2).
    + rewrite sched_switch_re_compile. simpl. unfold regex_parser_func.
      destruct (Re.search _ body); [|done]. by intros ->%store_groups_exn.
    + unfold default_body_parser. by destruct (Nat.even _).
  - unfold default_body_parser. by destruct (Nat.even _).
Qed.

(** What the constructor gives with a parser of the module, on the text of
    a [\d+] group as its CPU id. *)
Lemma TraceCmdEvent_parser_of th cpu ts nm bd :
  cpu <> "" -> Py.all_chars Py.isdigit cpu = true ->
  TraceCmdEvent th cpu ts nm bd (Some (parser_of nm)) =
    match numeric ts with
    | Ok t => Ok (parser_of nm (fresh_event th (Py.digits_value 0 cpu) t nm bd) bd).1
    | Raise e => Raise e
    end.
Proof.
  intros Hn Hd. unfold TraceCmdEvent. destruct (int_digits cpu Hn Hd) as [-> _].
  destruct (numeric ts) as [t|e]; [|done].
  destruct (parser_of nm _ bd) as [after [e|]] eqn:Hp; [|done].
  assert (He : is_Exception e = true).
  { apply (parser_of_exn nm (fresh_event th (Py.digits_value 0 cpu) t nm bd) bd).
    by rewrite Hp. }
  by rewrite He.
Qed.

(** The body of the loop on a line that the event pattern matches and that
    is no dropped-events notice, header or empty-CPU line: the event is
    built when the name passes the filters, and only [numeric] can fail. *)
Lemma classify_event_line filters inside line th cpu ts nm bd :
  Re.search DROPPED_EVENTS_REGEX line = None ->
  matches HEADER_REGEX line = false ->
  matches EMPTY_CPU_REGEX line = false ->
  Re.search TRACE_EVENT_REGEX line =
    Some [("body", bd); ("name", nm); ("ts", ts); ("cpu_id", cpu); ("thread", th)] ->
  classify filters inside line =
    if negb (Py.is_empty_list filters) && negb (existsb (fun f => matches f nm) filters)
    then Next inside []
    else
      match numeric ts with
      | Ok t =>
          Next inside
            [Yield (parser_of nm (fresh_event th (Py.digits_value 0 cpu) t nm bd) bd).1]
      | Raise e => Abort e
      end.
Proof.
  intros Hd Hh He Ht. unfold classify, classify_in; fold lookup_parser.
  rewrite Hd. cbn [existsb]. rewrite Hh, He.
  cbn [orb]. rewrite Ht, trace_event_kwargs.
  destruct (_ && _); [done|]. rewrite lookup_parser_of.
  destruct (trace_event_groups _ _ Ht)
    as (th' & cpu' & ts' & nm' & bd' & [= <- <- <- <- <-] & _ & _ & Hn & Hc & _).
  rewrite TraceCmdEvent_parser_of by done. by destruct (numeric ts).
Qed.

Lemma parser_of_keeps_header event_name : keeps_header (parser_of event_name).
Proof. apply (lookup_parser_keeps_header event_name), lookup_parser_of. Qed.

Lemma classify_stream_event filters inside line inside' out ev :
  classify filters inside line = Next inside' out -> ev ∈ events out -> stream_event ev.
Proof.
  destruct (Re.search DROPPED_EVENTS_REGEX line) as [mt|] eqn:Hd.
  - destruct (dropped_events_classify filters inside _ _ Hd)
      as (d & n & _ & _ & _ & _ & Hn & ->).
    intros [= <- <-] Hin. simpl in Hin. apply list_elem_of_singleton in Hin as ->.
    left. by exists n.
  - unfold classify, classify_in; fold lookup_parser. rewrite Hd.
    destruct (existsb _ [HEADER_REGEX; EMPTY_CPU_REGEX]).
    { intros [= <- <-] Hin. by apply elem_of_nil in Hin. }
    destruct (Re.search TRACE_EVENT_REGEX line) as [mt|] eqn:Ht.
    2:{ intros [= <- <-] Hin. by apply elem_of_nil in Hin. }
    apply trace_event_groups in Ht
      as (th & cpu & ts & nm & bd & -> & Hth & Hlen & Hcn & Hc & Htn & Hts & Hnn & Hnm & Hbd).
    rewrite trace_event_kwargs.
    destruct (_ && _).
    { intros [= <- <-] Hin. by apply elem_of_nil in Hin. }
    rewrite lookup_parser_of, TraceCmdEvent_parser_of by done.
    destruct (numeric ts) as [t|e] eqn:Hnum; [|done].
    intros [= <- <-] Hin. simpl in Hin. apply list_elem_of_singleton in Hin as ->.
    pose proof (parser_of_keeps_header nm
                  (fresh_event th (Py.digits_value 0 cpu) t nm bd) bd) as Hk.
    injection Hk as Hk1 Hk2 Hk3 Hk4 Hk5 Hk6.
    right. split; [done|]. exists th, cpu, ts, nm, bd.
    rewrite Hk2, Hk3, Hk4, Hk5, Hk6. by split_and!.
Qed.

Lemma process_line_stream_event self filters inside line inside' out ev :
  process_line self filters inside line = Next inside' out ->
  ev ∈ events out -> stream_event ev.
Proof.
  unfold process_line, process_line_in; fold classify. intros H Hin.
  destruct (filter_markers self); [|by eapply classify_stream_event].
  destruct (negb inside).
  - destruct (Py.contains TRACE_MARKER_START line); injection H as <- <-;
      by apply elem_of_nil in Hin.
  - destruct (Py.contains TRACE_MARKER_STOP line); [done|].
    by eapply classify_stream_event.
Qed.

(** X7 (the events of the stream).  Every event [parse] yields is the event of
    a dropped-events notice, whose only field is a CPU id that is no
    negative integer and whose other slots but the name are [None], or a
    trace event: its thread is a text of two characters at least with no
    whitespace around it, its CPU id the integer of a text of digits, so not
    negative, its timestamp what [numeric] makes of a text of digits and
    points, its name a text that is not empty and holds no colon, and its
    body a text without a newline. *)
Theorem X7_stream_events (self : TraceCmdTrace) (content : string) (ev : event_obj) :
  ev ∈ events (emitted (parse self content)) -> stream_event ev.
Proof.
  unfold parse, parse_in; fold parse_loop. destruct (make_filters (names self)) as [filters|].
  - apply (parse_loop_yields stream_event self filters (Py.readlines content)).
    intros inside line inside' out ev' _. apply process_line_stream_event.
  - simpl. by intros ?%elem_of_nil.
Qed.






(** C2 (parser errors).  When the constructor has converted the CPU id and
    the timestamp and calls the body parser, and the parser raises an error,
    an instance of [Exception], the error is discarded: the construction
    succeeds and gives the event as the parser left it, with the fields it
    had set before failing.  And the event is still yielded: a line of the
    event pattern that is not taken by the marker filtering nor by the tests
    that come first, and whose name passes the filters, yields exactly that
    event when the parser the registry gives for its name raises such an
    error, whatever the registry holds, and the stream goes on with the
    lines after it: the run over the line and the rest is the run over the
    rest with that event in front and one more line read. *)
Theorem C2_parser_error_discarded (p : body_parser) (thread cpu_id ts name body : string)
    (n : Z) (t : pyval) (left : event_obj) (e : pyexn) :
  Py.int cpu_id = Some n ->
  numeric ts = Ok t ->
  p (fresh_event thread n t name body) body = (left, Some e) ->
  is_Exception e = true ->
  TraceCmdEvent thread cpu_id ts name body (Some p) = Ok left /\
  (forall parser_map self filters inside line mt,
     filter_markers self = false \/
       (inside = true /\ Py.contains TRACE_MARKER_STOP line = false) ->
     Re.search DROPPED_EVENTS_REGEX line = None ->
     matches HEADER_REGEX line = false ->
     matches EMPTY_CPU_REGEX line = false ->
     Re.search TRACE_EVENT_REGEX line = Some mt ->
     Re.group "thread" mt = Some thread -> Re.group "cpu_id" mt = Some cpu_id ->
     Re.group "ts" mt = Some ts -> Re.group "name" mt = Some name ->
     Re.group "body" mt = Some body ->
     filters = [] \/ existsb (fun f => matches f name) filters = true ->
     lookup_parser_in parser_map name = Ok p ->
     process_line_in parser_map self filters inside line = Next inside [Yield left] /\
     forall rest,
       let r := parse_loop_in parser_map self filters inside rest in
       parse_loop_in parser_map self filters inside (line :: rest) =
         {| emitted := Yield left :: emitted r; lines_read := S (lines_read r);
            ended := ended r |}).
Proof.
  intros Hc Ht Hp He.
  assert (Hev : TraceCmdEvent thread cpu_id ts name body (Some p) = Ok left).
  { unfold TraceCmdEvent. by rewrite Hc, Ht, Hp, He. }
  split; [done|].
  intros parser_map self filters inside line mt Hgate Hd Hh Hem Hm G1 G2 G3 G4 G5 Hf Hl.
  destruct (trace_event_match _ _ Hm) as (th' & cpu' & ts' & nm' & bd' & -> & _).
  injection G1 as ->. injection G2 as ->. injection G3 as ->. injection G4 as ->.
  injection G5 as ->.
  assert (Hcl : classify_in parser_map filters inside line = Next inside [Yield left]).
  { unfold classify_in. rewrite Hd. cbn [existsb]. rewrite Hh, Hem. cbn [orb].
    rewrite Hm, trace_event_kwargs.
    assert ((negb (Py.is_empty_list filters) &&
             negb (existsb (fun f => matches f name) filters)) = false) as ->.
    { destruct Hf as [-> | ->]; [done|]. by rewrite andb_false_r. }
    by rewrite Hl, Hev. }
  assert (Hpl : process_line_in parser_map self filters inside line =
                  Next inside [Yield left]).
  { unfold process_line_in. destruct Hgate as [->|[-> ->]]; [done|].
    by destruct (filter_markers self). }
  split; [done|]. intros rest. cbn [parse_loop_in]. by rewrite Hpl.
Qed.

(** X9 (a line of the event pattern).  A line that is not taken by the marker
    filtering, is no dropped-events notice, header or empty-CPU line, and
    that the event pattern matches, with a name that passes the filters:
    when [numeric] reads the timestamp the line yields one event, which is
    the event with the five captured texts as its slots, the CPU id as the
    integer of its digits, after the parser of the name, [sched_switch_parser]
    for [sched_switch] and the default one otherwise, has set its fields;
    when [numeric] raises, its exception ends the stream. *)
Theorem X9_event_line (self : TraceCmdTrace) (filters : list Re.re) (inside : bool)
    (line : string) (mt : Re.caps) (th cpu ts nm bd : string) :
  filter_markers self = false \/
    (inside = true /\ Py.contains TRACE_MARKER_STOP line = false) ->
  Re.search DROPPED_EVENTS_REGEX line = None ->
  matches HEADER_REGEX line = false ->
  matches EMPTY_CPU_REGEX line = false ->
  Re.search TRACE_EVENT_REGEX line = Some mt ->
  Re.group "thread" mt = Some th -> Re.group "cpu_id" mt = Some cpu ->
  Re.group "ts" mt = Some ts -> Re.group "name" mt = Some nm ->
  Re.group "body" mt = Some bd ->
  filters = [] \/ existsb (fun f => matches f nm) filters = true ->
  process_line self filters inside line =
    match numeric ts with
    | Ok t =>
        Next inside
          [Yield (parser_of nm (fresh_event th (Py.digits_value 0 cpu) t nm bd) bd).1]
    | Raise e => Abort e
    end.
Proof.
  intros Hgate Hd Hh He Ht G1 G2 G3 G4 G5 Hf.
  destruct (trace_event_groups _ _ Ht) as (th' & cpu' & ts' & nm' & bd' & -> & _).
  injection G1 as ->. injection G2 as ->. injection G3 as ->. injection G4 as ->.
  injection G5 as ->.
  assert (Hc : classify filters inside line =
                 match numeric ts with
                 | Ok t =>
                     Next inside
                       [Yield (parser_of nm
                                 (fresh_event th (Py.digits_value 0 cpu) t nm bd) bd).1]
                 | Raise e => Abort e
                 end).
  { rewrite (classify_event_line filters inside line th cpu ts nm bd) by done.
    destruct Hf as [-> | ->]; [done|]. by rewrite andb_false_r. }
  unfold process_line, process_line_in; fold classify. destruct Hgate as [->|[-> ->]]; [done|].
  by destruct (filter_markers self).
Qed.

(** ** The default body parser on a body of pairs *)

Lemma is_token_nonspace s :
  is_token s = true -> Py.all_chars (fun b => negb (Py.isspace b)) s = true.
Proof.
  unfold is_token. induction s as [|c s IH]; [done|]. simpl.
  intros [[-> _]%andb_true_iff Hs]%andb_true_iff. by apply IH.
Qed.

Lemma is_token_count_eq s : is_token s = true -> Py.count "=" s = 0.
Proof.
  unfold is_token. induction s as [|c s IH]; [done|]. simpl.
  intros [[_ Hc]%andb_true_iff Hs]%andb_true_iff.
  apply negb_true_iff in Hc. by rewrite Hc, (IH Hs).
Qed.

Lemma nonspace_count_space s :
  Py.all_chars (fun b => negb (Py.isspace b)) s = true -> Py.count " " s = 0.
Proof.
  induction s as [|c s IH]; [done|]. simpl. intros [Hc Hs]%andb_true_iff.
  rewrite (IH Hs). destruct (Ascii.eqb_spec c " ") as [->|]; done.
Qed.

Lemma spaces_count c s :
  Py.isspace c = false -> Py.all_chars Py.isspace s = true -> Py.count c s = 0.
Proof.
  intros Hc. induction s as [|x s IH]; [done|]. simpl. intros [Hx Hs]%andb_true_iff.
  rewrite (IH Hs). destruct (Ascii.eqb_spec x c) as [->|]; [congruence|done].
Qed.

Lemma lstrip_spaces ws s :
  Py.all_chars Py.isspace ws = true -> Py.lstrip (ws +:+ s) = Py.lstrip s.
Proof.
  induction ws as [|c ws IH]; [done|]. rewrite append_cons. simpl.
  intros [-> Hs]%andb_true_iff. by apply IH.
Qed.

Lemma lstrip_nonspace s :
  Py.all_chars (fun b => negb (Py.isspace b)) s = true -> Py.lstrip s = s.
Proof.
  destruct s as [|c s]; [done|]. simpl. intros [Hc _]%andb_true_iff.
  apply negb_true_iff in Hc. by rewrite Hc.
Qed.

Lemma rstrip_spaces ws : Py.all_chars Py.isspace ws = true -> Py.rstrip ws = "".
Proof.
  induction ws as [|c ws IH]; [done|]. simpl. intros [-> Hs]%andb_true_iff.
  by rewrite (IH Hs).
Qed.

Lemma rstrip_append_spaces a ws :
  Py.all_chars Py.isspace ws = true -> Py.rstrip (a +:+ ws) = Py.rstrip a.
Proof.
  intros Hws. induction a as [|c a IH]; [by apply rstrip_spaces|].
  rewrite append_cons. simpl. by rewrite IH.
Qed.

Lemma strip_token_spaces v ws :
  Py.all_chars (fun b => negb (Py.isspace b)) v = true ->
  Py.all_chars Py.isspace ws = true -> Py.strip (v +:+ ws) = v.
Proof.
  intros Hv Hws. unfold Py.strip. destruct v as [|c v].
  - change ("" +:+ ws) with ws. rewrite <-(append_nil_r ws).
    by rewrite lstrip_spaces.
  - rewrite append_cons, lstrip_first, <-append_cons.
    + rewrite rstrip_append_spaces by done. by apply rstrip_nonspace.
    + simpl in Hv. apply andb_true_iff in Hv as [Hc _]. by apply negb_true_iff in Hc.
Qed.

Lemma strip_spaces_token ws k :
  Py.all_chars Py.isspace ws = true ->
  Py.all_chars (fun b => negb (Py.isspace b)) k = true -> Py.strip (ws +:+ k) = k.
Proof.
  intros Hws Hk. unfold Py.strip.
  by rewrite lstrip_spaces, lstrip_nonspace, rstrip_nonspace.
Qed.

Lemma split_no_sep c a : Py.count c a = 0 -> Py.split c a = [a].
Proof.
  induction a as [|x a IH]; [done|]. simpl.
  destruct (Ascii.eqb x c); [done|]. intros H. by rewrite (IH H).
Qed.

Lemma split_at c a s :
  Py.count c a = 0 -> Py.split c (a +:+ String c s) = a :: Py.split c s.
Proof.
  induction a as [|x a IH].
  - intros _. simpl. by rewrite Ascii.eqb_refl.
  - rewrite append_cons. simpl. destruct (Ascii.eqb x c); [done|].
    intros H. by rewrite (IH H).
Qed.

Lemma rcut_append sep a b :
  Py.count sep b = 0 -> Py.rcut sep (a +:+ String sep b) = Some (a, b).
Proof.
  intros Hb. induction a as [|x a IH].
  - simpl. apply rcut_None in Hb as ->. by rewrite Ascii.eqb_refl.
  - rewrite append_cons. simpl. by rewrite IH.
Qed.

(** The pieces of a text that is already stripped. *)
Local Abbreviation pieces s :=
  (map Py.strip (concat (map (Py.rsplit1 " ") (Py.split "=" s)))).

Lemma pieces_value v : is_token v = true -> pieces v = [v].
Proof.
  intros Hv. rewrite split_no_sep by (by apply is_token_count_eq).
  apply is_token_nonspace in Hv. simpl. unfold Py.rsplit1.
  assert (Py.rcut " " v = None) as -> by (by apply rcut_None, nonspace_count_space).
  simpl. rewrite <-(append_nil_r v) at 1. by rewrite strip_token_spaces.
Qed.

Lemma pieces_key k rest :
  is_token k = true -> pieces (k +:+ "=" +:+ rest) = k :: pieces rest.
Proof.
  intros Hk. change (k +:+ "=" +:+ rest) with (k +:+ String "=" rest).
  rewrite split_at by (by apply is_token_count_eq).
  apply is_token_nonspace in Hk. cbn [map concat]. unfold Py.rsplit1 at 1.
  assert (Py.rcut " " k = None) as -> by (by apply rcut_None, nonspace_count_space).
  cbn [app map]. rewrite <-(append_nil_r k) at 1. by rewrite strip_token_spaces.
Qed.

Lemma is_sep_cut sep :
  is_sep sep = true ->
  exists s1 s2, sep = s1 +:+ String " " s2 /\ Py.all_chars Py.isspace s1 = true /\
    Py.all_chars Py.isspace s2 = true /\ Py.count " " s2 = 0.
Proof.
  unfold is_sep. intros [Hws Hc]%andb_true_iff.
  destruct (Py.rcut " " sep) as [[s1 s2]|] eqn:Hr.
  - apply rcut_Some in Hr as [-> H2]. exists s1, s2.
    rewrite all_chars_append in Hws. apply andb_true_iff in Hws as [H1 H3].
    simpl in H3. by split_and!.
  - apply rcut_None in Hr. by rewrite Hr in Hc.
Qed.

Lemma pieces_value_key v sep k rest :
  is_token v = true -> is_sep sep = true -> is_token k = true ->
  pieces (v +:+ sep +:+ k +:+ "=" +:+ rest) = v :: k :: pieces rest.
Proof.
  intros Hv Hsep Hk.
  destruct (is_sep_cut sep Hsep) as (s1 & s2 & -> & H1 & H2 & H3).
  assert (Hws : Py.all_chars Py.isspace (s1 +:+ String " " s2) = true).
  { by apply andb_true_iff in Hsep as [? _]. }
  assert (E : v +:+ (s1 +:+ String " " s2) +:+ k +:+ "=" +:+ rest =
              (v +:+ (s1 +:+ String " " s2) +:+ k) +:+ String "=" rest).
  { by rewrite !append_assoc. }
  rewrite E, split_at.
  2:{ rewrite !count_append, (is_token_count_eq v), (is_token_count_eq k) by done.
      rewrite (spaces_count "=" s1 eq_refl H1). simpl.
      by rewrite (spaces_count "=" s2 eq_refl H2). }
  apply is_token_nonspace in Hv, Hk. cbn [map concat]. unfold Py.rsplit1 at 1.
  assert (E2 : v +:+ (s1 +:+ String " " s2) +:+ k = (v +:+ s1) +:+ String " " (s2 +:+ k)).
  { by rewrite !append_assoc, append_cons. }
  rewrite E2, rcut_append.
  2:{ by rewrite count_append, H3, (nonspace_count_space k). }
  cbn [app map]. by rewrite strip_token_spaces, strip_spaces_token.
Qed.

Lemma format_pairs_cons sep k v rest :
  format_pairs sep ((k, v) :: rest) =
    k +:+ "=" +:+ v +:+
    match rest with [] => "" | _ :: _ => sep +:+ format_pairs sep rest end.
Proof. done. Qed.

(** The pieces of the text of a list of pairs are its keys and values, the
    last value running into the text that follows. *)
Lemma pieces_format_pairs_then sep pairs rest parts :
  is_sep sep = true ->
  Forall (fun kv => is_token kv.1 = true /\ is_token kv.2 = true) pairs ->
  pairs <> [] ->
  (forall v, is_token v = true -> pieces (v +:+ rest) = v :: parts) ->
  pieces (format_pairs sep pairs +:+ rest) = flatten_pairs pairs ++ parts.
Proof.
  intros Hsep Hall Hne Hrest.
  destruct pairs as [|[k v] more]; [done|]. clear Hne.
  apply Forall_cons in Hall as [[Hk Hv] Hmore]. simpl in Hk, Hv.
  rewrite format_pairs_cons, !append_assoc, pieces_key by done.
  unfold flatten_pairs. cbn [map concat app fst snd]. f_equal.
  revert v Hv. induction Hmore as [|[k' v'] more [Hk' Hv'] _ IH]; intros v Hv.
  - by apply Hrest.
  - simpl in Hk', Hv'. rewrite format_pairs_cons, !append_assoc.
    rewrite pieces_value_key by done. cbn [map concat app fst snd].
    f_equal. f_equal. by apply IH.
Qed.

Lemma pieces_format_pairs sep pairs :
  is_sep sep = true ->
  Forall (fun kv => is_token kv.1 = true /\ is_token kv.2 = true) pairs ->
  pairs <> [] ->
  pieces (format_pairs sep pairs) = flatten_pairs pairs.
Proof.
  intros Hsep Hall Hne.
  rewrite <-(append_nil_r (format_pairs sep pairs)), <-(app_nil_r (flatten_pairs pairs)).
  apply pieces_format_pairs_then; [done..|].
  intros v Hv. rewrite append_nil_r. by apply pieces_value.
Qed.

Lemma zip_pairs_flatten pairs : zip_pairs (flatten_pairs pairs) = pairs.
Proof.
  unfold flatten_pairs. induction pairs as [|[k v] pairs IH]; [done|].
  simpl. by rewrite IH.
Qed.

Lemma even_flatten pairs : Nat.even (length (flatten_pairs pairs)) = true.
Proof. unfold flatten_pairs. induction pairs as [|[k v] pairs IH]; done. Qed.

(** The text of a list of pairs has no whitespace around it. *)
Lemma rstrip_format_pairs sep pairs :
  Forall (fun kv => is_token kv.1 = true /\ is_token kv.2 = true) pairs ->
  Py.rstrip (format_pairs sep pairs) = format_pairs sep pairs /\
  (pairs <> [] -> format_pairs sep pairs <> "").
Proof.
  intros Hall. induction Hall as [|[k v] rest [Hk Hv] _ IH]; [done|].
  simpl in Hk, Hv. apply is_token_nonspace in Hv. rewrite format_pairs_cons.
  assert (Hkv : Py.rstrip ("=" +:+ v) = "=" +:+ v).
  { change ("=" +:+ v) with (String "=" v). simpl.
    by rewrite (rstrip_nonspace v Hv), andb_false_r. }
  split; [|by destruct k].
  destruct rest as [|kv' rest'].
  - rewrite append_nil_r, rstrip_append; by rewrite Hkv.
  - destruct IH as [IH1 IH2]. specialize (IH2 ltac:(done)).
    assert (E : k +:+ "=" +:+ v +:+ sep +:+ format_pairs sep (kv' :: rest') =
                (k +:+ "=" +:+ v +:+ sep) +:+ format_pairs sep (kv' :: rest')).
    { by rewrite !append_assoc. }
    rewrite E, rstrip_append; by rewrite IH1.
Qed.

Lemma lstrip_format_pairs sep pairs rest :
  Forall (fun kv => is_token kv.1 = true /\ is_token kv.2 = true) pairs ->
  pairs <> [] ->
  Py.lstrip (format_pairs sep pairs +:+ rest) = format_pairs sep pairs +:+ rest.
Proof.
  intros Hall Hne. destruct Hall as [|[k v] more [Hk Hv] _]; [done|].
  simpl in Hk. apply is_token_nonspace in Hk.
  rewrite format_pairs_cons. destruct k as [|c k]; [done|].
  rewrite !append_cons. apply lstrip_first. simpl in Hk.
  apply andb_true_iff in Hk as [Hc _]. by apply negb_true_iff in Hc.
Qed.

Lemma strip_format_pairs sep pairs :
  Forall (fun kv => is_token kv.1 = true /\ is_token kv.2 = true) pairs ->
  Py.strip (format_pairs sep pairs) = format_pairs sep pairs.
Proof.
  intros Hall. destruct pairs as [|kv rest]; [done|]. unfold Py.strip.
  rewrite <-(append_nil_r (format_pairs sep (kv :: rest))) at 1.
  rewrite lstrip_format_pairs, append_nil_r by done.
  by apply rstrip_format_pairs.
Qed.

Lemma body_parts_format_pairs sep pairs :
  is_sep sep = true ->
  Forall (fun kv => is_token kv.1 = true /\ is_token kv.2 = true) pairs ->
  body_parts (format_pairs sep pairs) =
    match pairs with [] => [""] | _ :: _ => flatten_pairs pairs end.
Proof.
  intros Hsep Hall. unfold body_parts. rewrite (strip_format_pairs sep pairs Hall).
  destruct pairs as [|kv rest]; [done|]. by apply pieces_format_pairs.
Qed.

Lemma default_body_parser_format_pairs event sep pairs :
  is_sep sep = true ->
  Forall (fun kv => is_token kv.1 = true /\ is_token kv.2 = true) pairs ->
  default_body_parser event (format_pairs sep pairs) = (store_pairs pairs event, None).
Proof.
  intros Hsep Hall. unfold default_body_parser.
  rewrite body_parts_format_pairs by done. destruct pairs as [|kv rest]; [done|].
  by rewrite even_flatten, zip_pairs_flatten.
Qed.

(** X10 (a body of pairs is read back).  A body made of [key=value] pairs,
    the keys and values without whitespace and without [=], with whitespace
    that holds a space character between two pairs, is read back by the
    default parser: it sets, in order, every key to its value, as an integer
    when [int] reads the value and as the text otherwise, so that each key
    ends with the value of its last pair, and it does not raise. *)
Theorem X10_default_body_parser_pairs (event : event_obj) (sep : string)
    (pairs : list (string * string)) :
  is_sep sep = true ->
  Forall (fun kv => is_token kv.1 = true /\ is_token kv.2 = true) pairs ->
  body_parts (format_pairs sep pairs) =
    match pairs with [] => [""] | _ :: _ => flatten_pairs pairs end /\
  default_body_parser event (format_pairs sep pairs) = (store_pairs pairs event, None) /\
  (forall k, fields (default_body_parser event (format_pairs sep pairs)).1 !! k =
     match last_value k pairs with
     | Some v => Some (int_or_str v)
     | None => fields event !! k
     end).
Proof.
  intros Hsep Hall.
  split_and!; [by apply body_parts_format_pairs|by apply default_body_parser_format_pairs|].
  intros k. rewrite default_body_parser_format_pairs by done. apply store_pairs_lookup.
Qed.

Lemma count_lstrip c s : Py.count c (Py.lstrip s) <= Py.count c s.
Proof.
  induction s as [|x s IH]; [done|]. simpl. destruct (Py.isspace x); simpl; lia.
Qed.

Lemma count_rstrip c s : Py.count c (Py.rstrip s) <= Py.count c s.
Proof.
  induction s as [|x s IH]; [done|]. simpl.
  destruct (Py.is_empty (Py.rstrip s) && Py.isspace x); simpl; lia.
Qed.

(** X11 (a body without [=]).  On a body that holds no [=] the default parser
    does not raise; when the stripped text holds no space character it sets
    nothing, and otherwise it sets exactly one field: the text before the
    last space, stripped, is made a key, with the text after it as its
    value. *)
Theorem X11_default_body_parser_free_text (event : event_obj) (text : string) :
  Py.count "=" text = 0 ->
  (Py.count " " (Py.strip text) = 0 ->
     default_body_parser event text = (event, None)) /\
  (forall a b,
     Py.strip text = a +:+ " " +:+ b -> Py.count " " b = 0 ->
     default_body_parser event text =
       (set_field (Py.strip a) (int_or_str (Py.strip b)) event, None)).
Proof.
  intros He.
  assert (Hs : Py.split "=" (Py.strip text) = [Py.strip text]).
  { apply split_no_sep. unfold Py.strip.
    pose proof (count_rstrip "=" (Py.lstrip text)).
    pose proof (count_lstrip "=" text). lia. }
  unfold default_body_parser, body_parts. rewrite Hs. cbn [map concat]. split.
  - intros Hc. unfold Py.rsplit1.
    by assert (Py.rcut " " (Py.strip text) = None) as -> by (by apply rcut_None).
  - intros a b Hab Hb. unfold Py.rsplit1. rewrite Hab.
    change (a +:+ " " +:+ b) with (a +:+ String " " b). by rewrite rcut_append.
Qed.

(** ** The parser made of a pattern *)

Lemma groupdict_lookup r c k :
  Re.groupdict r c !! k =
    if decide (k ∈ Re.names r) then Some (Re.group k c) else None.
Proof.
  unfold Re.groupdict. induction (Re.names r) as [|n l IH].
  - by rewrite decide_False by apply not_elem_of_nil.
  - cbn [map list_to_map foldr fst snd uncurry].
    destruct (decide (n = k)) as [->|Hne].
    + rewrite lookup_insert_eq. by rewrite decide_True by left.
    + rewrite lookup_insert_ne, IH by done.
      destruct (decide (k ∈ l)) as [Hin|Hin].
      * by rewrite decide_True by (by right).
      * rewrite decide_False; [done|]. by intros [->|?]%elem_of_cons.
Qed.

(** X12 (the parser made of a pattern).  [regex_body_parser] compiles a pattern
    source with the flags given, and the exception of [re.compile] is its
    own; a compiled pattern is taken as it is and the flags are ignored.  On
    a source of the fragment without flags the pattern is the one
    [Re.compile] gives.  The parser made of the pattern [r] searches the
    body: without a match it leaves the event as it was; with a match in
    which every named group of the pattern took part it does not raise and
    makes each named group a field, the integer of the captured text when
    [int] reads it and the text otherwise, leaving the other fields and the
    header alone, in whatever order the dictionary of the groups is
    iterated. *)
Theorem X12_regex_body_parser (regex : regex_arg) (flags : Z) (event : event_obj)
    (text : string) :
  (forall pattern e,
     regex = Source pattern -> re_compile pattern flags = Raise e ->
     regex_body_parser regex flags = Raise e) /\
  (forall pattern r,
     Re.compile pattern = Some r ->
     regex_body_parser (Source pattern) 0 = Ok (regex_parser_func r)) /\
  (forall r,
     match regex with
     | Source pattern => re_compile pattern flags = Ok r
     | Compiled r' => r' = r
     end ->
     regex_body_parser regex flags = Ok (regex_parser_func r) /\
     (Re.search r text = None -> regex_parser_func r event text = (event, None)) /\
     (forall mt,
        Re.search r text = Some mt ->
        (forall k, k ∈ Re.names r -> is_Some (Re.group k mt)) ->
        let out := regex_parser_func r event text in
        out.2 = None /\
        header out.1 = header event /\
        (forall k v, k ∈ Re.names r -> Re.group k mt = Some v ->
           fields out.1 !! k = Some (int_or_str v)) /\
        (forall k, k ∉ Re.names r -> fields out.1 !! k = fields event !! k))).
Proof using iteritems_perm.
  split_and!.
  - intros pattern e -> He. simpl. by rewrite He.
  - intros pattern r Hc. simpl. by rewrite (re_compile_fragment _ _ Hc).
  - intros r Hr. split_and!.
    + destruct regex as [pattern|r']; simpl; by rewrite Hr.
    + apply regex_parser_func_no_match.
    + intros mt Hs Hall. cbn zeta.
      destruct (regex_parser_func_match r event text mt Hs) as (after & -> & Hh & Hl).
      { intros k v. rewrite groupdict_lookup.
        destruct (decide (k ∈ Re.names r)) as [Hin|]; [|done].
        intros [= <-]. by apply Hall. }
      split_and!; [done|done| |].
      * intros k v Hin Hg. simpl. rewrite Hl, groupdict_lookup, decide_True by done.
        by rewrite Hg.
      * intros k Hin. simpl. by rewrite Hl, groupdict_lookup, decide_False.
Qed.

(** ** The [sched_switch] parser outside its two formats *)

Lemma startswith_arrow_count s : Py.startswith "==>" s = true -> 2 <= Py.count "=" s.
Proof.
  destruct s as [|a [|b s]]; [done|by cbn [Py.startswith]; rewrite andb_false_r|].
  cbn [Py.startswith].
  intros [<-%Ascii.eqb_eq [<-%Ascii.eqb_eq _]%andb_true_iff]%andb_true_iff.
  simpl. lia.
Qed.

Lemma replace_arrow_none s : Py.count "=" s < 2 -> Py.replace "==>" "" s = s.
Proof.
  unfold Py.replace. induction s as [|c s IH]; [done|]. intros Hc.
  cbn [Py.replace_from].
  destruct (Py.startswith "==>" (String c s)) eqn:Hs.
  - apply startswith_arrow_count in Hs. lia.
  - rewrite IH; [done|]. simpl in Hc. lia.
Qed.

(** A text the legacy pattern matches holds the arrow with a space on
    each side. *)
Lemma sched_switch_arrow text mt :
  Re.search SCHED_SWITCH_REGEX text = Some mt -> Py.contains " ==> " text = true.
Proof.
  intros H. apply search_sound in H as (pre & p & rest & -> & H).
  unfold SCHED_SWITCH_REGEX in H. repeat den_step.
  apply contains_spec.
  match goal with
  | |- exists _ _, ?pre +:+ (?a +:+ ":" +:+ ?b +:+ " " +:+ "[" +:+ ?c +:+ "]" +:+ " " +:+
         ?d +:+ " " +:+ "=" +:+ "=" +:+ ">" +:+ " " +:+ ?e) +:+ ?rest = _ =>
      exists (pre +:+ a +:+ ":" +:+ b +:+ " " +:+ "[" +:+ c +:+ "]" +:+ " " +:+ d),
        (e +:+ rest)
  end.
  rewrite !append_assoc. reflexivity.
Qed.

(** The parser made of the legacy pattern never raises: each of its groups
    takes part in every match. *)
Lemma sched_switch_regex_silent event text :
  (regex_parser_func SCHED_SWITCH_REGEX event text).2 = None.
Proof using iteritems_perm.
  destruct (Re.search SCHED_SWITCH_REGEX text) as [mt|] eqn:Hs;
    [|by rewrite regex_parser_func_no_match].
  destruct (sched_switch_match _ _ Hs) as (c1 & c2 & c3 & c4 & c5 & c6 & c7 & -> & _).
  destruct (regex_parser_func_match SCHED_SWITCH_REGEX event text _ Hs)
    as (after & -> & _); [|done].
  rewrite sched_switch_groupdict. intros k v Hk.
  apply elem_of_list_to_map_2 in Hk.
  repeat (apply elem_of_cons in Hk as [[= -> ->]|Hk]; [by eexists|]).
  by apply elem_of_nil in Hk.
Qed.

(** X13 (the [sched_switch] parser on other texts).  [sched_switch_parser] never
    raises and writes to the fields only.  A text with fewer than two [=]
    goes to the default parser as it is, as the [else] of the test takes
    every count but two; a text with exactly two [=] and no arrow between
    two spaces is not of the legacy format, and the parser sets nothing. *)
Theorem X13_sched_switch_parser_other_texts (event : event_obj) (text : string) :
  (sched_switch_parser event text).2 = None /\
  header (sched_switch_parser event text).1 = header event /\
  (Py.count "=" text < 2 ->
     sched_switch_parser event text = default_body_parser event text) /\
  (Py.count "=" text = 2 -> Py.contains " ==> " text = false ->
     sched_switch_parser event text = (event, None)).
Proof using iteritems_perm.
  split_and!.
  - destruct (Nat.eqb_spec (Py.count "=" text) 2) as [E|E].
    + rewrite sched_switch_uses_regex by done. apply sched_switch_regex_silent.
    + unfold sched_switch_parser. apply Nat.eqb_neq in E. rewrite E.
      unfold default_body_parser. by destruct (Nat.even _).
  - apply sched_switch_parser_keeps_header.
  - intros Hc. unfold sched_switch_parser.
    destruct (Nat.eqb_spec (Py.count "=" text) 2); [lia|].
    by rewrite replace_arrow_none.
  - intros Hc Ha. rewrite sched_switch_uses_regex by done.
    apply regex_parser_func_no_match.
    destruct (Re.search SCHED_SWITCH_REGEX text) as [mt|] eqn:Hs; [|done].
    apply sched_switch_arrow in Hs. congruence.
Qed.

(** ** The [sched_switch] parser on the format of pairs *)

Lemma replace_no_eq a rest :
  Py.count "=" a = 0 ->
  Py.replace_from "==>" "" 0 (a +:+ rest) = a +:+ Py.replace_from "==>" "" 0 rest.
Proof.
  induction a as [|c a IH]; [done|]. rewrite !append_cons. intros Hc.
  cbn [Py.replace_from Py.startswith].
  simpl in Hc. destruct (Ascii.eqb_spec c "=") as [->|Hne]; [lia|].
  assert (Ascii.eqb "=" c = false) as -> by (by apply Ascii.eqb_neq).
  cbn [andb]. by rewrite IH.
Qed.

Lemma replace_one_eq rest :
  no_eq_first rest ->
  Py.replace_from "==>" "" 0 (String "=" rest) =
    String "=" (Py.replace_from "==>" "" 0 rest).
Proof.
  intros Hr. cbn [Py.replace_from Py.startswith].
  destruct rest as [|d rest]; [by rewrite andb_false_r|].
  simpl in Hr. apply Ascii.eqb_neq in Hr. rewrite Ascii.eqb_sym in Hr.
  by rewrite Hr, andb_false_r.
Qed.

Lemma no_eq_first_append a rest :
  Py.count "=" a = 0 -> no_eq_first rest -> no_eq_first (a +:+ rest).
Proof.
  destruct a as [|c a]; [done|]. simpl. intros Hc _.
  destruct (Ascii.eqb_spec c "="); [lia|done].
Qed.

Lemma is_sep_count_eq sep : is_sep sep = true -> Py.count "=" sep = 0.
Proof. intros [H _]%andb_true_iff. by apply spaces_count. Qed.

Lemma is_sep_no_eq_first sep rest : is_sep sep = true -> no_eq_first (sep +:+ rest).
Proof.
  intros Hsep. destruct (is_sep_cut sep Hsep) as (s1 & s2 & -> & H1 & _).
  destruct s1 as [|c s1]; [done|]. simpl in H1 |- *.
  apply andb_true_iff in H1 as [Hc _]. by intros ->.
Qed.

(** The arrow is not made by the text of a list of pairs. *)
Lemma replace_format_pairs sep pairs rest :
  is_sep sep = true ->
  Forall (fun kv => is_token kv.1 = true /\ is_token kv.2 = true) pairs ->
  no_eq_first rest ->
  Py.replace_from "==>" "" 0 (format_pairs sep pairs +:+ rest) =
    format_pairs sep pairs +:+ Py.replace_from "==>" "" 0 rest.
Proof.
  intros Hsep Hall Hrest. induction Hall as [|[k v] more [Hk Hv] _ IH]; [done|].
  simpl in Hk, Hv. apply is_token_count_eq in Hk, Hv.
  rewrite format_pairs_cons, !append_assoc, replace_no_eq by done.
  f_equal. change ("=" +:+ v +:+ ?x) with (String "=" (v +:+ x)).
  destruct more as [|kv' more'].
  - cbn [String.append]. rewrite replace_one_eq by (by apply no_eq_first_append).
    by rewrite replace_no_eq.
  - rewrite !append_assoc.
    rewrite replace_one_eq
      by (apply no_eq_first_append; [done|by apply is_sep_no_eq_first]).
    rewrite replace_no_eq by done. rewrite replace_no_eq by (by apply is_sep_count_eq).
    by rewrite IH.
Qed.

Lemma count_format_pairs sep pairs :
  is_sep sep = true ->
  Forall (fun kv => is_token kv.1 = true /\ is_token kv.2 = true) pairs ->
  Py.count "=" (format_pairs sep pairs) = length pairs.
Proof.
  intros Hsep Hall. apply is_sep_count_eq in Hsep.
  induction Hall as [|[k v] more [Hk Hv] _ IH]; [done|].
  simpl in Hk, Hv. apply is_token_count_eq in Hk, Hv.
  rewrite format_pairs_cons, !count_append, Hk, Hv. cbn [length].
  destruct more as [|kv' more']; [done|].
  rewrite count_append, Hsep, IH. simpl. lia.
Qed.

Lemma flatten_pairs_app l1 l2 :
  flatten_pairs (l1 ++ l2) = flatten_pairs l1 ++ flatten_pairs l2.
Proof. unfold flatten_pairs. by rewrite map_app, concat_app. Qed.

(** X14 (the [sched_switch] format of pairs).  A [sched_switch] body of the
    format of pairs, the pairs of the previous task, the arrow and the pairs
    of the next task, with one space between them and keys and values
    without whitespace or [=], is read back: the arrow is taken out and
    the parser sets every key of the two sides to its value, as the default
    parser does, without raising. *)
Theorem X14_sched_switch_pairs (event : event_obj) (prev next : list (string * string)) :
  Forall (fun kv => is_token kv.1 = true /\ is_token kv.2 = true) prev ->
  Forall (fun kv => is_token kv.1 = true /\ is_token kv.2 = true) next ->
  prev <> [] -> next <> [] ->
  let text := format_pairs " " prev +:+ " ==> " +:+ format_pairs " " next in
  Py.replace "==>" "" text = format_pairs " " prev +:+ "  " +:+ format_pairs " " next /\
  sched_switch_parser event text = (store_pairs (prev ++ next) event, None) /\
  (forall k, fields (sched_switch_parser event text).1 !! k =
     match last_value k (prev ++ next) with
     | Some v => Some (int_or_str v)
     | None => fields event !! k
     end).
Proof.
  intros Hprev Hnext Hpn Hnn. cbn zeta.
  assert (Hrep : Py.replace "==>" ""
                   (format_pairs " " prev +:+ " ==> " +:+ format_pairs " " next) =
                 format_pairs " " prev +:+ "  " +:+ format_pairs " " next).
  { unfold Py.replace. rewrite replace_format_pairs; [|done|done|by simpl].
    f_equal.
    change (String " " (String " " (Py.replace_from "==>" "" 0 (format_pairs " " next))) =
            String " " (String " " (format_pairs " " next))).
    do 2 f_equal. rewrite <-(append_nil_r (format_pairs " " next)) at 1.
    rewrite replace_format_pairs; [|done|done|by simpl].
    by rewrite append_nil_r. }
  assert (Hparts : body_parts (format_pairs " " prev +:+ "  " +:+ format_pairs " " next) =
                     flatten_pairs (prev ++ next)).
  { unfold body_parts, Py.strip. rewrite lstrip_format_pairs by done.
    destruct (rstrip_format_pairs " " next Hnext) as [Hr Hne].
    assert (E : format_pairs " " prev +:+ "  " +:+ format_pairs " " next =
                (format_pairs " " prev +:+ "  ") +:+ format_pairs " " next)
      by (by rewrite !append_assoc).
    rewrite E, rstrip_append, Hr, <-E by (rewrite Hr; by apply Hne).
    rewrite flatten_pairs_app.
    apply pieces_format_pairs_then; [done..|].
    intros v Hv.
    destruct next as [|[k' v'] more]; [done|].
    pose proof (pieces_format_pairs " " ((k', v') :: more) eq_refl Hnext Hnn) as Hp.
    apply Forall_cons in Hnext as [[Hk' _] _]. simpl in Hk'.
    rewrite format_pairs_cons in Hp |- *.
    rewrite pieces_key in Hp by done. rewrite <-Hp.
    by rewrite (pieces_value_key v "  " k'). }
  assert (Hp : sched_switch_parser event
                 (format_pairs " " prev +:+ " ==> " +:+ format_pairs " " next) =
               (store_pairs (prev ++ next) event, None)).
  { unfold sched_switch_parser.
    assert (Hc : (Py.count "=" (format_pairs " " prev +:+ " ==> " +:+ format_pairs " " next)
                  =? 2) = false).
    { apply Nat.eqb_neq. rewrite !count_append, !count_format_pairs by done.
      destruct prev; [done|]. simpl. lia. }
    rewrite Hc, Hrep. unfold default_body_parser.
    by rewrite Hparts, even_flatten, zip_pairs_flatten. }
  split_and!; [done|done|]. intros k. rewrite Hp. apply store_pairs_lookup.
Qed.

(** ** Filters made of plain names *)

Lemma parse_atom_word f c s :
  Re.isword c = true -> Re.parse_atom (S f) (String c s) = Some (Re.Chr c, s).
Proof.
  intros H. destruct c as [[] [] [] [] [] [] [] []];
    first [reflexivity | by vm_compute in H].
Qed.

Lemma parse_quant_word a c s :
  Re.isword c = true -> Re.parse_quant a (String c s) = Some (a, String c s).
Proof.
  intros H. destruct c as [[] [] [] [] [] [] [] []];
    first [reflexivity | by vm_compute in H].
Qed.

Lemma parse_seq_word f c s :
  Re.isword c = true ->
  Re.parse_seq (S f) (String c s) =
    match Re.parse_atom f (String c s) with
    | Some (a, s1) =>
        match Re.parse_quant a s1 with
        | Some (q, s2) =>
            match Re.parse_seq f s2 with
            | Some (r, s3) => Some (Re.cat q r, s3)
            | None => None
            end
        | None => None
        end
    | None => None
    end.
Proof.
  intros H. destruct c as [[] [] [] [] [] [] [] []];
    first [reflexivity | by vm_compute in H].
Qed.

Lemma parse_quant_plain a n :
  is_plain_name n = true -> Re.parse_quant a (n +:+ "$") = Some (a, n +:+ "$").
Proof.
  destruct n as [|c n]; [done|]. intros [Hc _]%andb_true_iff.
  rewrite append_cons. by apply parse_quant_word.
Qed.

Lemma cat_literal q n : Re.cat q (literal n Re.Eol) = Re.Cat q (literal n Re.Eol).
Proof. by destruct n. Qed.

Lemma parse_seq_literal n f :
  String.length n + 2 <= f -> is_plain_name n = true ->
  Re.parse_seq f (n +:+ "$") = Some (literal n Re.Eol, "").
Proof.
  revert f. induction n as [|c n IH]; intros f Hf Hn.
  - destruct f as [|[|f]]; [simpl in Hf; lia..|]. reflexivity.
  - destruct f as [|[|f]]; [simpl in Hf; lia..|]. rewrite append_cons.
    apply andb_true_iff in Hn as [Hc Hn]. fold (is_plain_name n) in Hn.
    rewrite parse_seq_word, parse_atom_word, parse_quant_plain by done.
    rewrite IH by (simpl in Hf; first [lia|done]). by rewrite cat_literal.
Qed.

Lemma names_literal n tail : Re.names (literal n tail) = Re.names tail.
Proof. induction n as [|c n IH]; done. Qed.

Lemma groups_literal n tail : Re.groups (literal n tail) = Re.groups tail.
Proof. induction n as [|c n IH]; done. Qed.

(** The pattern [re.compile] makes of [^n$] for a plain name [n]. *)
Lemma compile_plain_name n :
  is_plain_name n = true ->
  Re.compile ("^" +:+ n +:+ "$") = Some (Re.Cat Re.Bol (literal n Re.Eol)).
Proof.
  intros Hn. unfold Re.compile.
  change ("^" +:+ n +:+ "$") with (String "^" (n +:+ "$")).
  cbn [String.length]. rewrite length_append.
  replace (4 * S (String.length n + String.length "$") + 4)
    with (S (S (S (String.length n + 2 + (3 * String.length n + 7)))))
    by (simpl; lia).
  change (Re.parse_alt (S (S (S ?f))) (String "^" ?x))
    with (match (match Re.parse_quant Re.Bol x with
                 | Some (q, s2) =>
                     match Re.parse_seq (S f) s2 with
                     | Some (r, s3) => Some (Re.cat q r, s3)
                     | None => None
                     end
                 | None => None
                 end) with
          | Some (r1, String "|" s') =>
              match Re.parse_alt (S (S f)) s' with
              | Some (r2, s'') => Some (Re.Alt r1 r2, s'')
              | None => None
              end
          | other => other
          end).
  rewrite parse_quant_plain, parse_seq_literal by first [lia|done].
  rewrite cat_literal. cbn [Re.names Re.groups app]. by rewrite names_literal, groups_literal.
Qed.

Lemma m_literal n tail bol rest c k :
  Re.m (literal n tail) bol (n +:+ rest) c k =
    Re.m tail (bol && Py.is_empty n) rest c k.
Proof.
  revert bol. induction n as [|a n IH]; intros bol; [by rewrite andb_true_r|].
  rewrite append_cons. cbn [literal Re.m Re.one]. rewrite Ascii.eqb_refl, IH.
  by rewrite andb_false_r.
Qed.

Lemma den_literal n tail bol p rest c c' :
  Re.den (literal n tail) bol p rest c c' ->
  exists p2, p = n +:+ p2 /\ Re.den tail (bol && Py.is_empty n) p2 rest c c'.
Proof.
  revert bol p c. induction n as [|a n IH]; intros bol p c H.
  - exists p. by rewrite andb_true_r.
  - destruct H as (p1 & p2 & c1 & -> & (-> & ->) & H).
    apply IH in H as (p3 & -> & H). exists p3. split; [done|].
    by rewrite !andb_false_r in *.
Qed.

Lemma search_from_head r bol s :
  Re.search_from r bol s =
    match Re.m r bol s [] (fun _ _ c => Some c) with
    | Some c => Some c
    | None =>
        match s with
        | EmptyString => None
        | String _ s' => Re.search_from r false s'
        end
    end.
Proof. by destruct s. Qed.

(** The filter of a plain name [n] takes the name [n], with a newline after
    it or without, and no other text. *)
Lemma plain_name_filter n nm :
  matches (Re.Cat Re.Bol (literal n Re.Eol)) nm = true <->
  nm = n \/ nm = n +:+ nl.
Proof.
  unfold matches. split.
  - destruct (Re.search _ nm) as [mt|] eqn:Hs; [intros _|done].
    apply search_sound in Hs as (pre & p & rest & -> & H).
    destruct H as (p1 & p2 & c1 & -> & (-> & Hpre & ->) & H).
    apply is_empty_true in Hpre as ->.
    apply den_literal in H as (p3 & -> & (-> & He & _)).
    apply at_end_cases in He as [-> | ->]; [left|right];
      by rewrite !append_nil_r.
  - assert (H : forall rest, Re.at_end rest = true ->
                Re.search (Re.Cat Re.Bol (literal n Re.Eol)) (n +:+ rest) = Some []).
    { intros rest He. unfold Re.search.
      assert (Hm : Re.m (Re.Cat Re.Bol (literal n Re.Eol)) true (n +:+ rest) []
                     (fun _ _ c => Some c) = Some []).
      { cbn [Re.m]. rewrite m_literal. cbn [Re.m]. by rewrite He. }
      rewrite search_from_head. by rewrite Hm. }
    intros [-> | ->].
    + pose proof (H "" eq_refl) as H0. rewrite append_nil_r in H0. by rewrite H0.
    + by rewrite (H nl eq_refl).
Qed.

Lemma count_split c s :
  Py.count c s <> 0 -> exists a b, s = a +:+ String c b.
Proof.
  induction s as [|x s IH]; [done|]. simpl.
  destruct (Ascii.eqb_spec x c) as [->|Hne].
  - intros _. by exists "", s.
  - intros H. destruct (IH H) as (a & b & ->). by exists (String x a), b.
Qed.

Lemma count_newline_end n : Py.count "010" (n +:+ nl) <> 0.
Proof. rewrite count_append. simpl. lia. Qed.

(** The filters made of plain names take exactly the listed names. *)
Lemma make_filters_plain_names (event_names : list string) :
  Forall (fun n => is_plain_name n = true) event_names ->
  exists filters,
    make_filters event_names = Ok filters /\
    length filters = length event_names /\
    forall nm, Py.count "010" nm = 0 ->
      (existsb (fun f => matches f nm) filters = true <-> nm ∈ event_names).
Proof.
  intros Hall.
  induction Hall as [|n l Hn _ (filters & Hf & Hlen & Hiff)].
  - exists []. split_and!; [done|done|]. intros nm _. split; [done|].
    by intros ?%elem_of_nil.
  - exists (Re.Cat Re.Bol (literal n Re.Eol) :: filters). split_and!.
    + cbn [make_filters].
      by rewrite (re_compile_fragment _ _ (compile_plain_name n Hn)), Hf.
    + simpl. by rewrite Hlen.
    + intros nm Hnm. cbn [existsb].
      rewrite orb_true_iff, plain_name_filter, (Hiff nm Hnm), elem_of_cons.
      split; [|intros [->|?]; auto].
      intros [[->| ->]|?]; [by left| |by right].
      by apply count_newline_end in Hnm.
Qed.

(** The name of a line of the event pattern read from a file holds no
    newline. *)
Lemma event_line_name_one_line line th cpu ts nm bd :
  one_line line = true -> event_line line th cpu ts nm bd -> Py.count "010" nm = 0.
Proof.
  intros Hone Hl.
  destruct Hl as (_ & _ & _ & _ & _ & _ & head2 & tail2 & _ & _ & _ & _ & _ & _ & _ & _
                  & _ & _ & Hline & _).
  destruct (Nat.eq_dec (Py.count "010" nm) 0) as [|Hc]; [done|exfalso].
  apply count_split in Hc as (a & b & ->). subst line.
  assert (E : head2 +:+ (a +:+ String "010" b) +:+ String ":" tail2 =
              (head2 +:+ a) +:+ String "010" (b +:+ String ":" tail2)).
  { by rewrite !append_assoc, append_cons. }
  rewrite E in Hone. apply one_line_newline_last in Hone. by destruct b.
Qed.

(** X15 (filters of plain names).  When every entry of [names] is made of
    letters, digits and underscores, the patterns [^n$] all compile, and the
    filters made of them take exactly the listed names: an event name
    without a newline passes the filters when it is one of the entries, and
    only then.  With such a list, not empty, every trace event [parse]
    yields bears one of the listed names, the events of dropped-events
    notices being the only other events of the stream. *)
Theorem X15_plain_name_filters (self : TraceCmdTrace) (content : string) :
  Forall (fun n => is_plain_name n = true) (names self) ->
  exists filters,
    make_filters (names self) = Ok filters /\
    (forall nm, Py.count "010" nm = 0 ->
       (existsb (fun f => matches f nm) filters = true <-> nm ∈ names self)) /\
    (names self <> [] ->
     forall ev, ev ∈ events (emitted (parse self content)) ->
       cls ev = DroppedEventsEvent_class \/
       (cls ev = TraceCmdEvent_class /\
        exists n, n ∈ names self /\ name ev = VStr n)).
Proof.
  intros Hall.
  destruct (make_filters_plain_names (names self) Hall) as (filters & Hf & Hlen & Hiff).
  exists filters. split_and!; [done|done|].
  intros Hne. unfold parse, parse_in; fold parse_loop. rewrite Hf.
  apply (parse_loop_yields _ self filters (Py.readlines content)).
  intros inside line inside' out ev Hl Hp Hin.
  destruct (process_line_yield _ _ _ _ _ _ _ Hp Hin)
    as [?|(th & cpu & ts & nm & bd & Hline & ? & ? & [->|Hm])]; [by left| |].
  - destruct (names self); [done|discriminate].
  - right. split; [done|]. exists nm. split; [|done].
    apply Hiff; [|done].
    apply (event_line_name_one_line line th cpu ts nm bd); [|done].
    by apply (proj1 (Forall_forall _ _) (readlines_one_line content)).
Qed.

(** ** The matcher finds a match when there is one *)

Lemma orelse_is_Some (a b : option Re.caps) :
  is_Some a \/ is_Some b -> is_Some (Re.orelse a b).
Proof. destruct a; simpl; [by eauto|by intros [[? [=]]|?]]. Qed.

(** A matching function is complete for a denotation when it succeeds on
    every text of the denotation after which the continuation succeeds. *)
Lemma star_complete f D g :
  (forall bol p rest c c' k, D bol p rest c c' ->
     is_Some (k (bol && Py.is_empty p) rest c') -> is_Some (f bol (p +:+ rest) c k)) ->
  forall bol p rest c c' k fuel,
    Re.star_den D bol p rest c c' ->
    is_Some (k (bol && Py.is_empty p) rest c') ->
    String.length (p +:+ rest) < fuel ->
    is_Some (Re.star f g fuel bol (p +:+ rest) c k).
Proof.
  intros Hf bol p rest c c' k fuel H. revert k fuel.
  induction H as [bol rest c|bol p1 p2 rest c c1 c2 Hne H1 _ IH]; intros k fuel Hk Hfuel.
  - rewrite andb_true_r in Hk. destruct fuel as [|fuel]; [done|].
    cbn [Re.star String.append]. destruct g; apply orelse_is_Some; auto.
  - destruct fuel as [|fuel]; [lia|]. cbn [Re.star].
    assert (He : Py.is_empty p1 = false) by (by apply is_empty_false).
    rewrite is_empty_append, He, andb_false_l, andb_false_r in Hk.
    assert (Hmore : is_Some
              (f bol ((p1 +:+ p2) +:+ rest) c
                 (fun b' s' c' =>
                    if String.length s' <? String.length ((p1 +:+ p2) +:+ rest)
                    then Re.star f g fuel b' s' c' k else None))).
    { rewrite append_assoc. apply (Hf bol p1 (p2 +:+ rest) c c1); [done|].
      rewrite He, andb_false_r.
      assert ((String.length (p2 +:+ rest) <? String.length (p1 +:+ p2 +:+ rest)) = true)
        as ->.
      { apply Nat.ltb_lt. rewrite (length_append p1). destruct p1; [done|]. simpl. lia. }
      apply IH; [by rewrite andb_false_l|].
      rewrite append_assoc, (length_append p1) in Hfuel.
      destruct p1; [done|]. simpl in Hfuel. lia. }
    destruct g; apply orelse_is_Some; auto.
Qed.

Theorem m_complete r bol p rest c c' k :
  Re.den r bol p rest c c' ->
  is_Some (k (bol && Py.is_empty p) rest c') ->
  is_Some (Re.m r bol (p +:+ rest) c k).
Proof.
  revert bol p rest c c' k.
  induction r as [| a | | neg items | | | r1 IH1 r2 IH2 | r1 IH1 r2 IH2
                 | g r IH | g r IH | g r IH | n r IH];
    intros bol p rest c c' k H Hk; cbn [Re.m]; cbn [Re.den] in H.
  - destruct H as [-> ->]. by rewrite andb_true_r in Hk.
  - destruct H as [-> ->]. rewrite append_cons. cbn [Re.one]. rewrite Ascii.eqb_refl.
    by rewrite andb_false_r in Hk.
  - destruct H as (b & -> & Hb & ->). rewrite append_cons. cbn [Re.one].
    apply Ascii.eqb_neq in Hb. rewrite Hb. by rewrite andb_false_r in Hk.
  - destruct H as (b & -> & Hb & ->). rewrite append_cons. cbn [Re.one]. rewrite Hb.
    by rewrite andb_false_r in Hk.
  - destruct H as (-> & -> & ->). done.
  - destruct H as (-> & He & ->). change ("" +:+ rest) with rest. rewrite He.
    by rewrite andb_true_r in Hk.
  - destruct H as (p1 & p2 & c1 & -> & H1 & H2). rewrite append_assoc.
    apply (IH1 _ _ _ _ c1); [done|]. apply (IH2 _ _ _ _ c'); [done|].
    by rewrite is_empty_append, andb_assoc in Hk.
  - apply orelse_is_Some. destruct H as [H|H]; [left; by eapply IH1|right; by eapply IH2].
  - apply (star_complete (Re.m r) (Re.den r) g IH bol p rest c c'); [done|done|lia].
  - destruct H as (p1 & p2 & c1 & -> & H1 & H2). rewrite append_assoc.
    apply (IH _ _ _ _ c1); [done|].
    apply (star_complete (Re.m r) (Re.den r) g IH _ p2 rest c1 c'); [done| |lia].
    by rewrite is_empty_append, andb_assoc in Hk.
  - destruct H as [H|[-> ->]].
    + destruct g; apply orelse_is_Some; [left|right]; by eapply IH.
    + rewrite andb_true_r in Hk. destruct g; apply orelse_is_Some; auto.
  - destruct H as (c1 & H & ->). apply (IH _ _ _ _ c1); [done|].
    by rewrite consumed_append.
Qed.

(** A subject that holds a text of the denotation has a match. *)
Lemma search_from_complete r bol pre p rest mt :
  Re.den r (bol && Py.is_empty pre) p rest [] mt ->
  is_Some (Re.search_from r bol (pre +:+ p +:+ rest)).
Proof.
  revert bol. induction pre as [|a pre IH]; intros bol H.
  - rewrite andb_true_r in H. change ("" +:+ p +:+ rest) with (p +:+ rest).
    rewrite search_from_head.
    destruct (m_complete r bol p rest [] mt (fun _ _ c => Some c) H) as [x ->]; [|done].
    by eexists.
  - rewrite append_cons, search_from_head.
    destruct (Re.m r bol _ [] _); [by eexists|].
    apply IH. by rewrite andb_false_r in H.
Qed.

Lemma search_complete r pre p rest mt :
  Re.den r (Py.is_empty pre) p rest [] mt ->
  is_Some (Re.search r (pre +:+ p +:+ rest)).
Proof. intros H. by apply (search_from_complete r true pre p rest mt). Qed.

(** ** Texts that [strip] leaves as they are *)

Lemma length_lstrip s : String.length (Py.lstrip s) <= String.length s.
Proof. induction s as [|c s IH]; [done|]. simpl. destruct (Py.isspace c); simpl; lia. Qed.

Lemma length_rstrip s : String.length (Py.rstrip s) <= String.length s.
Proof.
  induction s as [|c s IH]; [done|]. simpl.
  destruct (Py.is_empty (Py.rstrip s) && Py.isspace c); simpl; lia.
Qed.

Lemma lstrip_fixed_first a s :
  Py.lstrip (String a s) = String a s -> Py.isspace a = false.
Proof.
  simpl. destruct (Py.isspace a); [|done]. intros H.
  pose proof (length_lstrip s) as Hl. rewrite H in Hl. simpl in Hl. lia.
Qed.

Lemma rstrip_fixed_last init b :
  Py.rstrip (init +:+ String b "") = init +:+ String b "" -> Py.isspace b = false.
Proof.
  destruct (Py.isspace b) eqn:Hb; [|done]. intros H.
  rewrite rstrip_append_spaces in H by (by simpl; rewrite Hb).
  pose proof (length_rstrip init) as Hl. rewrite H, length_append in Hl. simpl in Hl. lia.
Qed.

Lemma strip_fixed s : Py.strip s = s -> Py.lstrip s = s /\ Py.rstrip s = s.
Proof.
  unfold Py.strip. intros H.
  assert (Hl : Py.lstrip s = s).
  { destruct s as [|a s]; [done|]. simpl. destruct (Py.isspace a) eqn:Ha; [|done].
    simpl in H. rewrite Ha in H.
    pose proof (length_rstrip (Py.lstrip s)). pose proof (length_lstrip s).
    rewrite H in *. simpl in *. lia. }
  split; [done|]. by rewrite Hl in H.
Qed.

Lemma last_char s : s <> "" -> exists init b, s = init +:+ String b "".
Proof.
  induction s as [|a s IH]; [done|]. intros _. destruct s as [|a' s].
  - by exists "", a.
  - destruct IH as (init & b & ->); [done|]. by exists (String a init), b.
Qed.

Lemma lstrip_append_fixed s rest :
  s <> "" -> Py.lstrip s = s -> Py.lstrip (s +:+ rest) = s +:+ rest.
Proof.
  destruct s as [|a s]; [done|]. intros _ H%lstrip_fixed_first.
  rewrite append_cons. by apply lstrip_first.
Qed.

Lemma count_zero_all c s :
  Py.count c s = 0 -> Py.all_chars (fun b => negb (Ascii.eqb b c)) s = true.
Proof.
  induction s as [|x s IH]; [done|]. simpl.
  destruct (Ascii.eqb x c); [done|]. intros H. by rewrite IH.
Qed.

Lemma all_chars_count (q : ascii -> bool) c s :
  q c = false -> Py.all_chars q s = true -> Py.count c s = 0.
Proof.
  intros Hc. induction s as [|x s IH]; [done|]. simpl. intros [Hx Hs]%andb_true_iff.
  rewrite (IH Hs). destruct (Ascii.eqb_spec x c) as [->|]; [congruence|done].
Qed.

Lemma append_inv_head a x y : a +:+ x = a +:+ y -> x = y.
Proof. induction a as [|c a IH]; [done|]. rewrite !append_cons. intros [=]. auto. Qed.

Lemma append_empty a b : a +:+ b = "" -> a = "" /\ b = "".
Proof. by destruct a. Qed.

Lemma is_blank_facts ws :
  is_blank ws = true -> ws <> "" /\ Py.all_chars Py.isspace ws = true.
Proof. unfold is_blank. intros [H1 H2]%andb_true_iff. by destruct ws. Qed.

(** A thread text: stripped, of two characters at least. *)
Lemma thread_cut th :
  Py.strip th = th -> 2 <= String.length th ->
  exists a mid b, th = String a (mid +:+ String b "") /\
    Py.isspace a = false /\ Py.isspace b = false.
Proof.
  intros [Hl Hr]%strip_fixed Hlen. destruct th as [|a th]; [simpl in Hlen; lia|].
  destruct (last_char th) as (mid & b & ->); [destruct th; [simpl in Hlen; lia|done]|].
  exists a, mid, b. split_and!; [done|by apply lstrip_fixed_first in Hl|].
  by apply (rstrip_fixed_last (String a mid)).
Qed.

(** ** Building the denotation of a repetition *)

Lemma star_den_cls neg items bol s rest c :
  Py.all_chars (Re.in_cls neg items) s = true ->
  Re.star_den (Re.den (Re.Cls neg items)) bol s rest c c.
Proof.
  revert bol. induction s as [|a s IH]; intros bol H; [constructor|].
  simpl in H. apply andb_true_iff in H as [Ha Hs].
  apply (Re.star_round _ bol (String a "") s rest c c c); [done| |by apply IH].
  by exists a.
Qed.

Lemma star_den_any bol s rest c :
  Py.count "010" s = 0 -> Re.star_den (Re.den Re.Any) bol s rest c c.
Proof.
  revert bol. induction s as [|a s IH]; intros bol H; [constructor|].
  simpl in H. destruct (Ascii.eqb_spec a "010") as [|Ha]; [lia|].
  apply (Re.star_round _ bol (String a "") s rest c c c); [done| |by apply IH].
  by exists a.
Qed.

Lemma den_plus_cls g neg items bol s rest c :
  s <> "" -> Py.all_chars (Re.in_cls neg items) s = true ->
  Re.den (Re.Plus g (Re.Cls neg items)) bol s rest c c.
Proof.
  destruct s as [|a s]; [done|]. intros _ [Ha Hs]%andb_true_iff.
  exists (String a ""), s, c. split_and!; [done|by exists a|by apply star_den_cls].
Qed.

Lemma den_cat r1 r2 bol p1 p2 rest c c1 c' :
  Re.den r1 bol p1 (p2 +:+ rest) c c1 ->
  Re.den r2 (bol && Py.is_empty p1) p2 rest c1 c' ->
  Re.den (Re.Cat r1 r2) bol (p1 +:+ p2) rest c c'.
Proof. intros H1 H2. by exists p1, p2, c1. Qed.

Lemma den_group n r bol p rest c c1 :
  Re.den r bol p rest c c1 -> Re.den (Re.Group n r) bol p rest c (Re.record n p c1).
Proof. intros H. by exists c1. Qed.

Lemma den_chr a bol rest c : Re.den (Re.Chr a) bol (String a "") rest c c.
Proof. done. Qed.

Lemma spaces_in_cls s :
  Py.all_chars Py.isspace s = true -> Py.all_chars (Re.in_cls false [Re.CSpace]) s = true.
Proof. intros H. by rewrite (all_chars_ext _ _ s in_cls_space). Qed.

Lemma digits_in_cls s :
  Py.all_chars Py.isdigit s = true -> Py.all_chars (Re.in_cls false [Re.CDigit]) s = true.
Proof. intros H. by rewrite (all_chars_ext _ _ s in_cls_digit). Qed.

(** ** A line of the documented format *)

Lemma in_cls_not_space_char a :
  Py.isspace a = false -> Py.all_chars (Re.in_cls false [Re.CNotSpace]) (String a "") = true.
Proof. intros H. cbn [Py.all_chars]. by rewrite in_cls_not_space, H. Qed.

Lemma ts_in_cls s :
  Py.all_chars is_ts_char s = true ->
  Py.all_chars (Re.in_cls false [Re.CDigit; Re.CChar "."]) s = true.
Proof. intros H. by rewrite (all_chars_ext _ _ s in_cls_ts). Qed.

Lemma not_colon_in_cls s :
  Py.count ":" s = 0 -> Py.all_chars (Re.in_cls true [Re.CChar ":"]) s = true.
Proof.
  intros H. rewrite (all_chars_ext _ _ s in_cls_not_colon). by apply count_zero_all.
Qed.

(** The event pattern matches a line of the documented format. *)
Lemma event_text_search ws1 th ws2 cpu ws3 ts nm bd eol :
  is_blank ws1 = true -> is_blank ws2 = true -> is_blank ws3 = true ->
  Py.strip th = th -> 2 <= String.length th -> Py.count "010" th = 0 ->
  cpu <> "" -> Py.all_chars Py.isdigit cpu = true ->
  ts <> "" -> Py.all_chars is_ts_char ts = true ->
  nm <> "" -> Py.count ":" nm = 0 ->
  Py.count "010" bd = 0 ->
  Re.at_end eol = true ->
  is_Some (Re.search TRACE_EVENT_REGEX (event_text ws1 th ws2 cpu ws3 ts nm bd eol)).
Proof.
  intros [W1n W1]%is_blank_facts [W2n W2]%is_blank_facts [W3n W3]%is_blank_facts.
  intros Hth Hlen Hthn Hcn Hc Htn Ht Hnn Hn Hb He.
  destruct (thread_cut th Hth Hlen) as (a & mid & b & -> & Ha & Hb').
  assert (Hmid : Py.count "010" mid = 0).
  { simpl in Hthn. rewrite count_append in Hthn. lia. }
  assert (E : event_text ws1 (String a (mid +:+ String b "")) ws2 cpu ws3 ts nm bd eol =
              "" +:+
              ("" +:+ ws1 +:+ (String a "" +:+ mid +:+ String b "") +:+ ws2 +:+ String "[" "" +:+
               cpu +:+ String "]" "" +:+ ws3 +:+ ts +:+ String ":" "" +:+ " " +:+ nm +:+
               String ":" "" +:+ " " +:+ bd +:+ "" +:+ "") +:+ eol).
  { unfold event_text. rewrite (append_cons a), !append_assoc. reflexivity. }
  rewrite E. eapply (search_complete TRACE_EVENT_REGEX "").
  unfold TRACE_EVENT_REGEX.
  eapply den_cat; [done|].
  eapply den_cat; [by apply den_plus_cls, spaces_in_cls|].
  eapply den_cat.
  { apply den_group. eapply den_cat; [by apply den_plus_cls, in_cls_not_space_char|].
    eapply den_cat; [by apply star_den_any|by apply den_plus_cls, in_cls_not_space_char]. }
  eapply den_cat; [by apply den_plus_cls, spaces_in_cls|].
  eapply den_cat; [apply den_chr|].
  eapply den_cat; [by apply den_group, den_plus_cls, digits_in_cls|].
  eapply den_cat; [apply den_chr|].
  eapply den_cat; [by apply den_plus_cls, spaces_in_cls|].
  eapply den_cat; [by apply den_group, den_plus_cls, ts_in_cls|].
  eapply den_cat; [apply den_chr|].
  eapply den_cat; [by apply den_plus_cls|].
  eapply den_cat; [by apply den_group, den_plus_cls, not_colon_in_cls|].
  eapply den_cat; [apply den_chr|].
  eapply den_cat; [by apply den_plus_cls|].
  eapply den_cat; [by apply den_group, star_den_any|].
  eapply den_cat; [constructor|]. by split_and!.
Qed.

Lemma isword_facts c :
  Re.isword c = true -> Py.isspace c = false /\ c <> ":"%char /\ c <> "["%char.
Proof. destruct c as [[] [] [] [] [] [] [] []]; by intros. Qed.

Lemma is_ts_char_facts c :
  is_ts_char c = true -> Py.isspace c = false /\ c <> ":"%char /\ c <> "["%char.
Proof. destruct c as [[] [] [] [] [] [] [] []]; by intros. Qed.

Lemma body_brackets_ok_spec s x y :
  body_brackets_ok s = true -> s = x +:+ String "[" y -> Py.count ":" y < 2.
Proof.
  revert x. induction s as [|c s IH]; intros x Hs E; [by destruct x|].
  simpl in Hs. apply andb_true_iff in Hs as [Hc Hs].
  destruct x as [|x0 x].
  - injection E as -> ->. by apply Nat.ltb_lt in Hc.
  - rewrite append_cons in E. injection E as -> ->. by apply (IH x).
Qed.

(** A line whose thread is one character has no match of the event pattern
    unless a later bracket opens a second header: the thread group would
    have to run up to that bracket, and the CPU id, the timestamp and the
    name after it bring two colons. *)
Lemma single_char_thread_no_match ws c ws' rest :
  Py.all_chars Py.isspace ws = true ->
  Py.isspace c = false ->
  Py.all_chars Py.isspace ws' = true ->
  body_brackets_ok rest = true ->
  Re.search TRACE_EVENT_REGEX (ws +:+ String c (ws' +:+ String "[" rest)) = None.
Proof.
  intros Hws Hc Hws' Hrest.
  destruct (Re.search TRACE_EVENT_REGEX _) as [mt|] eqn:Hs; [exfalso|done].
  destruct (trace_event_full _ _ Hs)
    as (ws1 & th & ws2 & cpu & ws3 & ts & ws4 & nm & ws5 & bd & ws6 & tail & Hline & _
        & Hblank & _ & _ & Hth & Hlen & _).
  apply Forall_cons in Hblank as [[_ Hws1]%is_blank_facts _].
  destruct (thread_cut th Hth Hlen) as (a & mid & b & -> & Ha & Hb).
  rewrite append_cons, !append_assoc in Hline. rewrite append_cons in Hline.
  apply (leading_run Py.isspace) in Hline as (_ & _ & Hline); [|done..].
  match type of Hline with
  | _ = mid +:+ String b ("" +:+ ws2 +:+ String "[" ?T) =>
      assert (E : ws' +:+ String "[" rest = (mid +:+ String b ws2) +:+ String "[" T)
        by (rewrite append_assoc; exact Hline)
  end.
  clear Hline. apply append_eq_append in E as [(w & Hw & Hr)|(w & Hw & Hr)].
  - destruct w as [|y w].
    + rewrite append_nil_r in Hw. rewrite <-Hw in Hws'.
      apply spaces_before in Hws'. congruence.
    + rewrite append_cons in Hr. injection Hr as _ Hr.
      apply (body_brackets_ok_spec rest w _ Hrest) in Hr.
      rewrite !count_append in Hr. cbn [Py.count] in Hr. rewrite !count_append in Hr.
      cbn [Py.count] in Hr. rewrite !count_append in Hr. cbn [Py.count] in Hr.
      simpl in Hr. lia.
  - subst ws'. rewrite append_assoc, append_cons in Hws'.
    apply spaces_before in Hws'. congruence.
Qed.

(** C10 as amended (one-character threads).  Whenever the event pattern
    matches, its thread group holds two characters at least.  A line made of
    whitespace, one character that is no whitespace, whitespace and the
    bracket of the CPU id, in which no later bracket is followed by two
    colons, does not match it; when such a line is not taken by the marker
    filtering and is neither a dropped-events notice nor an empty-CPU line,
    the reader logs it as an invalid trace event and goes on without
    yielding. *)
Theorem C10_single_char_thread (self : TraceCmdTrace) (filters : list Re.re)
    (inside : bool) (ws : string) (c : ascii) (ws' rest : string) :
  let line := ws +:+ String c (ws' +:+ String "[" rest) in
  Py.all_chars Py.isspace ws = true ->
  Py.isspace c = false ->
  Py.all_chars Py.isspace ws' = true ->
  body_brackets_ok rest = true ->
  (forall l mt, Re.search TRACE_EVENT_REGEX l = Some mt ->
     exists th, Re.group "thread" mt = Some th /\ 2 <= String.length th) /\
  Re.search TRACE_EVENT_REGEX line = None /\
  (filter_markers self = false \/
     (inside = true /\ Py.contains TRACE_MARKER_STOP line = false) ->
   Re.search DROPPED_EVENTS_REGEX line = None ->
   matches EMPTY_CPU_REGEX line = false ->
   process_line self filters inside line =
     Next inside [Log Warning (invalid_message line)]).
Proof.
  intros line Hws Hc Hws' Hrest. split_and!.
  - intros l mt Hs.
    apply trace_event_match in Hs as (th & cpu & ts & nm & bd & -> & Hl).
    exists th. split; [done|]. by apply event_line_thread in Hl.
  - by apply single_char_thread_no_match.
  - intros Hgate Hdropped Hempty.
    assert (Hcl : classify filters inside line =
                    Next inside [Log Warning (invalid_message line)]).
    { unfold classify, classify_in; fold lookup_parser.
      rewrite Hdropped. cbn [existsb]. unfold matches at 1.
      unfold line. rewrite single_char_thread_not_header by done.
      fold line. rewrite Hempty. cbn [orb].
      unfold line. by rewrite single_char_thread_no_match. }
    unfold process_line, process_line_in; fold classify.
    destruct Hgate as [->|[-> ->]]; [done|].
    by destruct (filter_markers self).
Qed.

Lemma at_end_count c eol : Re.at_end eol = true -> c <> "010"%char -> Py.count c eol = 0.
Proof.
  intros [-> | ->]%at_end_cases Hc; [done|]. cbn [Py.count].
  destruct (Ascii.eqb_spec "010" c); [congruence|done].
Qed.

(** What is_event_text says of its parts. *)
Lemma is_event_text_facts ws1 th ws2 cpu ws3 ts nm bd eol :
  is_event_text ws1 th ws2 cpu ws3 ts nm bd eol = true ->
  (is_blank ws1 = true /\ is_blank ws2 = true /\ is_blank ws3 = true) /\
  (Py.strip th = th /\ 2 <= String.length th /\ Py.count "010" th = 0 /\
   Py.count "[" th = 0) /\
  (cpu <> "" /\ Py.all_chars Py.isdigit cpu = true) /\
  (ts <> "" /\ Py.all_chars is_ts_char ts = true) /\
  (nm <> "" /\ is_plain_name nm = true) /\
  (Py.strip bd = bd /\ Py.count "010" bd = 0 /\ body_brackets_ok bd = true) /\
  Re.at_end eol = true.
Proof.
  unfold is_event_text. rewrite !andb_true_iff, !negb_true_iff, !is_empty_false.
  rewrite !String.eqb_eq, !Nat.eqb_eq, Nat.leb_le. intros H. clear -H. tauto.
Qed.

(** The bracket of the CPU id is found in one way only. *)
Lemma bracket_unique a b a' b' :
  Py.count "[" a' = 0 ->
  (forall w, b' = w +:+ String "[" b -> False) ->
  a +:+ String "[" b = a' +:+ String "[" b' -> a = a' /\ b = b'.
Proof.
  intros Ha' Hlater E. apply append_eq_append in E as [(w & -> & E)|(w & -> & E)].
  - destruct w as [|w0 w].
    + rewrite append_nil_r. by injection E as ->.
    + rewrite append_cons in E. injection E as <- ->.
      rewrite count_append in Ha'. simpl in Ha'. lia.
  - destruct w as [|w0 w].
    + rewrite append_nil_r. by injection E as ->.
    + rewrite append_cons in E. injection E as <- ->. by destruct (Hlater w).
Qed.

(** A bracket further on in a line of the documented format is in its
    body. *)
Lemma later_bracket p bd eol w b :
  Py.count "[" p = 0 -> Re.at_end eol = true -> body_brackets_ok bd = true ->
  p +:+ bd +:+ eol = w +:+ String "[" b -> Py.count ":" b < 2.
Proof.
  intros Hp He Hbd E.
  assert (Heol : Py.count "[" eol = 0) by (by apply at_end_count).
  assert (Hc : Py.count ":" eol = 0) by (by apply at_end_count).
  assert (E2 : exists v, bd +:+ eol = v +:+ String "[" b).
  { symmetry in E. apply append_eq_append in E as [(v & -> & E)|(v & -> & E)].
    - destruct v as [|v0 v]; [by exists ""|].
      rewrite append_cons in E. injection E as <- ->.
      rewrite count_append in Hp. simpl in Hp. lia.
    - by exists v. }
  destruct E2 as (v & E2). symmetry in E2.
  apply append_eq_append in E2 as [(u & -> & E2)|(u & -> & E2)].
  - destruct u as [|u0 u].
    + change ("" +:+ eol) with eol in E2. rewrite <-E2 in Heol. simpl in Heol. lia.
    + rewrite append_cons in E2. injection E2 as <- ->.
      pose proof (body_brackets_ok_spec _ v u Hbd eq_refl). rewrite count_append. lia.
  - rewrite E2 in Heol. rewrite count_append in Heol. simpl in Heol. lia.
Qed.

Lemma all_space_at_end ws rest :
  Py.all_chars Py.isspace ws = true -> Re.at_end rest = true ->
  Py.all_chars Py.isspace (ws +:+ rest) = true.
Proof.
  intros Hws [-> | ->]%at_end_cases; rewrite all_chars_append, Hws; done.
Qed.

(** The body of a line of the documented format is found in one way
    only. *)
Lemma body_unique ws5 bd ws6 rest bd' eol :
  is_blank ws5 = true -> Py.count "010" bd = 0 ->
  Py.all_chars Py.isspace ws6 = true -> Re.at_end rest = true ->
  Py.strip bd' = bd' -> Re.at_end eol = true ->
  ws5 +:+ bd +:+ ws6 +:+ rest = String " " (bd' +:+ eol) -> bd = bd'.
Proof.
  intros [W5n W5]%is_blank_facts Hbd Hws6 Hrest [Hl Hr]%strip_fixed He E.
  destruct ws5 as [|w r]; [done|]. rewrite append_cons in E. injection E as -> E.
  simpl in W5.
  pose proof (all_space_at_end ws6 rest Hws6 Hrest) as Htail.
  destruct bd' as [|f0 bd'].
  - change ("" +:+ eol) with eol in E.
    apply at_end_cases in He as [-> | ->].
    + apply append_empty in E as [_ E]. by apply append_empty in E as [-> _].
    + destruct r as [|r0 r].
      * change ("" +:+ bd +:+ ws6 +:+ rest) with (bd +:+ ws6 +:+ rest) in E.
        destruct bd as [|b0 bd]; [done|]. rewrite append_cons in E.
        injection E as -> _. simpl in Hbd. lia.
      * rewrite append_cons in E. injection E as _ E.
        apply append_empty in E as [_ E]. by apply append_empty in E as [-> _].
  - apply lstrip_fixed_first in Hl.
    destruct r as [|r0 r].
    2:{ rewrite !append_cons in E. injection E as -> _. simpl in W5.
        apply andb_true_iff in W5 as [W5 _]. congruence. }
    change ("" +:+ bd +:+ ws6 +:+ rest) with (bd +:+ ws6 +:+ rest) in E.
    apply append_eq_append in E as [(w & E1 & E2)|(w & E1 & E2)].
    + assert (Hw : Py.all_chars Py.isspace w = true).
      { rewrite E2, all_chars_append in Htail. by apply andb_true_iff in Htail as [? _]. }
      rewrite E1, rstrip_append_spaces in Hr by done.
      pose proof (length_rstrip bd) as Hlen. rewrite Hr, length_append in Hlen.
      destruct w; [by rewrite append_nil_r in E1|simpl in Hlen; lia].
    + destruct w as [|w0 w]; [by rewrite append_nil_r in E1|].
      apply at_end_cases in He as [-> | ->]; [done|].
      rewrite append_cons in E2. injection E2 as <- _.
      rewrite E1, count_append in Hbd. simpl in Hbd. lia.
Qed.

(** A line of the documented format is cut into the parts of the event
    pattern in one way only. *)
Lemma event_text_unique ws1 th ws2 cpu ws3 ts ws4 nm ws5 bd ws6 rest
    ws1' th' ws2' cpu' ws3' ts' nm' bd' eol :
  Forall (fun ws => is_blank ws = true) [ws1; ws2; ws3; ws4; ws5] ->
  Py.all_chars Py.isspace ws6 = true -> Re.at_end rest = true ->
  Py.strip th = th -> 2 <= String.length th ->
  cpu <> "" -> Py.all_chars Py.isdigit cpu = true ->
  ts <> "" -> Py.all_chars is_ts_char ts = true ->
  nm <> "" -> Py.count ":" nm = 0 ->
  Py.count "010" bd = 0 ->
  is_event_text ws1' th' ws2' cpu' ws3' ts' nm' bd' eol = true ->
  ws1 +:+ th +:+ ws2 +:+
    String "[" (cpu +:+ String "]" (ws3 +:+ ts +:+
      String ":" (ws4 +:+ nm +:+ String ":" (ws5 +:+ bd +:+ ws6 +:+ rest)))) =
    event_text ws1' th' ws2' cpu' ws3' ts' nm' bd' eol ->
  th = th' /\ cpu = cpu' /\ ts = ts' /\ nm = nm' /\ bd = bd'.
Proof.
  intros Hws Hws6 Hrest Hth Hlen Hcn Hc Htn Ht Hnn Hn Hbd Hdoc E.
  apply Forall_cons in Hws as [[W1n W1]%is_blank_facts Hws].
  apply Forall_cons in Hws as [[W2n W2]%is_blank_facts Hws].
  apply Forall_cons in Hws as [[W3n W3]%is_blank_facts Hws].
  apply Forall_cons in Hws as [[W4n W4]%is_blank_facts Hws].
  apply Forall_cons in Hws as [W5 _].
  destruct (is_event_text_facts _ _ _ _ _ _ _ _ _ Hdoc)
    as ((W1' & W2' & W3') & (Hth' & Hlen' & Hthn' & Hthb') & (Hcn' & Hc') &
        (Htn' & Ht') & (Hnn' & Hn') & (Hbd' & Hbdn' & Hbdb') & He).
  apply is_blank_facts in W1' as [W1n' W1'].
  apply is_blank_facts in W2' as [W2n' W2'].
  apply is_blank_facts in W3' as [W3n' W3'].
  apply strip_fixed in Hth as [Hthl Hthr]. apply strip_fixed in Hth' as [Hthl' Hthr'].
  (* the bracket of the CPU id *)
  assert (E' : (ws1 +:+ th +:+ ws2) +:+
                 String "[" (cpu +:+ String "]" (ws3 +:+ ts +:+
                   String ":" (ws4 +:+ nm +:+ String ":" (ws5 +:+ bd +:+ ws6 +:+ rest)))) =
               (ws1' +:+ th' +:+ ws2') +:+
                 String "[" (cpu' +:+ String "]" (ws3' +:+ ts' +:+
                   String ":" (String " " (nm' +:+ String ":" (String " " (bd' +:+ eol)))))))
    by (rewrite !append_assoc; exact E).
  clear E. apply bracket_unique in E' as [EA EB].
  2:{ rewrite !count_append, Hthb'.
      by rewrite (all_chars_count Py.isspace "[" ws1'), (all_chars_count Py.isspace "[" ws2'). }
  2:{ intros w Hw.
      assert (Hlt : Py.count ":" (cpu +:+ String "]" (ws3 +:+ ts +:+
                      String ":" (ws4 +:+ nm +:+
                        String ":" (ws5 +:+ bd +:+ ws6 +:+ rest)))) < 2).
      { apply (later_bracket (cpu' +:+ "]" +:+ ws3' +:+ ts' +:+ ": " +:+ nm' +:+ ": ")
                 bd' eol w); [|done|done|].
        - rewrite !count_append.
          rewrite (all_chars_count Py.isdigit "[" cpu'), (all_chars_count Py.isspace "[" ws3'),
            (all_chars_count is_ts_char "[" ts'), (all_chars_count Re.isword "[" nm');
            done.
        - rewrite <-Hw, !append_assoc. reflexivity. }
      repeat (rewrite !count_append in Hlt; simpl in Hlt). lia. }
  (* the thread *)
  assert (Eth : th = th').
  { assert (th <> "") by (intros ->; simpl in Hlen; lia).
    assert (th' <> "") by (intros ->; simpl in Hlen'; lia).
    apply (f_equal Py.lstrip) in EA.
    rewrite (lstrip_spaces ws1), (lstrip_spaces ws1') in EA by done.
    rewrite (lstrip_append_fixed th), (lstrip_append_fixed th') in EA by done.
    apply (f_equal Py.rstrip) in EA.
    rewrite (rstrip_append_spaces th), (rstrip_append_spaces th') in EA by done.
    by rewrite Hthr, Hthr' in EA. }
  (* the CPU id *)
  apply (leading_run Py.isdigit) in EB as (Ecpu & _ & EB); [|done..].
  (* the timestamp *)
  apply (f_equal Py.lstrip) in EB.
  rewrite (lstrip_spaces ws3), (lstrip_spaces ws3') in EB by done.
  destruct ts as [|x ts0]; [done|]. destruct ts' as [|x' ts0']; [done|].
  assert (Hx : Py.isspace x = false).
  { cbn [Py.all_chars] in Ht. apply andb_true_iff in Ht as [Hx _].
    by destruct (is_ts_char_facts x Hx) as [? _]. }
  assert (Hx' : Py.isspace x' = false).
  { cbn [Py.all_chars] in Ht'. apply andb_true_iff in Ht' as [Hx' _].
    by destruct (is_ts_char_facts x' Hx') as [? _]. }
  rewrite !append_cons, !lstrip_first, <-!append_cons in EB by done.
  apply (leading_run is_ts_char) in EB as (Ets & _ & EB); [|done..].
  (* the name *)
  destruct ws4 as [|w r]; [done|]. rewrite append_cons in EB. injection EB as -> EB.
  assert (Hr : r = "").
  { destruct r as [|r0 r]; [done|]. destruct nm' as [|n0 nm0']; [done|].
    apply andb_true_iff in Hn' as [Hn0 _]. destruct (isword_facts n0 Hn0) as (Hn0s & _).
    rewrite !append_cons in EB. injection EB as -> _. simpl in W4.
    apply andb_true_iff in W4 as [W4 _]. congruence. }
  subst r. change ("" +:+ nm +:+ ?x) with (nm +:+ x) in EB.
  apply (leading_run (fun b => negb (Ascii.eqb b ":"))) in EB as (Enm & _ & EB);
    [|by apply count_zero_all|done
     |by apply count_zero_all, (all_chars_count Re.isword)|done].
  (* the body *)
  apply body_unique in EB; done.
Qed.

(** A line the dropped-events pattern matches holds the words of the
    notice. *)
Lemma dropped_events_text line mt :
  Re.search DROPPED_EVENTS_REGEX line = Some mt ->
  Py.contains "EVENTS DROPPED]" line = true.
Proof.
  intros H. apply search_sound in H as (pre & p & rest & -> & H).
  unfold DROPPED_EVENTS_REGEX in H. repeat den_step.
  apply contains_spec.
  match goal with
  | |- exists _ _, ?pre +:+ ("C" +:+ "P" +:+ "U" +:+ ":" +:+ ?d +:+ " " +:+ "[" +:+ ?d2 +:+
         ?ws +:+ ?tail) +:+ ?rest = _ =>
      exists (pre +:+ "CPU:" +:+ d +:+ " [" +:+ d2 +:+ ws), rest
  end.
  rewrite !append_assoc. reflexivity.
Qed.

(** A line the empty-CPU pattern matches holds its words. *)
Lemma empty_cpu_text line mt :
  Re.search EMPTY_CPU_REGEX line = Some mt -> Py.contains " is empty" line = true.
Proof.
  intros H. apply search_sound in H as (pre & p & rest & -> & H).
  unfold EMPTY_CPU_REGEX in H. repeat den_step.
  apply contains_spec.
  match goal with
  | |- exists _ _, ?pre +:+ ("C" +:+ "P" +:+ "U" +:+ " " +:+ ?d +:+ ?tail) +:+ ?rest = _ =>
      exists (pre +:+ "CPU " +:+ d), rest
  end.
  rewrite !append_assoc. reflexivity.
Qed.

(** A line the header pattern matches holds no bracket. *)
Lemma header_no_bracket line mt :
  Re.search HEADER_REGEX line = Some mt -> Py.count "[" line = 0.
Proof.
  intros H. apply search_sound in H as (pre & p & rest & -> & H).
  unfold HEADER_REGEX in H. repeat den_step.
  match goal with H : Py.is_empty pre = true |- _ => apply is_empty_true in H as -> end.
  match goal with
  | H : Re.den (Re.Alt _ _) _ _ _ _ _ |- _ => destruct H as [H|H]; repeat den_step
  end;
    rewrite !count_append;
    repeat match goal with
           | H : Py.all_chars ?q ?s = true |- context [Py.count "[" ?s] =>
               rewrite (all_chars_count q "[" s eq_refl H)
           end;
    match goal with
    | H : Re.at_end ?r = true |- _ => by rewrite (at_end_count "[" r H)
    end.
Qed.

Lemma event_text_bracket ws1 th ws2 cpu ws3 ts nm bd eol :
  Py.count "[" (event_text ws1 th ws2 cpu ws3 ts nm bd eol) <> 0.
Proof. unfold event_text. rewrite !count_append. simpl. lia. Qed.

(** The groups of the match of a line of the documented format are its
    parts. *)
Lemma event_text_groups ws1 th ws2 cpu ws3 ts nm bd eol :
  is_event_text ws1 th ws2 cpu ws3 ts nm bd eol = true ->
  Re.search TRACE_EVENT_REGEX (event_text ws1 th ws2 cpu ws3 ts nm bd eol) =
    Some [("body", bd); ("name", nm); ("ts", ts); ("cpu_id", cpu); ("thread", th)].
Proof.
  intros Hdoc.
  destruct (is_event_text_facts _ _ _ _ _ _ _ _ _ Hdoc)
    as ((W1 & W2 & W3) & (Hth & Hlen & Hthn & Hthb) & (Hcn & Hc) &
        (Htn & Ht) & (Hnn & Hn) & (Hbd & Hbdn & Hbdb) & He).
  destruct (event_text_search ws1 th ws2 cpu ws3 ts nm bd eol) as [mt Hs]; try done.
  { by apply (all_chars_count Re.isword). }
  rewrite Hs.
  destruct (trace_event_full _ _ Hs)
    as (v1 & th' & v2 & cpu' & v3 & ts' & v4 & nm' & v5 & bd' & v6 & rest & E & -> & Hws
        & Hv6 & Hrest & Hth' & Hlen' & Hcn' & Hc' & Htn' & Ht' & Hnn' & Hn' & Hbd').
  symmetry in E.
  destruct (event_text_unique v1 th' v2 cpu' v3 ts' v4 nm' v5 bd' v6 rest
              ws1 th ws2 cpu ws3 ts nm bd eol) as (-> & -> & -> & -> & ->); done.
Qed.

(** X16 (a line of the documented format is read back).  A line made of
    whitespace, a thread, whitespace, the CPU id in brackets, whitespace, a
    timestamp, a colon and one space, a name, a colon and one space, and a
    body, where the thread is a stripped text of two characters at least
    without a bracket, the name is made of letters, digits and underscores,
    the body is a stripped text in which no bracket is followed by two
    colons, and the line holds neither the words of a dropped-events notice
    nor those of an empty-CPU line: the event pattern matches it with
    exactly these parts as its groups, and when the line is not taken by the
    marker filtering and its name passes the filters, it yields the event
    with these parts as its slots, the CPU id as an integer and the
    timestamp as [numeric] reads it, after the parser of the name has set
    the fields; when [numeric] raises, its exception ends the stream.  When
    the body is a list of pairs and the name is not [sched_switch], the
    fields of the event are those pairs. *)
Theorem X16_documented_line (self : TraceCmdTrace) (filters : list Re.re)
    (inside : bool) (ws1 th ws2 cpu ws3 ts nm bd eol : string) :
  let line := event_text ws1 th ws2 cpu ws3 ts nm bd eol in
  is_event_text ws1 th ws2 cpu ws3 ts nm bd eol = true ->
  Py.contains "EVENTS DROPPED]" line = false ->
  Py.contains " is empty" line = false ->
  filter_markers self = false \/
    (inside = true /\ Py.contains TRACE_MARKER_STOP line = false) ->
  filters = [] \/ existsb (fun f => matches f nm) filters = true ->
  Re.search TRACE_EVENT_REGEX line =
    Some [("body", bd); ("name", nm); ("ts", ts); ("cpu_id", cpu); ("thread", th)] /\
  process_line self filters inside line =
    match numeric ts with
    | Ok t =>
        Next inside
          [Yield (parser_of nm (fresh_event th (Py.digits_value 0 cpu) t nm bd) bd).1]
    | Raise e => Abort e
    end /\
  (forall sep pairs t,
     bd = format_pairs sep pairs -> is_sep sep = true ->
     Forall (fun kv => is_token kv.1 = true /\ is_token kv.2 = true) pairs ->
     nm <> "sched_switch" -> numeric ts = Ok t ->
     process_line self filters inside line =
       Next inside
         [Yield (store_pairs pairs (fresh_event th (Py.digits_value 0 cpu) t nm bd))]).
Proof.
  intros line Hdoc Hdrop Hempty Hgate Hf.
  pose proof (event_text_groups _ _ _ _ _ _ _ _ _ Hdoc) as Hs. fold line in Hs.
  assert (Hd : Re.search DROPPED_EVENTS_REGEX line = None).
  { destruct (Re.search DROPPED_EVENTS_REGEX line) as [mt|] eqn:E; [|done].
    apply dropped_events_text in E. congruence. }
  assert (Hh : matches HEADER_REGEX line = false).
  { unfold matches. destruct (Re.search HEADER_REGEX line) as [mt|] eqn:E; [|done].
    apply header_no_bracket in E. by apply event_text_bracket in E. }
  assert (He : matches EMPTY_CPU_REGEX line = false).
  { unfold matches. destruct (Re.search EMPTY_CPU_REGEX line) as [mt|] eqn:E; [|done].
    apply empty_cpu_text in E. congruence. }
  assert (Hc : classify filters inside line =
                 match numeric ts with
                 | Ok t =>
                     Next inside
                       [Yield (parser_of nm
                                 (fresh_event th (Py.digits_value 0 cpu) t nm bd) bd).1]
                 | Raise e => Abort e
                 end).
  { rewrite (classify_event_line filters inside line th cpu ts nm bd) by done.
    destruct Hf as [-> | ->]; [done|]. by rewrite andb_false_r. }
  assert (Hp : process_line self filters inside line =
                 match numeric ts with
                 | Ok t =>
                     Next inside
                       [Yield (parser_of nm
                                 (fresh_event th (Py.digits_value 0 cpu) t nm bd) bd).1]
                 | Raise e => Abort e
                 end).
  { unfold process_line, process_line_in; fold classify. destruct Hgate as [->|[-> ->]]; [done|].
    by destruct (filter_markers self). }
  split_and!; [done|done|].
  intros sep pairs t Hbd Hsep Hall Hnm Ht. rewrite Hp, Ht. unfold parser_of.
  apply String.eqb_neq in Hnm. rewrite Hnm. subst bd.
  by rewrite default_body_parser_format_pairs.
Qed.

(** ** Header and empty-CPU lines *)

Lemma den_literal_intro n tail bol p2 rest c c' :
  Re.den tail (bol && Py.is_empty n) p2 rest c c' ->
  Re.den (literal n tail) bol (n +:+ p2) rest c c'.
Proof.
  revert bol. induction n as [|a n IH]; intros bol H.
  - by rewrite andb_true_r in H.
  - rewrite append_cons. change (String a (n +:+ p2)) with (String a "" +:+ (n +:+ p2)).
    apply (den_cat _ _ _ _ _ _ c c); [done|]. apply IH.
    by rewrite !andb_false_r in *.
Qed.

Lemma dropped_events_bracket line mt :
  Re.search DROPPED_EVENTS_REGEX line = Some mt -> Py.count "[" line <> 0.
Proof.
  intros (d & _ & _ & _ & pre & post & ->)%dropped_events_match.
  rewrite !count_append. simpl. lia.
Qed.

(** The header pattern matches a line made of [version] or [cpus], [=]
    and a number, with any whitespace around them. *)
Lemma header_text_search ws0 word ws1 ws2 num ws3 eol :
  Py.all_chars Py.isspace ws0 = true -> Py.all_chars Py.isspace ws1 = true ->
  Py.all_chars Py.isspace ws2 = true -> Py.all_chars Py.isspace ws3 = true ->
  word = "version" \/ word = "cpus" ->
  num <> "" -> Py.all_chars is_ts_char num = true ->
  Re.at_end eol = true ->
  is_Some (Re.search HEADER_REGEX
             (ws0 +:+ word +:+ ws1 +:+ "=" +:+ ws2 +:+ num +:+ ws3 +:+ eol)).
Proof.
  intros W0 W1 W2 W3 Hw Hn Hnum He.
  assert (E : ws0 +:+ word +:+ ws1 +:+ "=" +:+ ws2 +:+ num +:+ ws3 +:+ eol =
              "" +:+
              ("" +:+ ws0 +:+ word +:+ ws1 +:+ String "=" "" +:+ ws2 +:+ num +:+ ws3 +:+ "") +:+
              eol).
  { rewrite !append_assoc. reflexivity. }
  rewrite E. eapply (search_complete HEADER_REGEX ""). unfold HEADER_REGEX.
  eapply den_cat; [done|].
  eapply den_cat; [by apply star_den_cls, spaces_in_cls|].
  eapply den_cat.
  { destruct Hw as [-> | ->]; [left|right].
    - apply (den_literal_intro "versio" (Re.Chr "n") _ "n"). apply den_chr.
    - apply (den_literal_intro "cpu" (Re.Chr "s") _ "s"). apply den_chr. }
  eapply den_cat; [by apply star_den_cls, spaces_in_cls|].
  eapply den_cat; [apply den_chr|].
  eapply den_cat; [by apply star_den_cls, spaces_in_cls|].
  eapply den_cat; [by apply den_group, den_plus_cls, ts_in_cls|].
  eapply den_cat; [by apply star_den_cls, spaces_in_cls|]. by split_and!.
Qed.

(** The empty-CPU pattern matches a line that holds its words. *)
Lemma empty_cpu_text_search pre d post :
  d <> "" -> Py.all_chars Py.isdigit d = true ->
  is_Some (Re.search EMPTY_CPU_REGEX (pre +:+ "CPU " +:+ d +:+ " is empty" +:+ post)).
Proof.
  intros Hn Hd.
  assert (E : pre +:+ "CPU " +:+ d +:+ " is empty" +:+ post =
              pre +:+ ("CPU " +:+ d +:+ " is empt" +:+ "y") +:+ post).
  { rewrite !append_assoc. reflexivity. }
  rewrite E. eapply (search_complete EMPTY_CPU_REGEX pre). unfold EMPTY_CPU_REGEX.
  apply (den_literal_intro "CPU "
           (Re.Cat (Re.Plus true (Re.Cls false [Re.CDigit]))
              (literal " is empt" (Re.Chr "y")))).
  eapply den_cat; [by apply den_plus_cls, digits_in_cls|].
  apply den_literal_intro. apply den_chr.
Qed.

(** X17 (header and empty-CPU lines).  A line that is not taken by the marker
    filtering and is made of [version] or [cpus], [=] and a number of digits
    and points, with any whitespace around them, yields nothing: the
    stripped line is logged at the debug level.  The same holds of every
    line that holds [CPU], a number and [is empty] anywhere in it and no
    dropped-events notice, be it a line of the event pattern. *)
Theorem X17_skipped_lines (self : TraceCmdTrace) (filters : list Re.re) (inside : bool)
    (line : string) :
  filter_markers self = false \/
    (inside = true /\ Py.contains TRACE_MARKER_STOP line = false) ->
  (forall ws0 word ws1 ws2 num ws3 eol,
     line = ws0 +:+ word +:+ ws1 +:+ "=" +:+ ws2 +:+ num +:+ ws3 +:+ eol ->
     Py.all_chars Py.isspace (ws0 +:+ ws1 +:+ ws2 +:+ ws3) = true ->
     word = "version" \/ word = "cpus" ->
     num <> "" -> Py.all_chars is_ts_char num = true ->
     Re.at_end eol = true ->
     process_line self filters inside line = Next inside [Log Debug (Py.strip line)]) /\
  (forall pre d post,
     line = pre +:+ "CPU " +:+ d +:+ " is empty" +:+ post ->
     d <> "" -> Py.all_chars Py.isdigit d = true ->
     Py.contains "EVENTS DROPPED]" line = false ->
     process_line self filters inside line = Next inside [Log Debug (Py.strip line)]).
Proof.
  intros Hgate.
  assert (Hp : classify filters inside line = Next inside [Log Debug (Py.strip line)] ->
               process_line self filters inside line =
                 Next inside [Log Debug (Py.strip line)]).
  { intros Hc. unfold process_line, process_line_in; fold classify.
    destruct Hgate as [->|[-> ->]]; [done|].
    by destruct (filter_markers self). }
  split.
  - intros ws0 word ws1 ws2 num ws3 eol Hl Hws Hw Hn Hnum He. apply Hp.
    rewrite !all_chars_append, !andb_true_iff in Hws. destruct Hws as (W0 & W1 & W2 & W3).
    destruct (header_text_search ws0 word ws1 ws2 num ws3 eol) as [mt Hs]; try done.
    rewrite <-Hl in Hs.
    assert (Hd : Re.search DROPPED_EVENTS_REGEX line = None).
    { destruct (Re.search DROPPED_EVENTS_REGEX line) as [mt'|] eqn:E; [|done].
      apply dropped_events_bracket in E. by apply header_no_bracket in Hs. }
    unfold classify, classify_in; fold lookup_parser.
    rewrite Hd. cbn [existsb]. unfold matches at 1. by rewrite Hs.
  - intros pre d post Hl Hn Hd Hdrop. apply Hp.
    destruct (empty_cpu_text_search pre d post Hn Hd) as [mt Hs]. rewrite <-Hl in Hs.
    assert (Hdr : Re.search DROPPED_EVENTS_REGEX line = None).
    { destruct (Re.search DROPPED_EVENTS_REGEX line) as [mt'|] eqn:E; [|done].
      apply dropped_events_text in E. congruence. }
    unfold classify, classify_in; fold lookup_parser.
    rewrite Hdr. cbn [existsb]. unfold matches at 2. rewrite Hs.
    by rewrite orb_true_r.
Qed.


(** ** A [sched_switch] body of the older format *)

Lemma trailing_run (q : ascii -> bool) a x s b y t :
  Py.all_chars q s = true -> q x = false ->
  Py.all_chars q t = true -> q y = false ->
  a +:+ String x s = b +:+ String y t -> a = b /\ x = y /\ s = t.
Proof.
  revert b. induction a as [|a0 a IH]; intros b Hs Hx Ht Hy H.
  - destruct b as [|b0 b]; [by injection H as -> ->|].
    change ("" +:+ String x s) with (String x s) in H. rewrite append_cons in H.
    injection H as _ ->. rewrite all_chars_append in Hs.
    apply andb_true_iff in Hs as [_ Hs]. simpl in Hs. by rewrite Hy in Hs.
  - destruct b as [|b0 b].
    + change ("" +:+ String y t) with (String y t) in H. rewrite append_cons in H.
      injection H as _ <-. rewrite all_chars_append in Ht.
      apply andb_true_iff in Ht as [_ Ht]. simpl in Ht. by rewrite Hx in Ht.
    + rewrite !append_cons in H. injection H as -> H.
      by destruct (IH b Hs Hx Ht Hy H) as (-> & -> & ->).
Qed.

Lemma append_inv_tail a b x : a +:+ x = b +:+ x -> a = b.
Proof.
  revert b. induction a as [|a0 a IH]; intros b H.
  - destruct b as [|b0 b]; [done|].
    apply (f_equal String.length) in H. rewrite !length_append in H. simpl in H. lia.
  - destruct b as [|b0 b].
    + apply (f_equal String.length) in H. rewrite !length_append in H. simpl in H. lia.
    + rewrite !append_cons in H. injection H as -> H. by rewrite (IH b H).
Qed.

Lemma is_comm_facts s :
  is_comm s = true ->
  exists a r, s = String a r /\ Py.isspace a = false /\ Py.count "010" r = 0 /\
    Py.count "=" s = 0.
Proof.
  unfold is_comm. intros [[H1 H2]%andb_true_iff H3]%andb_true_iff.
  destruct s as [|a r]; [done|]. exists a, r.
  apply negb_true_iff in H1. apply Nat.eqb_eq in H2, H3.
  split_and!; [done|done| |done].
  cbn [Py.count] in H2. lia.
Qed.

Lemma is_number_facts d :
  is_number d = true -> d <> "" /\ Py.all_chars Py.isdigit d = true.
Proof. unfold is_number. intros [H1 H2]%andb_true_iff. by destruct d. Qed.

Lemma is_legacy_text_facts pc pp pr st nc np npr :
  is_legacy_text pc pp pr st nc np npr = true ->
  is_comm pc = true /\ is_comm nc = true /\ Py.count "[" nc = 0 /\
  st <> "" /\ is_token st = true /\
  (pp <> "" /\ Py.all_chars Py.isdigit pp = true) /\
  (pr <> "" /\ Py.all_chars Py.isdigit pr = true) /\
  (np <> "" /\ Py.all_chars Py.isdigit np = true) /\
  (npr <> "" /\ Py.all_chars Py.isdigit npr = true).
Proof.
  unfold is_legacy_text. rewrite !andb_true_iff, Nat.eqb_eq.
  intros ((((((((H1 & H2) & H3) & H4) & H5) & H6) & H7) & H8) & H9).
  apply is_number_facts in H2 as [? ?], H3 as [? ?], H8 as [? ?], H9 as [? ?].
  split_and!; try done. by destruct st.
Qed.

(** What the legacy pattern takes from a text it is matched against. *)
Lemma sched_switch_shape bol p rest mt :
  Re.den SCHED_SWITCH_REGEX bol p rest [] mt ->
  exists pc pp pr st nc np npr,
    p = legacy_text pc pp pr st nc np npr /\
    mt = [("next_prio", npr); ("next_pid", np); ("next_comm", nc); ("status", st);
          ("prev_prio", pr); ("prev_pid", pp); ("prev_comm", pc)] /\
    Forall (fun d => Py.all_chars Py.isdigit d = true) [pp; pr; np; npr] /\
    Py.all_chars (fun b => negb (Py.isspace b)) st = true.
Proof.
  intros H. unfold SCHED_SWITCH_REGEX in H. repeat den_step.
  do 7 eexists. split; [reflexivity|]. split; [reflexivity|].
  split; [repeat constructor; auto using digits_of_cls|by apply nonspaces_of_cls].
Qed.

(** The legacy pattern matches a text of the older format at its start. *)
Lemma legacy_text_match pc pp pr st nc np npr :
  is_legacy_text pc pp pr st nc np npr = true ->
  is_Some (Re.m SCHED_SWITCH_REGEX true (legacy_text pc pp pr st nc np npr) []
             (fun _ _ c => Some c)).
Proof.
  intros (Hpc & Hnc & _ & Hstn & Hst & [? ?] & [? ?] & [? ?] & [? ?])%is_legacy_text_facts.
  destruct (is_comm_facts pc Hpc) as (a & r & -> & Ha & Hr & _).
  destruct (is_comm_facts nc Hnc) as (a' & r' & -> & Ha' & Hr' & _).
  assert (E : legacy_text (String a r) pp pr st (String a' r') np npr =
              ((String a "" +:+ r) +:+ String ":" "" +:+ pp +:+ String " " "" +:+
               String "[" "" +:+ pr +:+ String "]" "" +:+ String " " "" +:+ st +:+
               String " " "" +:+ String "=" "" +:+ String "=" "" +:+ String ">" "" +:+
               String " " "" +:+ (String a' "" +:+ r') +:+ String ":" "" +:+ np +:+
               String " " "" +:+ String "[" "" +:+ npr +:+ String "]" "") +:+ "").
  { unfold legacy_text. rewrite !append_assoc. reflexivity. }
  rewrite E. eapply m_complete; [|done].
  unfold SCHED_SWITCH_REGEX.
  eapply den_cat.
  { apply den_group. eapply den_cat; [|by apply star_den_any].
    exists a. by rewrite in_cls_not_space, Ha. }
  eapply den_cat; [apply den_chr|].
  eapply den_cat; [by apply den_group, den_plus_cls, digits_in_cls|].
  eapply den_cat; [apply den_chr|].
  eapply den_cat; [apply den_chr|].
  eapply den_cat; [by apply den_group, den_plus_cls, digits_in_cls|].
  eapply den_cat; [apply den_chr|].
  eapply den_cat; [apply den_chr|].
  eapply den_cat.
  { apply den_group, den_plus_cls; [done|].
    rewrite (all_chars_ext _ _ st in_cls_not_space). by apply is_token_nonspace. }
  eapply den_cat; [apply den_chr|].
  eapply den_cat; [apply den_chr|].
  eapply den_cat; [apply den_chr|].
  eapply den_cat; [apply den_chr|].
  eapply den_cat; [apply den_chr|].
  eapply den_cat.
  { apply den_group. eapply den_cat; [|by apply star_den_any].
    exists a'. by rewrite in_cls_not_space, Ha'. }
  eapply den_cat; [apply den_chr|].
  eapply den_cat; [by apply den_group, den_plus_cls, digits_in_cls|].
  eapply den_cat; [apply den_chr|].
  eapply den_cat; [apply den_chr|].
  eapply den_cat; [by apply den_group, den_plus_cls, digits_in_cls|].
  apply den_chr.
Qed.

Lemma digits_counts d :
  Py.all_chars Py.isdigit d = true -> Py.count "=" d = 0 /\ Py.count "[" d = 0.
Proof. intros Hd. split; by apply (all_chars_count Py.isdigit). Qed.

(** A command, its pid and its priority are found in one way only. *)
Lemma comm_unique a b c a' b' c' :
  Py.all_chars Py.isdigit b = true -> Py.all_chars Py.isdigit c = true ->
  Py.all_chars Py.isdigit b' = true -> Py.all_chars Py.isdigit c' = true ->
  a +:+ ":" +:+ b +:+ " [" +:+ c = a' +:+ ":" +:+ b' +:+ " [" +:+ c' ->
  a = a' /\ b = b' /\ c = c'.
Proof.
  intros Hb Hc Hb' Hc' E.
  assert (E1 : (a +:+ ":" +:+ b +:+ " ") +:+ String "[" c =
               (a' +:+ ":" +:+ b' +:+ " ") +:+ String "[" c')
    by (rewrite !append_assoc; exact E).
  apply (trailing_run Py.isdigit) in E1 as (E1 & _ & ->); [|done..].
  assert (E2 : (a +:+ ":" +:+ b) +:+ " " = (a' +:+ ":" +:+ b') +:+ " ")
    by (rewrite !append_assoc; exact E1).
  apply append_inv_tail in E2.
  change (a +:+ String ":" b = a' +:+ String ":" b') in E2.
  by apply (trailing_run Py.isdigit) in E2 as (-> & _ & ->).
Qed.

(** The parts of a text of the older format are found in one way only. *)
Lemma legacy_text_unique pc pp pr st nc np npr pc' pp' pr' st' nc' np' npr' rest :
  is_legacy_text pc pp pr st nc np npr = true ->
  Forall (fun d => Py.all_chars Py.isdigit d = true) [pp'; pr'; np'; npr'] ->
  Py.all_chars (fun b => negb (Py.isspace b)) st' = true ->
  legacy_text pc pp pr st nc np npr = legacy_text pc' pp' pr' st' nc' np' npr' +:+ rest ->
  pc' = pc /\ pp' = pp /\ pr' = pr /\ st' = st /\ nc' = nc /\ np' = np /\ npr' = npr.
Proof.
  intros (Hpc & Hnc & Hncb & _ & Htok & [_ Hpp] & [_ Hpr] & [_ Hnp] & [_ Hnpr])
    %is_legacy_text_facts Hd Hst' E.
  apply is_comm_facts in Hpc as (_ & _ & _ & _ & _ & Hpc).
  apply is_comm_facts in Hnc as (_ & _ & _ & _ & _ & Hnc).
  apply Forall_cons in Hd as [Hpp' Hd]. apply Forall_cons in Hd as [Hpr' Hd].
  apply Forall_cons in Hd as [Hnp' Hd]. apply Forall_cons in Hd as [Hnpr' _].
  destruct (digits_counts pp Hpp) as [Epp Bpp], (digits_counts pr Hpr) as [Epr Bpr].
  destruct (digits_counts np Hnp) as [Enp Bnp], (digits_counts npr Hnpr) as [Enpr Bnpr].
  destruct (digits_counts pp' Hpp') as [Epp' Bpp'], (digits_counts pr' Hpr') as [Epr' Bpr'].
  destruct (digits_counts np' Hnp') as [Enp' Bnp'], (digits_counts npr' Hnpr') as [Enpr' Bnpr'].
  assert (Hst : Py.count "=" st = 0) by by apply is_token_count_eq.
  assert (Hstn : Py.all_chars (fun b => negb (Py.isspace b)) st = true)
    by by apply is_token_nonspace.
  (* the arrow *)
  assert (Hc := f_equal (Py.count "=") E).
  unfold legacy_text in Hc. rewrite !count_append in Hc.
  rewrite Hpc, Hnc, Hst, Epp, Epr, Enp, Enpr, Epp', Epr', Enp', Enpr' in Hc.
  simpl in Hc.
  assert (E1 : (pc +:+ ":" +:+ pp +:+ " [" +:+ pr +:+ "] " +:+ st +:+ " ") +:+
                 String "=" ("=> " +:+ nc +:+ ":" +:+ np +:+ " [" +:+ npr +:+ "]") =
               (pc' +:+ ":" +:+ pp' +:+ " [" +:+ pr' +:+ "] " +:+ st' +:+ " ") +:+
                 String "=" ("=> " +:+ (nc' +:+ ":" +:+ np' +:+ " [" +:+ npr' +:+ "]") +:+
                             rest)).
  { unfold legacy_text in E. rewrite !append_assoc in E. rewrite !append_assoc. exact E. }
  apply (leading_run (fun b => negb (Ascii.eqb b "="))) in E1 as (EL & _ & ER);
    [|try done..].
  2: { apply count_zero_all. by rewrite !count_append, Hpc, Hst, Epp, Epr. }
  2: { apply count_zero_all. rewrite !count_append, Epp', Epr'. simpl. lia. }
  (* the left part, from its end *)
  assert (EL1 : (pc +:+ ":" +:+ pp +:+ " [" +:+ pr +:+ "]") +:+ String " " (st +:+ " ") =
                (pc' +:+ ":" +:+ pp' +:+ " [" +:+ pr' +:+ "]") +:+ String " " (st' +:+ " "))
    by (rewrite !append_assoc; exact EL).
  assert (EL2 : ((pc +:+ ":" +:+ pp +:+ " [" +:+ pr +:+ "]") +:+ String " " st) +:+ " " =
                ((pc' +:+ ":" +:+ pp' +:+ " [" +:+ pr' +:+ "]") +:+ String " " st') +:+ " ")
    by (rewrite !append_assoc; exact EL).
  apply append_inv_tail in EL2.
  apply (trailing_run (fun b => negb (Py.isspace b))) in EL2 as (EL3 & _ & ->);
    [|done..].
  assert (EL4 : (pc +:+ ":" +:+ pp +:+ " [" +:+ pr) +:+ "]" =
                (pc' +:+ ":" +:+ pp' +:+ " [" +:+ pr') +:+ "]")
    by (rewrite !append_assoc; exact EL3).
  apply append_inv_tail, comm_unique in EL4 as (-> & -> & ->); [|done..].
  (* the right part: its bracket first *)
  injection ER as ER.
  assert (Hb := f_equal (Py.count "[") ER).
  rewrite !count_append in Hb.
  rewrite Hncb, Bnp, Bnpr, Bnp', Bnpr' in Hb.
  simpl in Hb.
  assert (ER1 : (nc +:+ ":" +:+ np +:+ " ") +:+ String "[" (npr +:+ "]") =
                (nc' +:+ ":" +:+ np' +:+ " ") +:+ String "[" (npr' +:+ "]" +:+ rest))
    by (rewrite !append_assoc; rewrite !append_assoc in ER; exact ER).
  apply (leading_run (fun b => negb (Ascii.eqb b "["))) in ER1 as (ER2 & _ & ER3);
    [|try done..].
  2: { apply count_zero_all. by rewrite !count_append, Hncb, Bnp. }
  2: { apply count_zero_all. rewrite !count_append, Bnp'. simpl. lia. }
  change (npr +:+ String "]" "" = npr' +:+ String "]" rest) in ER3.
  apply (leading_run Py.isdigit) in ER3 as (-> & _ & <-); [|done..].
  assert (ER4 : (nc +:+ ":" +:+ np) +:+ " " = (nc' +:+ ":" +:+ np') +:+ " ")
    by (rewrite !append_assoc; exact ER2).
  apply append_inv_tail in ER4.
  change (nc +:+ String ":" np = nc' +:+ String ":" np') in ER4.
  by apply (trailing_run Py.isdigit) in ER4 as (-> & _ & ->).
Qed.

(** The groups of the legacy pattern on a text of the older format. *)
Lemma legacy_text_groups pc pp pr st nc np npr :
  is_legacy_text pc pp pr st nc np npr = true ->
  Re.search SCHED_SWITCH_REGEX (legacy_text pc pp pr st nc np npr) =
    Some [("next_prio", npr); ("next_pid", np); ("next_comm", nc); ("status", st);
          ("prev_prio", pr); ("prev_pid", pp); ("prev_comm", pc)].
Proof.
  intros Hdoc. destruct (legacy_text_match _ _ _ _ _ _ _ Hdoc) as [mt Hm].
  unfold Re.search. rewrite search_from_head, Hm.
  apply m_sound in Hm as (p & rest & c' & E & HD & [= ->]).
  apply sched_switch_shape in HD
    as (pc' & pp' & pr' & st' & nc' & np' & npr' & -> & -> & Hd & Hst').
  by destruct (legacy_text_unique _ _ _ _ _ _ _ _ _ _ _ _ _ _ _ Hdoc Hd Hst' E)
    as (-> & -> & -> & -> & -> & -> & ->).
Qed.

Lemma count_legacy_text pc pp pr st nc np npr :
  is_legacy_text pc pp pr st nc np npr = true ->
  Py.count "=" (legacy_text pc pp pr st nc np npr) = 2.
Proof.
  intros (Hpc & Hnc & _ & _ & Hst & [_ H1] & [_ H2] & [_ H3] & [_ H4])%is_legacy_text_facts.
  apply is_comm_facts in Hpc as (_ & _ & _ & _ & _ & Hpc).
  apply is_comm_facts in Hnc as (_ & _ & _ & _ & _ & Hnc).
  apply (all_chars_count Py.isdigit "=") in H1, H2, H3, H4; try done.
  unfold legacy_text. rewrite !count_append.
  rewrite Hpc, Hnc, H1, H2, H3, H4, (is_token_count_eq st Hst). reflexivity.
Qed.

(** X18 (a [sched_switch] body of the older format is read back).  A text
    [comm:pid [prio] state ==> comm:pid [prio]], where a command name starts
    with no whitespace and holds neither a line feed nor [=], the name of
    the next command holds no [[], the pids and the priorities are digits
    and the state is a token, is matched by the legacy pattern with exactly
    these parts as its groups; the [sched_switch] parser raises nothing,
    leaves the slots of the event as they are and sets the seven fields: the
    pids and the priorities as their integers, the names and the state as
    integers when [int] reads them and as the strings otherwise.  The other
    fields of the event are untouched. *)
Theorem X18_legacy_sched_switch (event : event_obj) (pc pp pr st nc np npr : string) :
  is_legacy_text pc pp pr st nc np npr = true ->
  let body := legacy_text pc pp pr st nc np npr in
  Re.search SCHED_SWITCH_REGEX body =
    Some [("next_prio", npr); ("next_pid", np); ("next_comm", nc); ("status", st);
          ("prev_prio", pr); ("prev_pid", pp); ("prev_comm", pc)] /\
  let out := sched_switch_parser event body in
  out.2 = None /\ header out.1 = header event /\
  fields out.1 =
    list_to_map
      [("prev_comm", int_or_str pc); ("prev_pid", VInt (Py.digits_value 0 pp));
       ("prev_prio", VInt (Py.digits_value 0 pr)); ("status", int_or_str st);
       ("next_comm", int_or_str nc); ("next_pid", VInt (Py.digits_value 0 np));
       ("next_prio", VInt (Py.digits_value 0 npr))] ∪ fields event.
Proof using iteritems_perm.
  intros Hdoc body. split; [by apply legacy_text_groups|]. cbn zeta.
  rewrite (sched_switch_uses_regex event body (count_legacy_text _ _ _ _ _ _ _ Hdoc)).
  destruct (regex_parser_func_match SCHED_SWITCH_REGEX event body _
              (legacy_text_groups _ _ _ _ _ _ _ Hdoc)) as (left & -> & Hh & Hl).
  { rewrite sched_switch_groupdict. intros k v Hk.
    apply elem_of_list_to_map_2 in Hk.
    repeat (apply elem_of_cons in Hk as [[= -> ->]|Hk]; [by eexists|]).
    by apply elem_of_nil in Hk. }
  split_and!; [done|done|]. cbn [fst].
  destruct (is_legacy_text_facts _ _ _ _ _ _ _ Hdoc)
    as (_ & _ & _ & _ & _ & [? ?] & [? ?] & [? ?] & [? ?]).
  rewrite <-(int_or_str_digits pp), <-(int_or_str_digits pr), <-(int_or_str_digits np),
    <-(int_or_str_digits npr) by done.
  pose (M := [("prev_comm", pc); ("prev_pid", pp); ("prev_prio", pr); ("status", st);
              ("next_comm", nc); ("next_pid", np); ("next_prio", npr)]).
  assert (G1 : list_to_map
                 [("prev_comm", Some pc); ("prev_pid", Some pp); ("prev_prio", Some pr);
                  ("status", Some st); ("next_comm", Some nc); ("next_pid", Some np);
                  ("next_prio", Some npr)] =
               Some <$> (list_to_map M : gmap string string))
    by (by rewrite <-list_to_map_fmap).
  assert (G2 : list_to_map
                 [("prev_comm", int_or_str pc); ("prev_pid", int_or_str pp);
                  ("prev_prio", int_or_str pr); ("status", int_or_str st);
                  ("next_comm", int_or_str nc); ("next_pid", int_or_str np);
                  ("next_prio", int_or_str npr)] =
               int_or_str <$> (list_to_map M : gmap string string))
    by (by rewrite <-list_to_map_fmap).
  apply map_eq. intros k.
  rewrite Hl, sched_switch_groupdict, lookup_union, G1, G2, !lookup_fmap.
  destruct (_ !! k) as [v|]; simpl; by destruct (fields event !! k).
Qed.

End TraceCmd.

(** * Instances: the theorems at concrete inputs, and the inputs at which
    the claims as first stated fail *)

Lemma map_to_list_order (d : gmap string (option string)) : map_to_list d ≡ₚ map_to_list d.
Proof. reflexivity. Defined.

Lemma C1_witness :
  filter_markers (sample_reader true []) = true /\
  parse_loop numeric_model map_to_list refuse_other
      (sample_reader true []) [] true [stop_line; dropped_line] =
    {| emitted := []; lines_read := 1; ended := Stopped |} /\
  (let r := parse_loop numeric_model map_to_list refuse_other (sample_reader true []) [] false
              ([event_line_a] ++ start_line :: [dropped_line] ++ stop_line :: [dropped_line]) in
   ended r = Stopped /\ lines_read r = 4 /\ events (emitted r) = [dropped_event 3]).
Proof.
  pose proof (C1_marker_region numeric_model map_to_list refuse_other
      (sample_reader true []) [] eq_refl)
    as (_ & _ & Hstop & _ & Hall).
  split_and!; [reflexivity| |].
  - by apply (Hstop stop_line [dropped_line]).
  - destruct (Hall [event_line_a] start_line [dropped_line] stop_line [dropped_line])
      as (_ & H & _); [by repeat constructor|reflexivity|by repeat constructor|reflexivity|].
    destruct (H eq_refl) as (H1 & H2 & _ & H4).
    cbn zeta. split_and!; [exact H1|exact H2|]. rewrite H4. reflexivity.
Defined.

Lemma C2_witness :
  TraceCmdEvent numeric_model "th-1" "001" "1.5" "foo" "a=1" (Some failing_parser) =
    Ok (set_field "seen" (VInt 1) (fresh_event "th-1" 1 (VFloat "1.5") "foo" "a=1")) /\
  process_line_in numeric_model map_to_list refuse_other {[ "foo" := Callable failing_parser ]}
    (sample_reader false []) [] false event_line_a =
    Next false
      [Yield (set_field "seen" (VInt 1) (fresh_event "th-1" 1 (VFloat "1.5") "foo" "a=1"))] /\
  parse_loop_in numeric_model map_to_list refuse_other {[ "foo" := Callable failing_parser ]}
    (sample_reader false []) [] false [event_line_a] =
    {| emitted :=
         [Yield (set_field "seen" (VInt 1) (fresh_event "th-1" 1 (VFloat "1.5") "foo" "a=1"))];
       lines_read := 1; ended := Exhausted |}.
Proof.
  destruct (C2_parser_error_discarded numeric_model map_to_list refuse_other failing_parser
              "th-1" "001" "1.5" "foo" "a=1" 1%Z (VFloat "1.5")
              (set_field "seen" (VInt 1) (fresh_event "th-1" 1 (VFloat "1.5") "foo" "a=1"))
              (Exception_ "RuntimeError") eq_refl eq_refl eq_refl eq_refl) as [H1 H2].
  split; [exact H1|].
  destruct (H2 {[ "foo" := Callable failing_parser ]} (sample_reader false []) [] false
              event_line_a
              [("body", "a=1"); ("name", "foo"); ("ts", "1.5"); ("cpu_id", "001");
               ("thread", "th-1")]) as [H3 H4];
    [by left|reflexivity..|by left|reflexivity|].
  split; [exact H3|]. exact (H4 []).
Defined.

Lemma C3_witness :
  Nat.even (length (body_parts "cpu=0 load=54")) = true /\
  fields (default_body_parser sample_event "cpu=0 load=54").1 !! "cpu" = Some (VInt 0) /\
  fields (default_body_parser sample_event "cpu=0 load=54").1 !! "load" = Some (VInt 54) /\
  spec_body_parts "cpu=0 load=54" = body_parts "cpu=0 load=54".
Proof.
  destruct (C3_default_body_parser sample_event "cpu=0 load=54")
    as (_ & _ & _ & _ & _ & Heven & Hspec & _).
  split_and!.
  - reflexivity.
  - exact (Heven eq_refl "cpu").
  - exact (Heven eq_refl "load").
  - apply Hspec; by intros f [= <-].
Defined.

Lemma C4_witness :
  Py.count "=" "a:1 [120] R ==> b:2 [100]" = 2 /\
  sched_switch_parser map_to_list refuse_other sample_event "a:1 [120] R ==> b:2 [100]" =
    regex_parser_func map_to_list SCHED_SWITCH_REGEX sample_event "a:1 [120] R ==> b:2 [100]".
Proof.
  split; [reflexivity|].
  apply (C4_sched_switch_parser map_to_list map_to_list_order refuse_other).
  reflexivity.
Defined.

Lemma C5_witness :
  Py.int "abc" = None /\
  TraceCmdEvent numeric_model "th-1" "abc" "1.5" "foo" "bar" None = Raise ValueError /\
  Py.int "007" = Some 7%Z /\
  TraceCmdEvent numeric_model "th-1" "007" "1.5" "foo" "bar" None =
    Ok (fresh_event "th-1" 7 (VFloat "1.5") "foo" "bar").
Proof.
  split_and!; [reflexivity| |reflexivity|].
  - by apply (C5_cpu_id numeric_model map_to_list refuse_other
                "th-1" "abc" "1.5" "foo" "bar" None).
  - by apply (C5_cpu_id numeric_model map_to_list refuse_other
                "th-1" "007" "1.5" "foo" "bar" None).
Defined.

Lemma C6_witness :
  Re.search DROPPED_EVENTS_REGEX ("CPU:3 [42 EVENTS DROPPED]" +:+ nl) = Some [("cpu_id", "3")] /\
  filter_markers (sample_reader false []) = false /\
  exists d n,
    Re.group "cpu_id" [("cpu_id", "3")] = Some d /\ d <> "" /\
    Py.all_chars Py.isdigit d = true /\
    n = Py.digits_value 0 d /\ (0 <= n)%Z /\
    process_line numeric_model map_to_list refuse_other (sample_reader false []) [] false
      ("CPU:3 [42 EVENTS DROPPED]" +:+ nl) =
      Next false
        [Yield {| cls := DroppedEventsEvent_class; thread := VNone;
                  reporting_cpu_id := VNone; timestamp := VNone;
                  name := VStr "DROPPED EVENTS DETECTED"; text := VNone;
                  fields := {[ "cpu_id" := VInt n ]} |}].
Proof.
  split_and!; [reflexivity..|].
  apply (C6_dropped_events numeric_model map_to_list refuse_other (sample_reader false []) [] false
           ("CPU:3 [42 EVENTS DROPPED]" +:+ nl) [("cpu_id", "3")]).
  - reflexivity.
  - by left.
Defined.

Lemma C7_witness :
  Re.compile "(?P<a>x)?(?P<b>y)" = Some OPTIONAL_GROUP_REGEX /\
  (regex_parser_func map_to_list OPTIONAL_GROUP_REGEX sample_event "y").2 = Some TypeError /\
  fields (regex_parser_func map_to_list OPTIONAL_GROUP_REGEX sample_event "y").1 !! "a" = None.
Proof.
  split; [reflexivity|].
  destruct (C7_unmatched_group_raises map_to_list map_to_list_order refuse_other sample_event
              OPTIONAL_GROUP_REGEX eq_refl) as (_ & _ & _ & Hr & Ha).
  split; [exact Hr|]. rewrite Ha. reflexivity.
Defined.

Lemma C8_witness :
  ("load" ∉ slot_names) /\ ("load" ∉ class_attrs) /\
  ("nope" ∉ slot_names) /\ ("nope" ∉ class_attrs) /\
  getattr (set_field "load" (VInt 54) sample_event) "load" = Ok (AVal (VInt 54)) /\
  getattr (set_field "load" (VInt 54) sample_event) "nope" = Raise (AttributeError "nope") /\
  getattr (set_field "name" (VStr "arch_timer") sample_event) "name" =
    Ok (AVal (VStr "sched_rq_runnable_load")).
Proof.
  assert (H1 : "load" ∉ slot_names) by (by apply not_elem_of_eqb).
  assert (H2 : "load" ∉ class_attrs) by (by apply not_elem_of_eqb).
  assert (H3 : "nope" ∉ slot_names) by (by apply not_elem_of_eqb).
  assert (H4 : "nope" ∉ class_attrs) by (by apply not_elem_of_eqb).
  split_and!; [done..| | |].
  - by apply (proj1 (C8_field_access (set_field "load" (VInt 54) sample_event) "load") H1 H2).
  - by apply (proj1 (C8_field_access (set_field "load" (VInt 54) sample_event) "nope") H3 H4).
  - rewrite (proj2 (proj2 (C8_field_access sample_event "name"))); [reflexivity| |done].
    apply list_elem_of_In. simpl. tauto.
Defined.

Lemma C9_witness :
  names (sample_reader false ["sched_switch"]) <> [] /\
  make_filters refuse_other (names (sample_reader false ["sched_switch"])) =
    Ok [compiled "^sched_switch$"] /\
  existsb (fun f => matches f "foo") [compiled "^sched_switch$"] = false /\
  process_line numeric_model map_to_list refuse_other (sample_reader false ["sched_switch"])
    [compiled "^sched_switch$"] false event_line_a = Next false [].
Proof.
  assert (Hn : names (sample_reader false ["sched_switch"]) <> []) by done.
  split_and!; [done|reflexivity..|].
  destruct (C9_name_filter numeric_model map_to_list refuse_other
      (sample_reader false ["sched_switch"])
              [compiled "^sched_switch$"] "" Hn eq_refl) as (_ & Hskip & _).
  apply (Hskip false event_line_a
           [("body", "a=1"); ("name", "foo"); ("ts", "1.5"); ("cpu_id", "001");
            ("thread", "th-1")] "foo"); first [reflexivity|by left].
Defined.

Lemma C10_witness :
  body_brackets_ok ("001] 1.234: sched_switch: a:1 [120] R ==> b:2 [100]" +:+ nl) = true /\
  Re.search TRACE_EVENT_REGEX
    ("  X [001] 1.234: sched_switch: a:1 [120] R ==> b:2 [100]" +:+ nl) = None /\
  process_line numeric_model map_to_list refuse_other (sample_reader false []) [] false
    ("  X [001] 1.234: sched_switch: a:1 [120] R ==> b:2 [100]" +:+ nl) =
    Next false
      [Log Warning
         (invalid_message
            ("  X [001] 1.234: sched_switch: a:1 [120] R ==> b:2 [100]" +:+ nl))].
Proof.
  pose proof (C10_single_char_thread numeric_model map_to_list refuse_other
      (sample_reader false []) []
                false "  " "X" " "
                ("001] 1.234: sched_switch: a:1 [120] R ==> b:2 [100]" +:+ nl)
                eq_refl eq_refl eq_refl eq_refl) as (_ & H1 & H2).
  split_and!; [reflexivity|exact H1|].
  apply H2; [by left|reflexivity..].
Defined.

Lemma C3_counterexample :
  spec_body_parts "a b=1" = ["a b"; "1"] /\
  fields (spec_default_body_parser sample_event "a b=1").1 !! "a b" = Some (VInt 1) /\
  body_parts "a b=1" = ["a"; "b"; "1"] /\
  default_body_parser sample_event "a b=1" = (sample_event, None) /\
  fields sample_event !! "a b" = None.
Proof. split_and!; reflexivity. Qed.

(** C4, as first stated: on a legacy text whose previous command is the
    digit [7], the pattern is selected and the field [prev_comm] holds the
    integer 7, not a string, whatever the order in which the groups are
    stored. *)
Lemma C4_counterexample :
  Py.count "=" "7:1 [120] R ==> b:2 [100]" = 2 /\
  Re.search SCHED_SWITCH_REGEX "7:1 [120] R ==> b:2 [100]" =
    Some [("next_prio", "100"); ("next_pid", "2"); ("next_comm", "b"); ("status", "R");
          ("prev_prio", "120"); ("prev_pid", "1"); ("prev_comm", "7")] /\
  (forall (iteritems : gmap string (option string) -> list (string * option string))
          (compile_other : string -> Z -> result Re.re),
     (forall d, iteritems d ≡ₚ map_to_list d) ->
     fields (sched_switch_parser iteritems compile_other sample_event
               "7:1 [120] R ==> b:2 [100]").1
       !! "prev_comm" = Some (VInt 7)).
Proof.
  split_and!; [reflexivity..|]. intros iteritems compile_other Hperm.
  by destruct (sched_switch_fields iteritems Hperm compile_other sample_event
                 "7:1 [120] R ==> b:2 [100]" "7" "1" "120" "R" "b" "2" "100"
                 eq_refl eq_refl) as (_ & -> & _).
Qed.

(** C5, as first stated: the constructor raises the [ValueError] of [int],
    no error of a class [MalformedHeader], which the code does not define;
    and a parser that assigns the CPU slot leaves an event whose CPU id is
    not the integer of the text. *)
Lemma C5_counterexample :
  TraceCmdEvent numeric_model "th-1" "abc" "1.5" "foo" "bar" None = Raise ValueError /\
  ValueError <> Exception_ "MalformedHeader" /\
  Py.int "3" = Some 3%Z /\
  exists ev,
    TraceCmdEvent numeric_model "th-1" "3" "1.5" "foo" "bar" (Some overwriting_parser) =
      Ok ev /\
    reporting_cpu_id ev = VInt 7 /\ VInt 7 <> VInt 3.
Proof. split_and!; [reflexivity|done|reflexivity|]. by eexists. Qed.

(** C6, as first stated: with the marker filtering on, as it is by default,
    a file that is one dropped-events line yields nothing, the line being
    read while the start marker is awaited. *)
Lemma C6_counterexample :
  Re.search DROPPED_EVENTS_REGEX ("CPU:3 [42 EVENTS DROPPED]" +:+ nl) = Some [("cpu_id", "3")] /\
  parse numeric_model map_to_list refuse_other
      (sample_reader true []) ("CPU:3 [42 EVENTS DROPPED]" +:+ nl) =
    {| emitted := []; lines_read := 1; ended := Exhausted |}.
Proof. split; reflexivity. Qed.

(** C8, as first stated: the body [irq=30 name=arch_timer] makes [name] a
    key of the fields, and the access to [name] gives the name of the event,
    not the stored value. *)
Lemma C8_counterexample :
  exists ev,
    TraceCmdEvent numeric_model "th-1" "0" "1.5" "irq_handler_entry"
      "irq=30 name=arch_timer" (Some default_body_parser) = Ok ev /\
    fields ev !! "name" = Some (VStr "arch_timer") /\
    getattr ev "name" = Ok (AVal (VStr "irq_handler_entry")).
Proof. eexists. split_and!; reflexivity. Qed.

(** C9, as first stated: with the one filter [sched_switch], a line of the
    event pattern whose name is [foo] and whose body holds a dropped-events
    notice yields an event, and its name is not [sched_switch]; and a line
    of the event pattern of another name that holds the stop marker is not
    skipped inside the region: it ends the stream. *)
Lemma C9_counterexample :
  Re.search TRACE_EVENT_REGEX (" th-1 [001] 1.5: foo: CPU:3 [42 EVENTS DROPPED]" +:+ nl) =
    Some [("body", "CPU:3 [42 EVENTS DROPPED]"); ("name", "foo"); ("ts", "1.5");
          ("cpu_id", "001"); ("thread", "th-1")] /\
  matches (compiled "^sched_switch$") "foo" = false /\
  map name
    (events (emitted
       (parse numeric_model map_to_list refuse_other (sample_reader false ["sched_switch"])
          (" th-1 [001] 1.5: foo: CPU:3 [42 EVENTS DROPPED]" +:+ nl)))) =
    [VStr "DROPPED EVENTS DETECTED"] /\
  Re.search TRACE_EVENT_REGEX
    (" th-1 [001] 1.5: tracing_mark_write: TRACE_MARKER_STOP" +:+ nl) =
    Some [("body", "TRACE_MARKER_STOP"); ("name", "tracing_mark_write"); ("ts", "1.5");
          ("cpu_id", "001"); ("thread", "th-1")] /\
  process_line numeric_model map_to_list refuse_other (sample_reader true ["sched_switch"])
    [compiled "^sched_switch$"] true
    (" th-1 [001] 1.5: tracing_mark_write: TRACE_MARKER_STOP" +:+ nl) = Break.
Proof. split_and!; reflexivity. Qed.

(** C10, as first stated: a line whose thread is the one character [X], and
    whose body holds a bracketed number, a timestamp and a name again,
    matches the event pattern, the thread group running up to the second
    bracket, and yields an event; and such a line with a dropped-events
    notice in its body yields the event of the notice and is not reported
    as invalid. *)
Lemma C10_counterexample :
  Re.search TRACE_EVENT_REGEX ("  X [001] 1.234: foo: [1] 2.0: y: z" +:+ nl) =
    Some [("body", "z"); ("name", "y"); ("ts", "2.0"); ("cpu_id", "1");
          ("thread", "X [001] 1.234: foo:")] /\
  map (fun ev => (thread ev, reporting_cpu_id ev, name ev))
    (events (emitted
       (parse numeric_model map_to_list refuse_other (sample_reader false [])
          ("  X [001] 1.234: foo: [1] 2.0: y: z" +:+ nl)))) =
    [(VStr "X [001] 1.234: foo:", VInt 1, VStr "y")] /\
  process_line numeric_model map_to_list refuse_other (sample_reader false []) [] false
    ("  X [001] 1.234: foo: CPU:3 [42 EVENTS DROPPED]" +:+ nl) =
    Next false [Yield (dropped_event 3)].
Proof. split_and!; reflexivity. Qed.

(** * The further properties at concrete inputs *)

Lemma X2_witness :
  filter_markers (sample_reader true []) = true /\
  has_start_marker ∅ 1%N (dropped_line +:+ event_line_a) = (false, {[ 1%N := false ]}) /\
  parse numeric_model map_to_list refuse_other (sample_reader true [])
    (dropped_line +:+ event_line_a) =
    {| emitted := []; lines_read := 2; ended := Exhausted |}.
Proof.
  split_and!; [reflexivity..|].
  apply (X2_no_start_marker numeric_model map_to_list refuse_other (sample_reader true []) []
           ∅ 1%N (dropped_line +:+ event_line_a)); reflexivity.
Defined.

Lemma X3_witness :
  let r := parse_loop numeric_model map_to_list refuse_other (sample_reader true []) [] false
             ([event_line_a] ++ start_line :: [dropped_line; event_line_a] ++
              stop_line :: [dropped_line]) in
  emitted r = [Yield (dropped_event 3); Yield event_a] /\
  ended r = Stopped /\ lines_read r = 5.
Proof.
  destruct (X3_marked_region numeric_model map_to_list refuse_other (sample_reader true []) []
              [event_line_a] start_line [dropped_line; event_line_a] stop_line
              [dropped_line]) as (H1 & H2 & H3);
    [reflexivity|by repeat constructor|reflexivity|by repeat constructor|reflexivity|].
  cbn zeta in *. rewrite H1, H2, H3. split_and!; reflexivity.
Defined.

Lemma X4_witness :
  let r := parse_loop numeric_model map_to_list refuse_other (sample_reader true []) [] false
             ([event_line_a] ++ start_line :: [dropped_line; event_line_a]) in
  emitted r = [Yield (dropped_event 3); Yield event_a] ++ no_stop_warning /\
  ended r = Exhausted /\ lines_read r = 4.
Proof.
  destruct (X4_missing_stop_marker numeric_model map_to_list refuse_other (sample_reader true []) []
              [event_line_a] start_line [dropped_line; event_line_a]) as (H1 & _ & H2 & H3);
    [reflexivity|by repeat constructor|reflexivity|by repeat constructor|].
  cbn zeta in *. rewrite H1, H2, H3. split_and!; reflexivity.
Defined.

Lemma X6_witness :
  filter_markers (sample_reader false []) = false /\
  parse_loop numeric_model map_to_list refuse_other (sample_reader false []) [] false
    ([dropped_line] ++ [event_line_a]) =
    {| emitted := [Yield (dropped_event 3)] ++ [Yield event_a]; lines_read := 1 + 1;
       ended := Exhausted |}.
Proof.
  split; [reflexivity|].
  rewrite (X6_lines_independent numeric_model map_to_list refuse_other
      (sample_reader false []) [] false
             [dropped_line] [event_line_a] eq_refl).
  reflexivity.
Defined.

Lemma X7_witness :
  event_a ∈ events (emitted (parse numeric_model map_to_list refuse_other (sample_reader false [])
                               (dropped_line +:+ event_line_a))) /\
  stream_event numeric_model event_a.
Proof.
  assert (H : event_a ∈ events (emitted (parse numeric_model map_to_list refuse_other
                                           (sample_reader false [])
                                           (dropped_line +:+ event_line_a)))).
  { change (event_a ∈ [dropped_event 3; event_a]). by right; left. }
  split; [exact H|].
  exact (X7_stream_events numeric_model map_to_list refuse_other (sample_reader false [])
           (dropped_line +:+ event_line_a) event_a H).
Defined.


Lemma X9_witness :
  Re.search DROPPED_EVENTS_REGEX event_line_a = None /\
  matches HEADER_REGEX event_line_a = false /\
  matches EMPTY_CPU_REGEX event_line_a = false /\
  Re.search TRACE_EVENT_REGEX event_line_a =
    Some [("body", "a=1"); ("name", "foo"); ("ts", "1.5"); ("cpu_id", "001");
          ("thread", "th-1")] /\
  process_line numeric_model map_to_list refuse_other
      (sample_reader false []) [] false event_line_a =
    Next false [Yield event_a].
Proof.
  split_and!; [reflexivity..|].
  apply (X9_event_line numeric_model map_to_list refuse_other (sample_reader false []) [] false
           event_line_a
           [("body", "a=1"); ("name", "foo"); ("ts", "1.5"); ("cpu_id", "001");
            ("thread", "th-1")] "th-1" "001" "1.5" "foo" "a=1");
    first [reflexivity|by left].
Defined.

Lemma X10_witness :
  is_sep " " = true /\
  format_pairs " " [("cpu", "0"); ("load", "54")] = "cpu=0 load=54" /\
  default_body_parser sample_event "cpu=0 load=54" =
    (store_pairs [("cpu", "0"); ("load", "54")] sample_event, None).
Proof.
  split_and!; [reflexivity..|].
  apply (X10_default_body_parser_pairs sample_event " " [("cpu", "0"); ("load", "54")]);
    [reflexivity|by repeat constructor].
Defined.

Lemma X11_witness :
  Py.count "=" "hello world" = 0 /\
  default_body_parser sample_event "hello world" =
    (set_field "hello" (VStr "world") sample_event, None).
Proof.
  split; [reflexivity|].
  apply (proj2 (X11_default_body_parser_free_text sample_event "hello world" eq_refl)
           "hello" "world"); reflexivity.
Defined.

Lemma X12_witness :
  Re.compile SCHED_SWITCH_SOURCE = Some SCHED_SWITCH_REGEX /\
  regex_body_parser map_to_list refuse_other (Source SCHED_SWITCH_SOURCE) 0 =
    Ok (regex_parser_func map_to_list SCHED_SWITCH_REGEX) /\
  fields (regex_parser_func map_to_list SCHED_SWITCH_REGEX sample_event
            "a:1 [120] R ==> b:2 [100]").1 !! "prev_pid" = Some (VInt 1).
Proof.
  destruct (X12_regex_body_parser map_to_list map_to_list_order refuse_other
              (Source SCHED_SWITCH_SOURCE) 0 sample_event "a:1 [120] R ==> b:2 [100]")
    as (_ & _ & H).
  destruct (H SCHED_SWITCH_REGEX eq_refl) as (H1 & _ & H3).
  split_and!; [reflexivity|exact H1|].
  assert (E : Re.names SCHED_SWITCH_REGEX =
                ["prev_comm"; "prev_pid"; "prev_prio"; "status"; "next_comm"; "next_pid";
                 "next_prio"]) by reflexivity.
  destruct (H3 [("next_prio", "100"); ("next_pid", "2"); ("next_comm", "b"); ("status", "R");
                ("prev_prio", "120"); ("prev_pid", "1"); ("prev_comm", "a")] eq_refl)
    as (_ & _ & Hk & _).
  - intros k Hk. rewrite E in Hk.
    repeat (apply elem_of_cons in Hk as [->|Hk]; [by eexists|]).
    by apply elem_of_nil in Hk.
  - apply (Hk "prev_pid" "1"); [|reflexivity]. rewrite E. by right; left.
Defined.

Lemma X13_witness :
  Py.count "=" "a=1 b=2" = 2 /\ Py.contains " ==> " "a=1 b=2" = false /\
  sched_switch_parser map_to_list refuse_other sample_event "a=1 b=2" = (sample_event, None).
Proof.
  split_and!; [reflexivity..|].
  by apply (X13_sched_switch_parser_other_texts map_to_list map_to_list_order refuse_other
              sample_event "a=1 b=2").
Defined.

Lemma X14_witness :
  format_pairs " " [("prev_comm", "a"); ("prev_pid", "1")] +:+ " ==> " +:+
    format_pairs " " [("next_comm", "b"); ("next_pid", "2")] =
    "prev_comm=a prev_pid=1 ==> next_comm=b next_pid=2" /\
  sched_switch_parser map_to_list refuse_other sample_event
    "prev_comm=a prev_pid=1 ==> next_comm=b next_pid=2" =
    (store_pairs [("prev_comm", "a"); ("prev_pid", "1"); ("next_comm", "b");
                  ("next_pid", "2")] sample_event, None).
Proof.
  split; [reflexivity|].
  apply (X14_sched_switch_pairs map_to_list refuse_other sample_event
           [("prev_comm", "a"); ("prev_pid", "1")] [("next_comm", "b"); ("next_pid", "2")]);
    first [done|by repeat constructor].
Defined.

Lemma X15_witness :
  Forall (fun n => is_plain_name n = true)
    (names (sample_reader false ["sched_switch"; "foo"])) /\
  exists filters,
    make_filters refuse_other ["sched_switch"; "foo"] = Ok filters /\
    existsb (fun f => matches f "foo") filters = true /\
    ~ existsb (fun f => matches f "bar") filters = true.
Proof.
  assert (H : Forall (fun n => is_plain_name n = true)
                (names (sample_reader false ["sched_switch"; "foo"])))
    by (by repeat constructor).
  split; [exact H|].
  destruct (X15_plain_name_filters numeric_model map_to_list refuse_other
              (sample_reader false ["sched_switch"; "foo"]) "" H)
    as (filters & Hf & Hiff & _).
  exists filters. split_and!; [exact Hf| |].
  - apply Hiff; [reflexivity|]. by right; left.
  - intros Hm. apply Hiff in Hm; [|reflexivity].
    repeat (apply elem_of_cons in Hm as [Hm|Hm]; [discriminate Hm|]).
    by apply elem_of_nil in Hm.
Defined.

Lemma X16_witness :
  is_event_text " " "<idle>-0" "     " "000" "  " "3284.126993" "sched_rq_runnable_load"
    "cpu=0 load=54" nl = true /\
  process_line numeric_model map_to_list refuse_other (sample_reader false []) [] false
    (" <idle>-0     [000]  3284.126993: sched_rq_runnable_load: cpu=0 load=54" +:+ nl) =
    Next false
      [Yield (store_pairs [("cpu", "0"); ("load", "54")]
                (fresh_event "<idle>-0" 0 (VFloat "3284.126993") "sched_rq_runnable_load"
                   "cpu=0 load=54"))].
Proof.
  split; [reflexivity|].
  destruct (X16_documented_line numeric_model map_to_list refuse_other
      (sample_reader false []) [] false
              " " "<idle>-0" "     " "000" "  " "3284.126993" "sched_rq_runnable_load"
              "cpu=0 load=54" nl eq_refl eq_refl eq_refl (or_introl eq_refl)
              (or_introl eq_refl)) as (_ & _ & H).
  apply (H " " [("cpu", "0"); ("load", "54")] (VFloat "3284.126993"));
    first [reflexivity|by repeat constructor|done].
Defined.


Lemma X17_witness :
  process_line numeric_model map_to_list refuse_other
      (sample_reader false []) [] false ("cpus=4" +:+ nl) =
    Next false [Log Debug "cpus=4"] /\
  process_line numeric_model map_to_list refuse_other (sample_reader true []) [] true
    ("CPU 3 is empty" +:+ nl) = Next true [Log Debug "CPU 3 is empty"].
Proof.
  split.
  - apply (proj1 (X17_skipped_lines numeric_model map_to_list refuse_other
      (sample_reader false []) [] false
                    ("cpus=4" +:+ nl) (or_introl eq_refl)) "" "cpus" "" "" "4" "" nl);
      first [reflexivity|by right|done].
  - apply (proj2 (X17_skipped_lines numeric_model map_to_list refuse_other
      (sample_reader true []) [] true
                    ("CPU 3 is empty" +:+ nl) (or_intror (conj eq_refl eq_refl))) "" "3" nl);
      first [reflexivity|done].
Defined.


Lemma X18_witness :
  is_legacy_text "kworker/0:1" "123" "120" "S" "swapper/0" "0" "120" = true /\
  legacy_text "kworker/0:1" "123" "120" "S" "swapper/0" "0" "120" =
    "kworker/0:1:123 [120] S ==> swapper/0:0 [120]" /\
  fields (sched_switch_parser map_to_list refuse_other sample_event
            "kworker/0:1:123 [120] S ==> swapper/0:0 [120]").1 =
    list_to_map
      [("prev_comm", VStr "kworker/0:1"); ("prev_pid", VInt 123); ("prev_prio", VInt 120);
       ("status", VStr "S"); ("next_comm", VStr "swapper/0"); ("next_pid", VInt 0);
       ("next_prio", VInt 120)] ∪ fields sample_event.
Proof.
  split_and!; [reflexivity..|].
  destruct (X18_legacy_sched_switch map_to_list map_to_list_order refuse_other sample_event
              "kworker/0:1" "123" "120" "S" "swapper/0" "0" "120" eq_refl)
    as (_ & _ & _ & H).
  exact H.
Defined.
